(** * g6 member management and social login: a shallow embedding

    The development embeds three pieces of the board's Python code:

    - [SocialAuthService.g5_convert_social_id] of [_bbs/social.py], with
      the two library hashes it calls ([hashlib.md5], [zlib.adler32]);
    - the social login callback and the social registration handler of
      [_bbs/social.py];
    - the administrator's [member_form_update] of [_admin/admin_member.py].

    A Python [str] is a Rocq [string] holding its UTF-8 bytes, so that
    [str.encode()] is the list of its characters read as bytes.  Database
    tables are lists of rows in storage order; a request handler is a
    function from the state it reads to its response and the state it
    leaves behind. *)

From Stdlib Require Import ZArith List Ascii Bool Lia.
From Stdlib Require String.
From stdpp Require Import base option list strings gmap.

Local Open Scope Z_scope.

(* ===================================================================== *)
(** ** Python primitives used by the handlers *)
(* ===================================================================== *)

Module Py.

(** Truth value of a [str]: the empty string is false. *)
Definition truthy (s : string) : bool :=
  match s with
  | EmptyString => false
  | String _ _ => true
  end.

(** Truth value of an optional [str] ([None] and [""] are false). *)
Definition truthy_opt (o : option string) : bool :=
  match o with
  | None => false
  | Some s => truthy s
  end.

(** Truth value of an optional [int] ([None] and [0] are false). *)
Definition truthy_int (o : option Z) : bool :=
  match o with
  | None => false
  | Some n => negb (n =? 0)
  end.

(** [s.encode()]: the UTF-8 bytes of [s]. *)
Definition encode (s : string) : list Z :=
  map (fun b => Z.of_N (Byte.to_N b)) (String.list_byte_of_string s).

(** One digit, lowercase from ten on. *)
Definition hex_digit (d : Z) : ascii :=
  if d <? 10 then ascii_of_N (Z.to_N (48 + d))
  else ascii_of_N (Z.to_N (87 + d)).

(** The digits of a non-negative integer in base [base], most
    significant first, accumulated in front of [acc]. *)
Fixpoint digits_aux (base : Z) (fuel : nat) (n : Z) (acc : string)
  : string :=
  match fuel with
  | O => acc
  | S fuel' =>
      let acc' := String (hex_digit (n mod base)) acc in
      if n <? base then acc' else digits_aux base fuel' (n / base) acc'
  end.

Definition digits (base n : Z) : string :=
  digits_aux base (S (Z.to_nat (Z.log2 n))) n EmptyString.

Definition hex_digits (n : Z) : string := digits 16 n.

(** The builtin [hex]: a sign, the prefix [0x], the digits. *)
Definition hex (n : Z) : string :=
  if n <? 0 then "-0x" +:+ hex_digits (- n) else "0x" +:+ hex_digits n.

(** [str(n)] for an [int]. *)
Definition str_int (n : Z) : string :=
  if n <? 0 then "-" +:+ digits 10 (- n) else digits 10 n.

(** [str(x)] for an [Optional[str]]. *)
Definition str_opt (o : option string) : string :=
  match o with
  | None => "None"
  | Some s => s
  end.

(** A decimal number left-padded with zeros to [width] digits. *)
Definition zpad (width : nat) (n : Z) : string :=
  let s := str_int n in
  String.string_of_list_ascii
    (repeat "0"%char (width - String.length s)) +:+ s.

(** The slice [s[k:]] for [k >= 0] of a text of one-byte characters, as
    a hexadecimal numeral is. *)
Fixpoint slice_from (k : nat) (s : string) : string :=
  match k, s with
  | O, _ => s
  | S _, EmptyString => EmptyString
  | S k', String _ s' => slice_from k' s'
  end.

(** [s.split(sep)] for a one-character separator: the pieces between
    the separators, of which there is always at least one. *)
Fixpoint split (sep : ascii) (s : string) : list string :=
  match s with
  | EmptyString => [EmptyString]
  | String c s' =>
      if Ascii.eqb c sep then EmptyString :: split sep s'
      else match split sep s' with
           | [] => [String c EmptyString]
           | p :: ps => String c p :: ps
           end
  end.

(** A byte that continues a character of the UTF-8 text, as opposed to
    one that starts a character. *)
Definition is_cont (c : ascii) : bool :=
  ((128 <=? N_of_ascii c) && (N_of_ascii c <? 192))%N.

(** The continuation bytes a text starts with, and the text after them. *)
Fixpoint conts (s : string) : string :=
  match s with
  | EmptyString => EmptyString
  | String c s' => if is_cont c then String c (conts s') else EmptyString
  end.

Fixpoint char_tail (s : string) : string :=
  match s with
  | EmptyString => EmptyString
  | String c s' => if is_cont c then char_tail s' else s
  end.

(** The slice [s[k:]] of a [str] that may hold characters of several
    bytes: [k] characters are dropped, each with its continuation
    bytes. *)
Fixpoint chars_from (k : nat) (s : string) : string :=
  match k, s with
  | O, _ => s
  | S _, EmptyString => EmptyString
  | S k', String _ s' => chars_from k' (char_tail s')
  end.

(** The slice [s[:k]] of such a [str]: the first [k] characters. *)
Fixpoint chars_to (k : nat) (s : string) : string :=
  match k, s with
  | O, _ => EmptyString
  | S _, EmptyString => EmptyString
  | S k', String c s' =>
      String c (conts s' +:+ chars_to k' (char_tail s'))
  end.

End Py.

(* ===================================================================== *)
(** ** [hashlib.md5] (RFC 1321) *)
(* ===================================================================== *)

Module Md5.

Definition mask32 (x : Z) : Z := Z.land x 0xffffffff.

Definition add32 (x y : Z) : Z := mask32 (x + y).

Definition not32 (x : Z) : Z := Z.lxor x 0xffffffff.

Definition rotl32 (x : Z) (c : Z) : Z :=
  mask32 (Z.lor (Z.shiftl x c) (Z.shiftr x (32 - c))).

(** Per-round shift amounts. *)
Definition S_tab : list Z :=
  [ 7; 12; 17; 22; 7; 12; 17; 22; 7; 12; 17; 22; 7; 12; 17; 22;
    5; 9; 14; 20; 5; 9; 14; 20; 5; 9; 14; 20; 5; 9; 14; 20;
    4; 11; 16; 23; 4; 11; 16; 23; 4; 11; 16; 23; 4; 11; 16; 23;
    6; 10; 15; 21; 6; 10; 15; 21; 6; 10; 15; 21; 6; 10; 15; 21 ].

(** [K_tab[i] = floor (2^32 * abs (sin (i + 1)))]. *)
Definition K_tab : list Z :=
  [ 0xd76aa478; 0xe8c7b756; 0x242070db; 0xc1bdceee;
    0xf57c0faf; 0x4787c62a; 0xa8304613; 0xfd469501;
    0x698098d8; 0x8b44f7af; 0xffff5bb1; 0x895cd7be;
    0x6b901122; 0xfd987193; 0xa679438e; 0x49b40821;
    0xf61e2562; 0xc040b340; 0x265e5a51; 0xe9b6c7aa;
    0xd62f105d; 0x02441453; 0xd8a1e681; 0xe7d3fbc8;
    0x21e1cde6; 0xc33707d6; 0xf4d50d87; 0x455a14ed;
    0xa9e3e905; 0xfcefa3f8; 0x676f02d9; 0x8d2a4c8a;
    0xfffa3942; 0x8771f681; 0x6d9d6122; 0xfde5380c;
    0xa4beea44; 0x4bdecfa9; 0xf6bb4b60; 0xbebfbc70;
    0x289b7ec6; 0xeaa127fa; 0xd4ef3085; 0x04881d05;
    0xd9d4d039; 0xe6db99e5; 0x1fa27cf8; 0xc4ac5665;
    0xf4292244; 0x432aff97; 0xab9423a7; 0xfc93a039;
    0x655b59c3; 0x8f0ccc92; 0xffeff47d; 0x85845dd1;
    0x6fa87e4f; 0xfe2ce6e0; 0xa3014314; 0x4e0811a1;
    0xf7537e82; 0xbd3af235; 0x2ad7d2bb; 0xeb86d391 ].

(** The [k] little-endian bytes of [n]. *)
Fixpoint le_bytes (k : nat) (n : Z) : list Z :=
  match k with
  | O => []
  | S k' => Z.land n 0xff :: le_bytes k' (Z.shiftr n 8)
  end.

(** A little-endian word from its bytes. *)
Fixpoint le_word (bs : list Z) : Z :=
  match bs with
  | [] => 0
  | b :: bs' => Z.lor b (Z.shiftl (le_word bs') 8)
  end.

(** Padding: a [0x80] byte, zero bytes up to 56 modulo 64, and the
    length of the message in bits as a 64-bit little-endian number. *)
Definition pad (msg : list Z) : list Z :=
  let len := Z.of_nat (length msg) in
  let zeros := Z.to_nat ((55 - len) mod 64) in
  msg ++ [0x80] ++ repeat 0 zeros ++ le_bytes 8 ((8 * len) mod 2 ^ 64).

(** Cut a list into pieces of [k] elements, [n] pieces at most. *)
Fixpoint chunks {A} (n k : nat) (l : list A) : list (list A) :=
  match n, l with
  | O, _ => []
  | _, [] => []
  | S n', _ => firstn k l :: chunks n' k (skipn k l)
  end.

(** The sixteen words of one 64-byte block. *)
Definition block_words (blk : list Z) : list Z :=
  map le_word (chunks 16 4 blk).

Record state := mkState { sA : Z; sB : Z; sC : Z; sD : Z }.

Definition init : state :=
  mkState 0x67452301 0xefcdab89 0x98badcfe 0x10325476.

(** One of the 64 operations on a block. *)
Definition step (M : list Z) (st : state) (i : Z) : state :=
  let '(mkState a b c d) := st in
  let '(f, g) :=
    if i <? 16 then (Z.lor (Z.land b c) (Z.land (not32 b) d), i)
    else if i <? 32 then
      (Z.lor (Z.land d b) (Z.land (not32 d) c), (5 * i + 1) mod 16)
    else if i <? 48 then (Z.lxor b (Z.lxor c d), (3 * i + 5) mod 16)
    else (Z.lxor c (Z.lor b (not32 d)), (7 * i) mod 16) in
  let f' := add32 (add32 (add32 f a) (nth (Z.to_nat i) K_tab 0))
                  (nth (Z.to_nat g) M 0) in
  mkState d (add32 b (rotl32 f' (nth (Z.to_nat i) S_tab 0))) b c.

Definition rounds : list Z := map Z.of_nat (seq 0 64).

Definition process_block (st : state) (blk : list Z) : state :=
  let st' := fold_left (step (block_words blk)) rounds st in
  mkState (add32 (sA st) (sA st')) (add32 (sB st) (sB st'))
          (add32 (sC st) (sC st')) (add32 (sD st) (sD st')).

(** The sixteen bytes of the digest. *)
Definition digest (msg : list Z) : list Z :=
  let p := pad msg in
  let st := fold_left process_block (chunks (length p) 64 p) init in
  le_bytes 4 (sA st) ++ le_bytes 4 (sB st)
    ++ le_bytes 4 (sC st) ++ le_bytes 4 (sD st).

(** [hexdigest()]: two lowercase hexadecimal digits per byte. *)
Fixpoint hex_of_bytes (bs : list Z) : string :=
  match bs with
  | [] => EmptyString
  | b :: bs' =>
      String (Py.hex_digit (Z.shiftr b 4))
        (String (Py.hex_digit (Z.land b 0xf)) (hex_of_bytes bs'))
  end.

Definition hexdigest (msg : list Z) : string := hex_of_bytes (digest msg).

End Md5.

(* ===================================================================== *)
(** ** [zlib.adler32] (RFC 1950) *)
(* ===================================================================== *)

Module Adler32.

Definition BASE : Z := 65521.

(** The two running sums, both reduced modulo [BASE]. *)
Definition update (s : Z * Z) (byte : Z) : Z * Z :=
  let a := (fst s + byte) mod BASE in
  (a, (snd s + a) mod BASE).

Definition sums (data : list Z) : Z * Z := fold_left update data (1, 0).

Definition adler32 (data : list Z) : Z :=
  let '(a, b) := sums data in Z.lor (Z.shiftl b 16) a.

End Adler32.

(* ===================================================================== *)
(** ** The identity hasher *)
(* ===================================================================== *)

(** [SocialAuthService.g5_convert_social_id]:
    [f"{provider}_{hex(adler32_hash)[2:]}"]. *)
Definition g5_convert_social_id (identifier provider : string) : string :=
  let md5_hash := Md5.hexdigest (Py.encode identifier) in
  let adler32_hash := Adler32.adler32 (Py.encode md5_hash) in
  provider +:+ "_" +:+ Py.slice_from 2 (Py.hex adler32_hash).

(** The composition in the words of the specification: content hash as
    lowercase hex, checksum of that text, lowercase hex of the checksum
    with neither padding nor prefix, after the provider and a ["_"]. *)
Definition derive_local_id_spec (identifier provider : string) : string :=
  let content_hash_hex := Md5.hexdigest (Py.encode identifier) in
  let checksum := Adler32.adler32 (Py.encode content_hash_hex) in
  provider +:+ "_" +:+ Py.hex_digits checksum.

(* ===================================================================== *)
(** ** Data model *)
(* ===================================================================== *)

(** A [datetime.datetime] value. *)
Record datetime := mkDatetime {
  year : Z; month : Z; day : Z;
  hour : Z; minute : Z; second : Z; microsecond : Z
}.

(** [d.strftime("%Y-%m-%d %H:%M:%S")]. *)
Definition strftime_ymdhis (d : datetime) : string :=
  Py.zpad 4 (year d) +:+ "-" +:+ Py.zpad 2 (month d) +:+ "-"
    +:+ Py.zpad 2 (day d) +:+ " " +:+ Py.zpad 2 (hour d) +:+ ":"
    +:+ Py.zpad 2 (minute d) +:+ ":" +:+ Py.zpad 2 (second d).

(** What the handlers put in a time column: nothing, a formatted string
    (the administrator's handler) or a [datetime] (the social handler). *)
Inductive timeval :=
| TNone
| TStr (s : string)
| TDatetime (d : datetime).

(** [models.Member], with the columns the handlers write.  A column holds
    [None] until a handler gives it a value. *)
Record Member := mkMember {
  mb_id : string;
  mb_password : option string;
  mb_name : option string;
  mb_nick : option string;
  mb_nick_date : option string;
  mb_email : option string;
  mb_homepage : option string;
  mb_level : option Z;
  mb_hp : option string;
  mb_tel : option string;
  mb_certify : option string;
  mb_adult : option Z;
  mb_zip1 : option string;
  mb_zip2 : option string;
  mb_addr1 : option string;
  mb_addr2 : option string;
  mb_addr3 : option string;
  mb_mailling : option Z;
  mb_sms : option Z;
  mb_open : option Z;
  mb_signature : option string;
  mb_profile : option string;
  mb_memo : option string;
  mb_intercept_date : option string;
  mb_leave_date : option string;
  mb_1 : option string;
  mb_2 : option string;
  mb_3 : option string;
  mb_4 : option string;
  mb_5 : option string;
  mb_6 : option string;
  mb_7 : option string;
  mb_8 : option string;
  mb_9 : option string;
  mb_10 : option string;
  mb_today_login : timeval;
  mb_datetime : timeval
}.

(** [models.MemberSocialProfiles].  The field names of the two tables
    overlap; this one lives in a module of its own. *)
Module Profile.
Record t := mk {
  mb_id : string;
  provider : string;
  identifier : string;
  nickname : option string;
  profile_url : option string;
  photourl : option string;
  object_sha : option string;
  mp_register_day : timeval
}.

(** [profile.mb_id = v]. *)
Definition set_mb_id (v : string) (p : t) : t :=
  mk v (provider p) (identifier p) (nickname p) (profile_url p)
     (photourl p) (object_sha p) (mp_register_day p).
End Profile.

(** The fields of [models.Config] the handlers read. *)
Record Config := mkConfig {
  cf_social_login_use : bool;
  cf_prohibit_id : string;
  cf_register_level : Z;
  cf_register_point : Z
}.

(** The two tables. *)
Record tables := mkTables {
  members : list Member;
  social_profiles : list Profile.t
}.

(** A value stored under a session key. *)
Inductive sval :=
| SNone
| SStr (s : string)
| SToken (t : string).

#[global] Instance sval_eq_dec : EqDecision sval.
Proof. solve_decision. Defined.

(** One call of the ledger's [insert_point]. *)
Record point_call := mkPointCall {
  pt_mb_id : string;
  pt_point : Z;
  pt_content : string;
  pt_rel_table : string;
  pt_rel_id : string;
  pt_rel_action : string
}.

(** A change staged in the ORM session, not yet committed. *)
Inductive write :=
| AddMember (m : Member)
| AddProfile (p : Profile.t)
| UpdateMember (pos : nat) (m : Member).

(** Everything a handler reads and leaves behind. *)
Record world := mkWorld {
  db : tables;
  pending : list write;
  session : gmap string sval;
  ledger : list point_call
}.

(** Exceptions the handlers raise. *)
Inductive exn :=
| AlertException (status_code : Z) (detail : string) (url : option string)
| HTTPException (status_code : Z) (detail : string)
| AttributeError (name : string)
| IndexError.

Inductive response :=
| RedirectResponse (url : string) (status_code : Z)
| TemplateResponse (name : string) (token : string).

Inductive outcome (A : Type) :=
| Ok (a : A)
| Raise (e : exn).
Arguments Ok {A} a.
Arguments Raise {A} e.

(* ===================================================================== *)
(** ** The handler monad: state and exceptions *)
(* ===================================================================== *)

Definition M (A : Type) : Type := world -> outcome A * world.

Definition ret {A} (a : A) : M A := fun w => (Ok a, w).

Definition bind {A B} (m : M A) (k : A -> M B) : M B :=
  fun w =>
    match m w with
    | (Ok a, w') => k a w'
    | (Raise e, w') => (Raise e, w')
    end.

Definition raise {A} (e : exn) : M A := fun w => (Raise e, w).

Notation "x <~ m ;; k" := (bind m (fun x => k))
  (at level 100, m at next level, right associativity).
Notation "m ;;; k" := (bind m (fun _ => k))
  (at level 100, right associativity).

(** [if c: raise e]. *)
Definition raise_if (c : bool) (e : exn) : M unit :=
  if c then raise e else ret tt.

Definition gets {A} (f : world -> A) : M A := fun w => (Ok (f w), w).

(** [request.session.get(key, None)]. *)
Definition session_get (key : string) : M (option sval) :=
  gets (fun w => session w !! key).

(** [key in request.session]. *)
Definition session_contains (key : string) : M bool :=
  gets (fun w => bool_decide (is_Some (session w !! key))).

(** [request.session[key] = v]. *)
Definition session_set (key : string) (v : sval) : M unit :=
  fun w => (Ok tt, mkWorld (db w) (pending w) (<[key := v]> (session w))
                           (ledger w)).

(** [x is None] for a value read with [session.get(key, None)]. *)
Definition is_none (o : option sval) : bool :=
  match o with
  | None | Some SNone => true
  | Some _ => false
  end.

(** [db.add(row)] and the attribute writes on a loaded row. *)
Definition stage (x : write) : M unit :=
  fun w => (Ok tt, mkWorld (db w) (pending w ++ [x]) (session w) (ledger w)).

Definition apply_write (t : tables) (x : write) : tables :=
  match x with
  | AddMember m => mkTables (members t ++ [m]) (social_profiles t)
  | AddProfile p => mkTables (members t) (social_profiles t ++ [p])
  | UpdateMember pos m => mkTables (<[pos := m]> (members t)) (social_profiles t)
  end.

(** [db.commit()].  The store of this model takes every staged row.  A
    store that refuses a row (a value its column cannot hold) makes
    [db.commit()] raise an error the handlers do not catch and that is
    not among [exn]; what is said of the administrator's requests that
    write is therefore said of the requests that are answered. *)
Definition db_commit : M unit :=
  fun w => (Ok tt, mkWorld (fold_left apply_write (pending w) (db w)) []
                           (session w) (ledger w)).

(** [query(Member).filter(P).first()], with the position of the row. *)
Definition member_first (P : Member -> Prop) `{!forall m, Decision (P m)}
  : M (option (nat * Member)) :=
  gets (fun w => list_find P (members (db w))).

Definition profile_first (P : Profile.t -> Prop)
  `{!forall p, Decision (P p)} : M (option (nat * Profile.t)) :=
  gets (fun w => list_find P (social_profiles (db w))).

(** [insert_point(request, ...)], recorded in the ledger. *)
Definition insert_point (c : point_call) : M unit :=
  fun w => (Ok tt, mkWorld (db w) (pending w) (session w) (ledger w ++ [c])).

(** The tables a request leaves behind. *)
Definition run {A} (m : M A) (w : world) : outcome A * tables :=
  let '(r, w') := m w in (r, db w').

(* ===================================================================== *)
(** ** Collaborators *)
(* ===================================================================== *)

(** What the handlers import from [common], [_bbs.member_profile] and
    [_lib.social]; the handlers are written against this interface.
    The two validators return the [msg] entry of their result. *)
Class Collaborators := {
  hash_password : string -> string;
  verify_password : string -> string -> bool;
  valid_email : option string -> bool;
  validate_userid : string -> string -> string;
  validate_nickname : option string -> string -> string;
  session_member_key : string -> timeval -> string;
  url_for : string -> string;
  provider_exists : string -> bool;
  TIME_YMDHIS : string;
  TIME_YMD : string
}.

(* ===================================================================== *)
(** ** [_bbs/social.py] *)
(* ===================================================================== *)

(** The fields of the submitted [MemberForm] the handler reads. *)
Module MemberForm.
Record t := mk {
  mb_nick : option string;
  mb_email : option string
}.
End MemberForm.

Section Social.
Context `{Collaborators}.

(** [getattr(providers, name)] and [getattr(module, name.capitalize())]. *)
Definition provider_class (name : string) : M unit :=
  raise_if (negb (provider_exists name)) (AttributeError name).

(** [SocialAuthService.get_member_by_social_id]. *)
Definition get_member_by_social_id (identifier provider : string)
  : M (option string) :=
  result <~ profile_first
    (fun p => Profile.provider p = provider
              /\ Profile.identifier p = identifier) ;;
  ret (match result with
       | Some (_, p) => Some (Profile.mb_id p)
       | None => None
       end).

(** [SocialAuthService.check_exists_social_id]. *)
Definition check_exists_social_id (identifier provider : string) : M bool :=
  result <~ profile_first
    (fun p => Profile.provider p = provider
              /\ Profile.identifier p = identifier) ;;
  ret (match result with Some _ => true | None => false end).

(** [authorize_social_login], the callback of the provider.
    [provider] is the list of values of the query parameter,
    [auth_token] the result of [get_social_login_token],
    [social_email] and [profile] the provider's answer as converted by
    [convert_gnu_profile_data], [login_member_mb_id] the id of
    [request.state.login_member]. *)
Definition authorize_social_login (provider : list string)
    (auth_token : option string) (social_email : option string)
    (profile : Profile.t) (login_member_mb_id : option string)
  : M response :=
  match provider with
  | [] => raise (AlertException 400 "사용하지 않는 서비스 입니다." None)
  | provider_name :: _ =>
    match auth_token with
    | None =>
        raise (AlertException 400 "잠시후에 다시 시도해 주세요."
                              (Some (url_for "login")))
    | Some token =>
      provider_class provider_name ;;;
      session_set "ss_social_access" (SToken token) ;;;
      let identifier := Profile.identifier profile in
      raise_if (negb (Py.truthy identifier))
        (AlertException 400
           "유효하지 않은 요청입니다. 관리자에게 문의하십시오."
           (Some (url_for "login"))) ;;;
      let gnu_social_id := g5_convert_social_id identifier provider_name in
      linked <~ get_member_by_social_id gnu_social_id provider_name ;;
      if Py.truthy_opt linked then
        member <~ member_first (fun m => Some (mb_id m) = linked) ;;
        match member with
        | None =>
            raise (AlertException 400 "유효하지 않은 요청입니다."
                                  (Some (url_for "login")))
        | Some (_, member) =>
            session_set "ss_mb_id" (SStr (mb_id member)) ;;;
            session_set "ss_mb_key"
              (SStr (session_member_key (mb_id member)
                                        (mb_datetime member))) ;;;
            ret (RedirectResponse "/" 302)
        end
      else
        has_link <~ session_contains "ss_social_link" ;;
        if has_link && Py.truthy_opt login_member_mb_id then
          stage (AddProfile
                   (Profile.set_mb_id (Py.str_opt login_member_mb_id)
                                      profile)) ;;;
          db_commit ;;;
          ret (RedirectResponse (url_for "index") 302)
        else
          session_set "ss_social_provider" (SStr provider_name) ;;;
          session_set "ss_social_email"
            (match social_email with Some e => SStr e | None => SNone end) ;;;
          ret (RedirectResponse (url_for "get_social_register_form") 302)
    end
  end.

(** The row [post_social_register] builds for the profile table. *)
Definition new_social_profile (gnu_social_id provider_name : string)
    (mb_nick : option string) (profile : Profile.t)
    (request_time : datetime) : Profile.t :=
  Profile.mk gnu_social_id provider_name gnu_social_id mb_nick
    (Profile.profile_url profile) (Profile.photourl profile)
    (Some "") (TDatetime request_time).

(** The row [post_social_register] builds for the member table. *)
Definition new_social_member (gnu_social_id : string)
    (mb_nick : option string) (email : option string) (level : Z)
    (request_time : datetime) : Member :=
  {| mb_id := gnu_social_id;
     mb_password :=
       Some (hash_password
               (hash_password (Py.str_int (microsecond request_time))));
     mb_name := mb_nick;
     mb_nick := mb_nick;
     mb_nick_date := None;
     mb_email := email;
     mb_homepage := None;
     mb_level := Some level;
     mb_hp := None; mb_tel := None; mb_certify := None; mb_adult := None;
     mb_zip1 := None; mb_zip2 := None;
     mb_addr1 := None; mb_addr2 := None; mb_addr3 := None;
     mb_mailling := None; mb_sms := None; mb_open := None;
     mb_signature := None; mb_profile := None; mb_memo := None;
     mb_intercept_date := None; mb_leave_date := None;
     mb_1 := None; mb_2 := None; mb_3 := None; mb_4 := None;
     mb_5 := None; mb_6 := None; mb_7 := None; mb_8 := None;
     mb_9 := None; mb_10 := None;
     mb_today_login := TDatetime request_time;
     mb_datetime := TDatetime request_time |}.

(** [post_social_register].  [social_email] and [profile] are the
    provider's answer to the stored access token, as converted by
    [convert_gnu_profile_data]; [request_time] is [datetime.now()]. *)
Definition post_social_register (config : Config)
    (member_form : MemberForm.t) (social_email : option string)
    (profile : Profile.t) (request_time : datetime) : M response :=
  raise_if (negb (cf_social_login_use config))
    (AlertException 400 "소셜로그인을 사용하지 않습니다."
                    (Some (url_for "login"))) ;;;
  provider_name <~ session_get "ss_social_provider" ;;
  auth_token <~ session_get "ss_social_access" ;;
  raise_if (is_none auth_token || is_none provider_name)
    (AlertException 400
       "유효하지 않은 요청입니다. 관리자에게 문의하십시오."
       (Some (url_for "login"))) ;;;
  match provider_name with
  | Some (SStr provider_name) =>
    provider_class provider_name ;;;
    let identifier := Profile.identifier profile in
    raise_if (negb (Py.truthy identifier))
      (AlertException 400
         "유효하지 않은 요청입니다. 관리자에게 문의하십시오."
         (Some (url_for "login"))) ;;;
    let gnu_social_id := g5_convert_social_id identifier provider_name in
    exists_social_member <~
      member_first (fun m => mb_id m = gnu_social_id) ;;
    raise_if (bool_decide (is_Some exists_social_member))
      (AlertException 400
         "이미 소셜로그인으로 가입된 회원아이디 입니다."
         (Some (url_for "login"))) ;;;
    let msg := validate_userid gnu_social_id (cf_prohibit_id config) in
    raise_if (Py.truthy msg) (AlertException 400 msg None) ;;;
    raise_if (negb (valid_email (MemberForm.mb_email member_form)))
      (AlertException 400 "이메일 양식이 올바르지 않습니다." None) ;;;
    exists_email <~
      member_first
        (fun m => mb_email m = MemberForm.mb_email member_form) ;;
    raise_if (bool_decide (is_Some exists_email))
      (AlertException 400 "이미 존재하는 이메일 입니다." None) ;;;
    let msg := validate_nickname (MemberForm.mb_nick member_form)
                                 (cf_prohibit_id config) in
    raise_if (Py.truthy msg) (AlertException 400 msg None) ;;;
    mb_nick <~
      (if Py.truthy_opt (MemberForm.mb_nick member_form)
       then ret (MemberForm.mb_nick member_form)
       else match Py.split "_" gnu_social_id !! 1%nat with
            | Some piece => ret (Some piece)
            | None => raise IndexError
            end) ;;
    let member_social_profiles :=
      new_social_profile gnu_social_id provider_name mb_nick profile
                         request_time in
    let member :=
      new_social_member gnu_social_id mb_nick
        (MemberForm.mb_email member_form) (cf_register_level config)
        request_time in
    stage (AddMember member) ;;;
    stage (AddProfile member_social_profiles) ;;;
    db_commit ;;;
    insert_point
      (mkPointCall (mb_id member) (cf_register_point config)
         (strftime_ymdhis request_time +:+ " 첫로그인")
         "@login" (mb_id member) "회원가입") ;;;
    ret (RedirectResponse "/" 302)
  | Some (SToken t) => raise (AttributeError t)
  | _ => raise (AttributeError "None")
  end.

End Social.

(* ===================================================================== *)
(** ** [_admin/admin_member.py] *)
(* ===================================================================== *)

(** The form fields of [member_form_update]; only [mb_id] and [token]
    are required, an omitted field is [None]. *)
Module AdminForm.
Record t := mk {
  mb_id : string;
  token : string;
  mb_password : option string;
  mb_name : option string;
  mb_nick : option string;
  mb_level : option Z;
  mb_email : option string;
  mb_homepage : option string;
  mb_hp : option string;
  mb_tel : option string;
  mb_certify_case : option string;
  mb_certify : option Z;
  mb_adult : option Z;
  mb_zip : option string;
  mb_addr1 : option string;
  mb_addr2 : option string;
  mb_addr3 : option string;
  mb_mailling : option Z;
  mb_sms : option Z;
  mb_open : option Z;
  mb_signature : option string;
  mb_profile : option string;
  mb_memo : option string;
  mb_intercept_date : option string;
  mb_leave_date : option string;
  mb_1 : option string;
  mb_2 : option string;
  mb_3 : option string;
  mb_4 : option string;
  mb_5 : option string;
  mb_6 : option string;
  mb_7 : option string;
  mb_8 : option string;
  mb_9 : option string;
  mb_10 : option string
}.
End AdminForm.

(** [str(v)] of a session value, as an f-string renders it. *)
Definition sval_str (v : sval) : string :=
  match v with
  | SNone => "None"
  | SStr s => s
  | SToken t => t
  end.

(** [x if x else ''] and [x if x else 0]. *)
Definition or_empty (o : option string) : option string :=
  if Py.truthy_opt o then o else Some "".

Definition or_zero (o : option Z) : option Z :=
  if Py.truthy_int o then o else Some 0.

(** [mb_zip[:3] if mb_zip else ''] and [mb_zip[3:] if mb_zip else '']. *)
Definition zip1_of (mb_zip : option string) : option string :=
  match mb_zip with
  | Some z => if Py.truthy z then Some (Py.chars_to 3 z) else Some ""
  | None => Some ""
  end.

Definition zip2_of (mb_zip : option string) : option string :=
  match mb_zip with
  | Some z => if Py.truthy z then Some (Py.chars_from 3 z) else Some ""
  | None => Some ""
  end.

Section Admin.
Context `{Collaborators}.

(** [member_form_add]: the form for a new member. *)
Definition member_form_add : M response :=
  session_set "ss_member_form_mb_id" (SStr "") ;;;
  ret (TemplateResponse "admin/member_form.html" (hash_password "")).

(** [member_form_edit]: the form for an existing member. *)
Definition member_form_edit (mb_id' : string) : M response :=
  member <~ member_first (fun m => mb_id m = mb_id') ;;
  raise_if (negb (bool_decide (is_Some member)))
    (HTTPException 404 "{mb_id} is not found.") ;;;
  session_set "ss_member_form_mb_id" (SStr mb_id') ;;;
  ret (TemplateResponse "admin/member_form.html" (hash_password mb_id')).

(** The row the insert branch builds. *)
Definition inserted_member (f : AdminForm.t) : Member :=
  let certified :=
    Py.truthy_opt (AdminForm.mb_certify_case f)
    && Py.truthy_int (AdminForm.mb_certify f) in
  let tmp_certify :=
    if certified then AdminForm.mb_certify_case f else Some "" in
  let tmp_adult := if certified then AdminForm.mb_adult f else Some 0 in
  let hashed_password :=
    if Py.truthy_opt (AdminForm.mb_password f)
    then hash_password (Py.str_opt (AdminForm.mb_password f))
    else hash_password TIME_YMDHIS in
  {| mb_id := AdminForm.mb_id f;
     mb_password := Some hashed_password;
     mb_name := AdminForm.mb_name f;
     mb_nick := AdminForm.mb_nick f;
     mb_level := AdminForm.mb_level f;
     mb_nick_date := Some TIME_YMDHIS;
     mb_email := AdminForm.mb_email f;
     mb_homepage := AdminForm.mb_homepage f;
     mb_hp := AdminForm.mb_hp f;
     mb_tel := AdminForm.mb_tel f;
     mb_certify := tmp_certify;
     mb_adult := tmp_adult;
     mb_zip1 := zip1_of (AdminForm.mb_zip f);
     mb_zip2 := zip2_of (AdminForm.mb_zip f);
     mb_addr1 := AdminForm.mb_addr1 f;
     mb_addr2 := AdminForm.mb_addr2 f;
     mb_addr3 := AdminForm.mb_addr3 f;
     mb_mailling := AdminForm.mb_mailling f;
     mb_sms := AdminForm.mb_sms f;
     mb_open := AdminForm.mb_open f;
     mb_signature := AdminForm.mb_signature f;
     mb_profile := AdminForm.mb_profile f;
     mb_memo := AdminForm.mb_memo f;
     mb_intercept_date := AdminForm.mb_intercept_date f;
     mb_leave_date := AdminForm.mb_leave_date f;
     mb_1 := AdminForm.mb_1 f; mb_2 := AdminForm.mb_2 f;
     mb_3 := AdminForm.mb_3 f; mb_4 := AdminForm.mb_4 f;
     mb_5 := AdminForm.mb_5 f; mb_6 := AdminForm.mb_6 f;
     mb_7 := AdminForm.mb_7 f; mb_8 := AdminForm.mb_8 f;
     mb_9 := AdminForm.mb_9 f; mb_10 := AdminForm.mb_10 f;
     mb_today_login := TStr TIME_YMDHIS;
     mb_datetime := TStr TIME_YMDHIS |}.

(** The attribute writes of the update branch on the loaded row. *)
Definition updated_member (config : Config) (f : AdminForm.t)
    (member : Member) : Member :=
  {| mb_id := mb_id member;
     mb_password :=
       if Py.truthy_opt (AdminForm.mb_password f)
       then Some (hash_password (Py.str_opt (AdminForm.mb_password f)))
       else mb_password member;
     mb_name := or_empty (AdminForm.mb_name f);
     mb_nick := or_empty (AdminForm.mb_nick f);
     mb_nick_date :=
       if Py.truthy_opt (AdminForm.mb_nick f) then Some TIME_YMD
       else Some "";
     mb_email := or_empty (AdminForm.mb_email f);
     mb_homepage := or_empty (AdminForm.mb_homepage f);
     mb_level :=
       if Py.truthy_int (AdminForm.mb_level f) then AdminForm.mb_level f
       else Some (cf_register_level config);
     mb_hp := or_empty (AdminForm.mb_hp f);
     mb_tel := or_empty (AdminForm.mb_tel f);
     mb_certify :=
       if Py.truthy_opt (AdminForm.mb_certify_case f)
          && bool_decide (AdminForm.mb_certify f = Some 1)
       then AdminForm.mb_certify_case f else Some "";
     mb_adult := or_zero (AdminForm.mb_adult f);
     mb_zip1 := zip1_of (AdminForm.mb_zip f);
     mb_zip2 := zip2_of (AdminForm.mb_zip f);
     mb_addr1 := or_empty (AdminForm.mb_addr1 f);
     mb_addr2 := or_empty (AdminForm.mb_addr2 f);
     mb_addr3 := or_empty (AdminForm.mb_addr3 f);
     mb_mailling := or_zero (AdminForm.mb_mailling f);
     mb_sms := or_zero (AdminForm.mb_sms f);
     mb_open := or_zero (AdminForm.mb_open f);
     mb_signature := or_empty (AdminForm.mb_signature f);
     mb_profile := or_empty (AdminForm.mb_profile f);
     mb_memo := or_empty (AdminForm.mb_memo f);
     mb_intercept_date := or_empty (AdminForm.mb_intercept_date f);
     mb_leave_date := or_empty (AdminForm.mb_leave_date f);
     mb_1 := or_empty (AdminForm.mb_1 f);
     mb_2 := or_empty (AdminForm.mb_2 f);
     mb_3 := or_empty (AdminForm.mb_3 f);
     mb_4 := or_empty (AdminForm.mb_4 f);
     mb_5 := or_empty (AdminForm.mb_5 f);
     mb_6 := or_empty (AdminForm.mb_6 f);
     mb_7 := or_empty (AdminForm.mb_7 f);
     mb_8 := or_empty (AdminForm.mb_8 f);
     mb_9 := or_empty (AdminForm.mb_9 f);
     mb_10 := or_empty (AdminForm.mb_10 f);
     mb_today_login := mb_today_login member;
     mb_datetime := mb_datetime member |}.

(** The text of a collision: the value, what it is, the owner's id. *)
Definition collision (value what owner : string) : exn :=
  HTTPException 404 (value +:+ what +:+ " (" +:+ owner +:+ ")").

(** Lines 91 to 156: the branch that registers a new member.  It
    returns the id the final redirect names. *)
Definition insert_branch (f : AdminForm.t) : M string :=
  chk_member <~ member_first (fun m => mb_id m = AdminForm.mb_id f) ;;
  raise_if (bool_decide (is_Some chk_member))
    (HTTPException 404
       (AdminForm.mb_id f +:+ " : 회원아이디가 이미 존재합니다.")) ;;;
  chk_member <~ member_first (fun m => mb_nick m = AdminForm.mb_nick f) ;;
  match chk_member with
  | Some (_, c) =>
      raise (collision (Py.str_opt (AdminForm.mb_nick f))
                       " : 닉네임이 이미 존재합니다." (mb_id c))
  | None =>
    chk_member <~
      member_first (fun m => mb_email m = AdminForm.mb_email f) ;;
    match chk_member with
    | Some (_, c) =>
        raise (collision (Py.str_opt (AdminForm.mb_email f))
                         " : 이메일이 이미 존재합니다." (mb_id c))
    | None =>
        stage (AddMember (inserted_member f)) ;;;
        db_commit ;;;
        ret (AdminForm.mb_id f)
    end
  end.

(** Lines 159 to 212: the branch that edits a member.  It returns the
    id the final redirect names. *)
Definition update_branch (config : Config) (ss_member_form_mb_id : sval)
    (f : AdminForm.t) : M string :=
  raise_if (negb (verify_password (AdminForm.mb_id f) (AdminForm.token f)))
    (HTTPException 403 "Invalid token.") ;;;
  chk_member <~
    member_first (fun m => mb_id m <> AdminForm.mb_id f
                           /\ mb_nick m = AdminForm.mb_nick f) ;;
  match chk_member with
  | Some (_, c) =>
      raise (collision (Py.str_opt (AdminForm.mb_nick f))
                       " : 닉네임이 이미 존재합니다." (mb_id c))
  | None =>
    chk_member <~
      member_first (fun m => mb_id m <> AdminForm.mb_id f
                             /\ mb_email m = AdminForm.mb_email f) ;;
    match chk_member with
    | Some (_, c) =>
        raise (collision (Py.str_opt (AdminForm.mb_email f))
                         " : 이메일이 이미 존재합니다." (mb_id c))
    | None =>
      member <~
        member_first (fun m => SStr (mb_id m) = ss_member_form_mb_id) ;;
      match member with
      | None =>
          raise (HTTPException 404
                   (AdminForm.mb_id f
                      +:+ " : 회원아이디가 존재하지 않습니다."))
      | Some (pos, member) =>
          stage (UpdateMember pos (updated_member config f member)) ;;;
          db_commit ;;;
          ret (sval_str ss_member_form_mb_id)
      end
    end
  end.

(** [member_form_update]. *)
Definition member_form_update (config : Config) (f : AdminForm.t)
  : M response :=
  ss <~ session_get "ss_member_form_mb_id" ;;
  let ss_member_form_mb_id := default (SStr "") ss in
  mb_id' <~
    (if negb (verify_password (AdminForm.mb_id f) (AdminForm.token f))
     then insert_branch f
     else update_branch config ss_member_form_mb_id f) ;;
  ret (RedirectResponse ("/admin/member_form/" +:+ mb_id') 302).

End Admin.

(* ===================================================================== *)
(** ** A sample deployment *)
(* ===================================================================== *)

(** One concrete choice of the collaborators, to run the handlers on
    concrete requests: a tagging "hash", validators that accept every
    id and nickname, an email check that asks for a non-empty address,
    and the five providers [social_login] knows. *)
Module Sample.

#[local] Instance collaborators : Collaborators := {|
  hash_password := fun p => "h:" +:+ p;
  verify_password := fun p h => bool_decide (h = "h:" +:+ p);
  valid_email := Py.truthy_opt;
  validate_userid := fun _ _ => "";
  validate_nickname := fun _ _ => "";
  session_member_key := fun id _ => "k:" +:+ id;
  url_for := fun name => "/" +:+ name;
  provider_exists := fun p =>
    bool_decide (p ∈ ["naver"; "kakao"; "google"; "twitter"; "facebook"]);
  TIME_YMDHIS := "2024-01-01 00:00:00";
  TIME_YMD := "2024-01-01"
|}.

Definition config : Config := mkConfig true "" 2 1000.

Definition now : datetime := mkDatetime 2024 1 1 9 30 0 123456.

(** A member row with the given id, nickname and email. *)
Definition member (id nick email : string) : Member :=
  new_social_member id (Some nick) (Some email) 2 now.

(** An administrator's form with the given id, token, nickname, level
    and email, everything else omitted. *)
Definition form (id token : string) (nick : option string)
    (level : option Z) (email : option string) : AdminForm.t :=
  AdminForm.mk id token None None nick level email None None None None
    None None None None None None None None None None None None None
    None None None None None None None None None None None.

(** The provider's answer for the external identifier [identifier]. *)
Definition answer (provider identifier : string) : Profile.t :=
  Profile.mk identifier provider identifier (Some "nick")
    (Some "https://example.org/u") (Some "https://example.org/u.png")
    None TNone.

Definition world0 (t : tables) (s : gmap string sval) : world :=
  mkWorld t [] s [].

End Sample.

(** Reading back a digit and a numeral, to say what [Py.digits] prints. *)
Definition digit_val (c : ascii) : Z :=
  let n := Z.of_N (N_of_ascii c) in
  if (48 <=? n) && (n <=? 57) then n - 48
  else if (97 <=? n) && (n <=? 102) then n - 87
  else 0.

Fixpoint of_digits (base : Z) (s : string) (acc : Z) : Z :=
  match s with
  | EmptyString => acc
  | String c s' => of_digits base s' (acc * base + digit_val c)
  end.

(** The checksum text of an identifier: what follows the provider and
    the separator in a derived local id. *)
Definition checksum_hex (identifier : string) : string :=
  Py.hex_digits
    (Adler32.adler32 (Py.encode (Md5.hexdigest (Py.encode identifier)))).

(** A string without the separator. *)
Fixpoint no_sep (sep : ascii) (s : string) : bool :=
  match s with
  | EmptyString => true
  | String c s' => negb (Ascii.eqb c sep) && no_sep sep s'
  end.

Section SocialSpec.
Context `{Collaborators}.

(** The request reaches the validation of [post_social_register]:
    social login is on, the session carries a provider name and an
    access token, the provider is known and the provider's answer has
    an identifier. *)
Definition registration_ready (config : Config) (w : world)
    (profile : Profile.t) (provider_name : string) : Prop :=
  cf_social_login_use config = true
  /\ session w !! "ss_social_provider" = Some (SStr provider_name)
  /\ is_none (session w !! "ss_social_access") = false
  /\ provider_exists provider_name = true
  /\ Py.truthy (Profile.identifier profile) = true.

(** The alerts of the five checks. *)
Definition alert_registered : exn :=
  AlertException 400 "이미 소셜로그인으로 가입된 회원아이디 입니다."
                 (Some (url_for "login")).
Definition alert_email_syntax : exn :=
  AlertException 400 "이메일 양식이 올바르지 않습니다." None.
Definition alert_email_in_use : exn :=
  AlertException 400 "이미 존재하는 이메일 입니다." None.

(** The validation in the order the specification gives: the first
    check that fails, with its alert, or [None] when all five pass. *)
Definition registration_check (config : Config)
    (member_form : MemberForm.t) (local_id : string) (t : tables)
  : option exn :=
  if decide (Exists (fun m => mb_id m = local_id) (members t))
  then Some alert_registered
  else if Py.truthy (validate_userid local_id (cf_prohibit_id config))
  then Some (AlertException 400
               (validate_userid local_id (cf_prohibit_id config)) None)
  else if negb (valid_email (MemberForm.mb_email member_form))
  then Some alert_email_syntax
  else if decide (Exists (fun m => mb_email m
                                   = MemberForm.mb_email member_form)
                         (members t))
  then Some alert_email_in_use
  else if Py.truthy (validate_nickname (MemberForm.mb_nick member_form)
                                       (cf_prohibit_id config))
  then Some (AlertException 400
               (validate_nickname (MemberForm.mb_nick member_form)
                                  (cf_prohibit_id config)) None)
  else None.

(** The nickname a registration stores. *)
Definition registered_nick (member_form : MemberForm.t)
    (local_id : string) : option string :=
  if Py.truthy_opt (MemberForm.mb_nick member_form)
  then MemberForm.mb_nick member_form
  else Py.split "_" local_id !! 1%nat.

(** The two rows a registration writes. *)
Definition registered_member (config : Config)
    (member_form : MemberForm.t) (local_id : string)
    (request_time : datetime) : Member :=
  new_social_member local_id (registered_nick member_form local_id)
    (MemberForm.mb_email member_form) (cf_register_level config)
    request_time.

Definition registered_profile (member_form : MemberForm.t)
    (local_id provider_name : string) (profile : Profile.t)
    (request_time : datetime) : Profile.t :=
  new_social_profile local_id provider_name
    (registered_nick member_form local_id) profile request_time.

(** The world a successful registration leaves behind. *)
Definition registered_world (config : Config)
    (member_form : MemberForm.t) (local_id provider_name : string)
    (profile : Profile.t) (request_time : datetime) (w : world) : world :=
  mkWorld
    (fold_left apply_write
       ((pending w
           ++ [AddMember (registered_member config member_form local_id
                                            request_time)])
          ++ [AddProfile (registered_profile member_form local_id
                            provider_name profile request_time)])
       (db w))
    [] (session w)
    (ledger w
       ++ [mkPointCall local_id (cf_register_point config)
             (strftime_ymdhis request_time +:+ " 첫로그인")
             "@login" local_id "회원가입"]).

End SocialSpec.

(** The commented-out test of line 89: the session names a member
    being edited. *)
Definition marker_present (w : world) : bool :=
  match session w !! "ss_member_form_mb_id" with
  | Some (SStr s) => Py.truthy s
  | Some (SToken _) => true
  | _ => false
  end.

Section AdminSpec.
Context `{Collaborators}.

Definition redirect_to_form (mb_id' : string) : response :=
  RedirectResponse ("/admin/member_form/" +:+ mb_id') 302.

Definition insert_path (f : AdminForm.t) : M response :=
  mb_id' <~ insert_branch f ;; ret (redirect_to_form mb_id').

Definition update_path (config : Config) (f : AdminForm.t) : M response :=
  ss <~ session_get "ss_member_form_mb_id" ;;
  mb_id' <~ update_branch config (default (SStr "") ss) f ;;
  ret (redirect_to_form mb_id').

Definition duplicate_id (f : AdminForm.t) : exn :=
  HTTPException 404
    (AdminForm.mb_id f +:+ " : 회원아이디가 이미 존재합니다.").

Definition edit_target (w : world) : sval :=
  default (SStr "") (session w !! "ss_member_form_mb_id").

(** What lines 176 to 210 leave in the row they write over, column by
    column: the id and the two registration times stay, the password
    changes when one is submitted, every other column takes the
    submitted value, or its fallback when the value is omitted, empty or
    zero. *)
Definition overwritten_by (config : Config) (f : AdminForm.t)
    (old stored : Member) : Prop :=
  mb_id stored = mb_id old
  /\ mb_today_login stored = mb_today_login old
  /\ mb_datetime stored = mb_datetime old
  /\ mb_password stored
     = match AdminForm.mb_password f with
       | Some (String c p) => Some (hash_password (String c p))
       | _ => mb_password old
       end
  /\ mb_name stored
     = match AdminForm.mb_name f with
       | Some (String c v) => Some (String c v)
       | _ => Some ""
       end
  /\ mb_nick stored
     = match AdminForm.mb_nick f with
       | Some (String c v) => Some (String c v)
       | _ => Some ""
       end
  /\ mb_email stored
     = match AdminForm.mb_email f with
       | Some (String c v) => Some (String c v)
       | _ => Some ""
       end
  /\ mb_homepage stored
     = match AdminForm.mb_homepage f with
       | Some (String c v) => Some (String c v)
       | _ => Some ""
       end
  /\ mb_hp stored
     = match AdminForm.mb_hp f with
       | Some (String c v) => Some (String c v)
       | _ => Some ""
       end
  /\ mb_tel stored
     = match AdminForm.mb_tel f with
       | Some (String c v) => Some (String c v)
       | _ => Some ""
       end
  /\ mb_addr1 stored
     = match AdminForm.mb_addr1 f with
       | Some (String c v) => Some (String c v)
       | _ => Some ""
       end
  /\ mb_addr2 stored
     = match AdminForm.mb_addr2 f with
       | Some (String c v) => Some (String c v)
       | _ => Some ""
       end
  /\ mb_addr3 stored
     = match AdminForm.mb_addr3 f with
       | Some (String c v) => Some (String c v)
       | _ => Some ""
       end
  /\ mb_signature stored
     = match AdminForm.mb_signature f with
       | Some (String c v) => Some (String c v)
       | _ => Some ""
       end
  /\ mb_profile stored
     = match AdminForm.mb_profile f with
       | Some (String c v) => Some (String c v)
       | _ => Some ""
       end
  /\ mb_memo stored
     = match AdminForm.mb_memo f with
       | Some (String c v) => Some (String c v)
       | _ => Some ""
       end
  /\ mb_intercept_date stored
     = match AdminForm.mb_intercept_date f with
       | Some (String c v) => Some (String c v)
       | _ => Some ""
       end
  /\ mb_leave_date stored
     = match AdminForm.mb_leave_date f with
       | Some (String c v) => Some (String c v)
       | _ => Some ""
       end
  /\ mb_1 stored
     = match AdminForm.mb_1 f with
       | Some (String c v) => Some (String c v)
       | _ => Some ""
       end
  /\ mb_2 stored
     = match AdminForm.mb_2 f with
       | Some (String c v) => Some (String c v)
       | _ => Some ""
       end
  /\ mb_3 stored
     = match AdminForm.mb_3 f with
       | Some (String c v) => Some (String c v)
       | _ => Some ""
       end
  /\ mb_4 stored
     = match AdminForm.mb_4 f with
       | Some (String c v) => Some (String c v)
       | _ => Some ""
       end
  /\ mb_5 stored
     = match AdminForm.mb_5 f with
       | Some (String c v) => Some (String c v)
       | _ => Some ""
       end
  /\ mb_6 stored
     = match AdminForm.mb_6 f with
       | Some (String c v) => Some (String c v)
       | _ => Some ""
       end
  /\ mb_7 stored
     = match AdminForm.mb_7 f with
       | Some (String c v) => Some (String c v)
       | _ => Some ""
       end
  /\ mb_8 stored
     = match AdminForm.mb_8 f with
       | Some (String c v) => Some (String c v)
       | _ => Some ""
       end
  /\ mb_9 stored
     = match AdminForm.mb_9 f with
       | Some (String c v) => Some (String c v)
       | _ => Some ""
       end
  /\ mb_10 stored
     = match AdminForm.mb_10 f with
       | Some (String c v) => Some (String c v)
       | _ => Some ""
       end
  /\ mb_nick_date stored
     = match AdminForm.mb_nick f with
       | Some (String _ _) => Some TIME_YMD
       | _ => Some ""
       end
  /\ mb_level stored
     = match AdminForm.mb_level f with
       | Some n => if n =? 0 then Some (cf_register_level config) else Some n
       | None => Some (cf_register_level config)
       end
  /\ mb_certify stored
     = match AdminForm.mb_certify_case f, AdminForm.mb_certify f with
       | Some (String c v), Some 1 => Some (String c v)
       | _, _ => Some ""
       end
  /\ mb_adult stored
     = match AdminForm.mb_adult f with
       | Some n => if n =? 0 then Some 0 else Some n
       | None => Some 0
       end
  /\ mb_mailling stored
     = match AdminForm.mb_mailling f with
       | Some n => if n =? 0 then Some 0 else Some n
       | None => Some 0
       end
  /\ mb_sms stored
     = match AdminForm.mb_sms f with
       | Some n => if n =? 0 then Some 0 else Some n
       | None => Some 0
       end
  /\ mb_open stored
     = match AdminForm.mb_open f with
       | Some n => if n =? 0 then Some 0 else Some n
       | None => Some 0
       end
  /\ mb_zip1 stored
     = match AdminForm.mb_zip f with
       | Some (String c z) => Some (Py.chars_to 3 (String c z))
       | _ => Some ""
       end
  /\ mb_zip2 stored
     = match AdminForm.mb_zip f with
       | Some (String c z) => Some (Py.chars_from 3 (String c z))
       | _ => Some ""
       end.

(** What lines 104 to 154 put in the row they add, column by column. *)
Definition built_from (f : AdminForm.t) (row : Member) : Prop :=
  mb_id row = AdminForm.mb_id f
  /\ mb_password row
     = match AdminForm.mb_password f with
       | Some (String c p) => Some (hash_password (String c p))
       | _ => Some (hash_password TIME_YMDHIS)
       end
  /\ mb_name row = AdminForm.mb_name f
  /\ mb_nick row = AdminForm.mb_nick f
  /\ mb_email row = AdminForm.mb_email f
  /\ mb_homepage row = AdminForm.mb_homepage f
  /\ mb_hp row = AdminForm.mb_hp f
  /\ mb_tel row = AdminForm.mb_tel f
  /\ mb_addr1 row = AdminForm.mb_addr1 f
  /\ mb_addr2 row = AdminForm.mb_addr2 f
  /\ mb_addr3 row = AdminForm.mb_addr3 f
  /\ mb_signature row = AdminForm.mb_signature f
  /\ mb_profile row = AdminForm.mb_profile f
  /\ mb_memo row = AdminForm.mb_memo f
  /\ mb_intercept_date row = AdminForm.mb_intercept_date f
  /\ mb_leave_date row = AdminForm.mb_leave_date f
  /\ mb_1 row = AdminForm.mb_1 f
  /\ mb_2 row = AdminForm.mb_2 f
  /\ mb_3 row = AdminForm.mb_3 f
  /\ mb_4 row = AdminForm.mb_4 f
  /\ mb_5 row = AdminForm.mb_5 f
  /\ mb_6 row = AdminForm.mb_6 f
  /\ mb_7 row = AdminForm.mb_7 f
  /\ mb_8 row = AdminForm.mb_8 f
  /\ mb_9 row = AdminForm.mb_9 f
  /\ mb_10 row = AdminForm.mb_10 f
  /\ mb_level row = AdminForm.mb_level f
  /\ mb_mailling row = AdminForm.mb_mailling f
  /\ mb_sms row = AdminForm.mb_sms f
  /\ mb_open row = AdminForm.mb_open f
  /\ mb_nick_date row = Some TIME_YMDHIS
  /\ mb_today_login row = TStr TIME_YMDHIS
  /\ mb_datetime row = TStr TIME_YMDHIS
  /\ mb_certify row
     = match AdminForm.mb_certify_case f, AdminForm.mb_certify f with
       | Some (String c v), Some n =>
           if n =? 0 then Some "" else Some (String c v)
       | _, _ => Some ""
       end
  /\ mb_adult row
     = match AdminForm.mb_certify_case f, AdminForm.mb_certify f with
       | Some (String _ _), Some n =>
           if n =? 0 then Some 0 else AdminForm.mb_adult f
       | _, _ => Some 0
       end
  /\ mb_zip1 row
     = match AdminForm.mb_zip f with
       | Some (String c z) => Some (Py.chars_to 3 (String c z))
       | _ => Some ""
       end
  /\ mb_zip2 row
     = match AdminForm.mb_zip f with
       | Some (String c z) => Some (Py.chars_from 3 (String c z))
       | _ => Some ""
       end.
End AdminSpec.

Section CallbackSpec.
Context `{Collaborators}.

Definition alert_invalid_request : exn :=
  AlertException 400 "유효하지 않은 요청입니다." (Some (url_for "login")).

(** Outcome (a): the answer redirects to the home page and the session
    carries the member id of the link, which is the first profile row
    for the provider and the derived local id, with the key of the first
    member row under that id. *)
Definition logged_in (provider_name : string) (profile : Profile.t)
    (w : world) (r : outcome response) (w' : world) : Prop :=
  r = Ok (RedirectResponse "/" 302)
  /\ db w' = db w
  /\ exists i row j member,
       list_find (fun p => Profile.provider p = provider_name
                           /\ Profile.identifier p
                              = g5_convert_social_id
                                  (Profile.identifier profile) provider_name)
                 (social_profiles (db w)) = Some (i, row)
       /\ list_find (fun m => mb_id m = Profile.mb_id row) (members (db w))
          = Some (j, member)
       /\ session w' !! "ss_mb_id" = Some (SStr (Profile.mb_id row))
       /\ session w' !! "ss_mb_key"
          = Some (SStr (session_member_key (Profile.mb_id row)
                                           (mb_datetime member))).

(** Outcome (b): the profile row is attached to the member who is
    logged in, and the answer redirects to the index page. *)
Definition linked_to_member (profile : Profile.t)
    (login_member_mb_id : option string) (w : world)
    (r : outcome response) (w' : world) : Prop :=
  r = Ok (RedirectResponse (url_for "index") 302)
  /\ members (db w') = members (db w)
  /\ exists id,
       login_member_mb_id = Some id
       /\ social_profiles (db w')
          = social_profiles (db w) ++ [Profile.set_mb_id id profile].

(** Outcome (c): provider and candidate email are kept in the session,
    and the answer redirects to the registration form. *)
Definition sent_to_registration (provider_name : string)
    (social_email : option string) (w : world) (r : outcome response)
    (w' : world) : Prop :=
  r = Ok (RedirectResponse (url_for "get_social_register_form") 302)
  /\ db w' = db w
  /\ session w' !! "ss_social_provider" = Some (SStr provider_name)
  /\ session w' !! "ss_social_email"
     = Some (match social_email with Some e => SStr e | None => SNone end).

(** The fourth outcome: the link names a member that is not there. *)
Definition dangling_link (token : string) (w : world)
    (r : outcome response) (w' : world) : Prop :=
  r = Raise alert_invalid_request
  /\ db w' = db w
  /\ session w' = <["ss_social_access" := SToken token]> (session w).

Inductive callback_case :=
| CaseLogin
| CaseDangling
| CaseLink
| CaseRegister.

(** Which of the cases applies, by priority. *)
Definition callback_case_of (w : world) (provider_name : string)
    (profile : Profile.t) (login_member_mb_id : option string)
  : callback_case :=
  let local_id :=
    g5_convert_social_id (Profile.identifier profile) provider_name in
  let fallthrough :=
    if bool_decide (is_Some (session w !! "ss_social_link"))
       && Py.truthy_opt login_member_mb_id
    then CaseLink else CaseRegister in
  match list_find (fun p => Profile.provider p = provider_name
                            /\ Profile.identifier p = local_id)
                  (social_profiles (db w)) with
  | Some (_, row) =>
      if Py.truthy (Profile.mb_id row)
      then if decide (Exists (fun m => mb_id m = Profile.mb_id row)
                             (members (db w)))
           then CaseLogin else CaseDangling
      else fallthrough
  | None => fallthrough
  end.

Definition callback_outcome (c : callback_case) (provider_name : string)
    (token : string) (social_email : option string) (profile : Profile.t)
    (login_member_mb_id : option string) (w : world)
    (r : outcome response) (w' : world) : Prop :=
  match c with
  | CaseLogin => logged_in provider_name profile w r w'
  | CaseDangling => dangling_link token w r w'
  | CaseLink => linked_to_member profile login_member_mb_id w r w'
  | CaseRegister => sent_to_registration provider_name social_email w r w'
  end.
End CallbackSpec.

(** The statements the specification makes about the callback, the
    registration and the profile row, as it words them. *)
Section ClaimsAsStated.
Context `{Collaborators}.

Definition three_outcomes (provider_name : string)
    (social_email : option string) (profile : Profile.t)
    (login_member_mb_id : option string) (w : world)
    (r : outcome response) (w' : world) : Prop :=
  logged_in provider_name profile w r w'
  \/ linked_to_member profile login_member_mb_id w r w'
  \/ sent_to_registration provider_name social_email w r w'.

Definition link_exists (provider_name identifier : string) (w : world)
  : Prop :=
  fst (check_exists_social_id
         (g5_convert_social_id identifier provider_name) provider_name w)
  = Ok true.

Definition links_of (provider_name identifier : string) (t : tables)
  : list Profile.t :=
  filter (fun p => Profile.provider p = provider_name
                   /\ Profile.identifier p
                      = g5_convert_social_id identifier provider_name)
         (social_profiles t).

Definition stores_external_identifier (external : string)
    (row : Profile.t) : Prop :=
  Profile.identifier row = external
  /\ Profile.identifier row <> Profile.mb_id row.
End ClaimsAsStated.

(** Concrete requests against the sample deployment. *)
Module Scenario.
Import Sample.
#[local] Existing Instance Sample.collaborators.

Definition local_id : string := "naver_968d08f6".

Definition pending_registration : gmap string sval :=
  <["ss_social_provider" := SStr "naver"]>
    (<["ss_social_access" := SToken "tok"]> ∅).

Definition alice : Member := member "alice" "al" "al@example.org".
Definition bob : Member := member "bob" "bo" "bo@example.org".

Definition w_fresh : world := world0 (mkTables [alice] []) pending_registration.

Definition w_linked_elsewhere : world :=
  world0 (mkTables [alice]
            [Profile.mk "alice" "naver" local_id None None None None TNone])
         pending_registration.

Definition w_dangling : world :=
  world0 (mkTables [alice]
            [Profile.mk "ghost" "naver" local_id None None None None TNone])
         ∅.

Definition w_editing_alice : world :=
  world0 (mkTables [alice; bob] [])
         (<["ss_member_form_mb_id" := SStr "alice"]> ∅).

(** Two links for the same provider and derived id: the one of [bob]
    is stored first. *)
Definition w_two_links : world :=
  world0 (mkTables [alice; bob]
            [Profile.mk "bob" "naver" local_id None None None None TNone;
             Profile.mk "alice" "naver" local_id None None None None TNone])
         ∅.
End Scenario.

(* ===================================================================== *)
(** ** The registration form and the vocabulary of the flows *)
(* ===================================================================== *)

(** The context [get_social_register_form] hands to its template. *)
Record register_form := mkRegisterForm {
  social_member_id : string;
  social_member_email : option sval;
  action_url : string;
  is_exists_email : bool
}.

Record register_page := mkRegisterPage {
  page_template : string;
  page_form : register_form;
  page_provider_name : option sval
}.

Section SocialForm.
Context `{Collaborators}.

(** [get_social_register_form]. *)
Definition get_social_register_form (config : Config) : M register_page :=
  raise_if (negb (cf_social_login_use config))
    (AlertException 400 "소셜로그인을 사용하지 않습니다." None) ;;;
  provider_name <~ session_get "ss_social_provider" ;;
  auth_token <~ session_get "ss_social_access" ;;
  raise_if (is_none auth_token || is_none provider_name)
    (AlertException 400 "먼저 소셜로그인을 하셔야됩니다."
                    (Some (url_for "login"))) ;;;
  social_email <~ session_get "ss_social_email" ;;
  let is_exists_email := negb (is_none social_email) in
  ret (mkRegisterPage "social/social_register_member.html"
         (mkRegisterForm "" social_email (url_for "post_social_register")
                         is_exists_email)
         provider_name).

(** The member id a usable link gives for a provider and a derived id:
    the first matching row, if its member id is not empty. *)
Definition linked_id (w : world) (provider_name local_id : string)
  : option string :=
  match list_find (fun p => Profile.provider p = provider_name
                            /\ Profile.identifier p = local_id)
                  (social_profiles (db w)) with
  | Some (_, row) =>
      if Py.truthy (Profile.mb_id row) then Some (Profile.mb_id row)
      else None
  | None => None
  end.

(** The session asks to link the provider to the member logged in. *)
Definition link_requested (w : world) (login_member_mb_id : option string)
  : bool :=
  bool_decide (is_Some (session w !! "ss_social_link"))
  && Py.truthy_opt login_member_mb_id.

(** The world with the access token kept in the session. *)
Definition with_access_token (token : string) (w : world) : world :=
  mkWorld (db w) (pending w)
          (<["ss_social_access" := SToken token]> (session w)) (ledger w).

Definition alert_unknown_service : exn :=
  AlertException 400 "사용하지 않는 서비스 입니다." None.
Definition alert_try_later : exn :=
  AlertException 400 "잠시후에 다시 시도해 주세요." (Some (url_for "login")).
Definition alert_broken_profile : exn :=
  AlertException 400 "유효하지 않은 요청입니다. 관리자에게 문의하십시오."
                 (Some (url_for "login")).
Definition alert_social_login_off : exn :=
  AlertException 400 "소셜로그인을 사용하지 않습니다."
                 (Some (url_for "login")).

End SocialForm.

(** The number of characters of a UTF-8 text, and whether the text
    begins at the start of a character (as every encoded [str] does). *)
Fixpoint char_count (s : string) : nat :=
  match s with
  | EmptyString => O
  | String c s' => ((if Py.is_cont c then 0 else 1) + char_count s')%nat
  end.

Definition starts_char (s : string) : bool :=
  match s with
  | EmptyString => true
  | String c _ => negb (Py.is_cont c)
  end.

(** No two members share an id, a nickname or an email. *)
Definition unique_members (t : tables) : Prop :=
  NoDup (map mb_id (members t))
  /\ NoDup (map mb_nick (members t))
  /\ NoDup (map mb_email (members t)).

(** No member has the id, the nickname or the email of the form. *)
Definition fresh_for (f : AdminForm.t) (t : tables) : Prop :=
  Forall (fun m => mb_id m <> AdminForm.mb_id f
                   /\ mb_nick m <> AdminForm.mb_nick f
                   /\ mb_email m <> AdminForm.mb_email f)
         (members t).

(** More requests against the sample deployment. *)
Module Flows.
Import Sample Scenario.
#[local] Existing Instance Sample.collaborators.

Definition w_anonymous : world := world0 (mkTables [alice] []) ∅.

Definition w_linking : world :=
  world0 (mkTables [alice] []) (<["ss_social_link" := SStr "1"]> ∅).

Definition w_members : world := world0 (mkTables [alice; bob] []) ∅.

Definition carol_form (token : string) : AdminForm.t :=
  form "carol" token (Some "ca") (Some 3) (Some "ca@example.org").

Definition alice_form : AdminForm.t :=
  form "alice" "h:alice" (Some "ally") None (Some "ally@example.org").

(** A form whose postal code has characters of several bytes. *)
Definition zip_form : AdminForm.t :=
  AdminForm.mk "carol" "h:" None None (Some "ca") (Some 3)
    (Some "ca@example.org") None None None None None None (Some "한국12")
    None None None None None None None None None None None None None None
    None None None None None None None.
End Flows.

(* ===================================================================== *)
(** * Properties *)
(* ===================================================================== *)

(** ** Digits *)

Lemma digit_cases (P : Z -> Prop) (d : Z) :
  0 <= d < 16 ->
  (forall k, (k < 16)%nat -> P (Z.of_nat k)) -> P d.
Proof.
  intros Hd HP. replace d with (Z.of_nat (Z.to_nat d)) by lia.
  apply HP. lia.
Qed.

Lemma digit_val_hex_digit (d : Z) :
  0 <= d < 16 -> digit_val (Py.hex_digit d) = d.
Proof.
  intros Hd. apply (digit_cases (fun d => digit_val (Py.hex_digit d) = d) d Hd).
  intros k Hk. do 16 (destruct k as [|k]; [reflexivity|]). lia.
Qed.

Lemma hex_digit_nonzero (d : Z) :
  0 < d < 16 -> Py.hex_digit d <> "0"%char.
Proof.
  intros Hd.
  apply (digit_cases (fun d => 0 < d -> Py.hex_digit d <> "0"%char) d);
    [lia | | lia].
  intros k Hk. do 16 (destruct k as [|k]; [try lia; discriminate|]). lia.
Qed.

Lemma digits_aux_value (base : Z) (fuel : nat) :
  2 <= base <= 16 ->
  forall n acc, 0 <= n < base ^ Z.of_nat fuel ->
    of_digits base (Py.digits_aux base fuel n acc) 0 = of_digits base acc n.
Proof.
  intros Hb. induction fuel as [|fuel IH]; intros n acc Hn.
  - simpl in *. replace n with 0 by lia. reflexivity.
  - cbn [Py.digits_aux]. destruct (Z.ltb_spec n base) as [Hlt|Hge].
    + cbn [of_digits]. rewrite Z.mod_small by lia.
      rewrite digit_val_hex_digit by lia. f_equal.
    + rewrite IH.
      * cbn [of_digits]. rewrite digit_val_hex_digit
          by (pose proof (Z.mod_pos_bound n base); lia).
        f_equal. pose proof (Z.div_mod n base). lia.
      * split; [apply Z.div_pos; lia|].
        apply Z.div_lt_upper_bound; [lia|].
        rewrite Nat2Z.inj_succ, Z.pow_succ_r in Hn by lia. lia.
Qed.

Lemma digits_aux_leading (base : Z) (fuel : nat) :
  2 <= base <= 16 ->
  forall n acc, 0 < n < base ^ Z.of_nat fuel ->
    exists c rest, Py.digits_aux base fuel n acc = String c rest
                   /\ c <> "0"%char.
Proof.
  intros Hb. induction fuel as [|fuel IH]; intros n acc Hn.
  - simpl in Hn. lia.
  - cbn [Py.digits_aux]. destruct (Z.ltb_spec n base) as [Hlt|Hge].
    + eexists _, _. split; [reflexivity|].
      rewrite Z.mod_small by lia. apply hex_digit_nonzero. lia.
    + apply IH. split.
      * apply Z.div_str_pos. lia.
      * apply Z.div_lt_upper_bound; [lia|].
        rewrite Nat2Z.inj_succ, Z.pow_succ_r in Hn by lia. lia.
Qed.

Lemma digits_fuel (base n : Z) :
  2 <= base -> 0 <= n -> n < base ^ Z.of_nat (S (Z.to_nat (Z.log2 n))).
Proof.
  intros Hb Hn. rewrite Nat2Z.inj_succ, Z2Nat.id by apply Z.log2_nonneg.
  destruct (Z.eq_dec n 0) as [->|Hnz].
  - apply Z.pow_pos_nonneg; [lia|]. simpl. lia.
  - pose proof (Z.log2_spec n ltac:(lia)) as [_ Hlt].
    eapply Z.lt_le_trans; [exact Hlt|].
    apply Z.pow_le_mono_l. lia.
Qed.

(** The numeral printed for [n] denotes [n]. *)
Lemma digits_value (base n : Z) :
  2 <= base <= 16 -> 0 <= n -> of_digits base (Py.digits base n) 0 = n.
Proof.
  intros Hb Hn. unfold Py.digits. rewrite digits_aux_value.
  - reflexivity.
  - exact Hb.
  - split; [exact Hn | apply digits_fuel; lia].
Qed.

(** The numeral printed for a positive number has no leading zero. *)
Lemma digits_no_padding (base n : Z) :
  2 <= base <= 16 -> 0 < n ->
  exists c rest, Py.digits base n = String c rest /\ c <> "0"%char.
Proof.
  intros Hb Hn. unfold Py.digits. apply digits_aux_leading; [exact Hb|].
  split; [exact Hn | apply digits_fuel; lia].
Qed.

(** For a non-negative number, [hex(n)[2:]] is the bare numeral. *)
Lemma hex_slice_nonneg (n : Z) :
  0 <= n -> Py.slice_from 2 (Py.hex n) = Py.hex_digits n.
Proof.
  intros Hn. unfold Py.hex.
  destruct (Z.ltb_spec n 0) as [Hneg|_]; [lia | reflexivity].
Qed.

(** ** Adler-32 *)

Lemma adler_update_range (s : Z * Z) (byte : Z) :
  let s' := Adler32.update s byte in
  0 <= fst s' < Adler32.BASE /\ 0 <= snd s' < Adler32.BASE.
Proof.
  unfold Adler32.update, Adler32.BASE; cbn [fst snd].
  split; apply Z.mod_pos_bound; lia.
Qed.

Lemma adler_sums_range (data : list Z) :
  forall s, 0 <= fst s < Adler32.BASE -> 0 <= snd s < Adler32.BASE ->
    let s' := fold_left Adler32.update data s in
    0 <= fst s' < Adler32.BASE /\ 0 <= snd s' < Adler32.BASE.
Proof.
  induction data as [|x data IH]; intros s Ha Hb; cbn [fold_left].
  - auto.
  - destruct (adler_update_range s x) as [Ha' Hb']. apply IH; assumption.
Qed.

(** The checksum is a 32-bit unsigned number. *)
Lemma adler32_range (data : list Z) :
  0 <= Adler32.adler32 data < 2 ^ 32.
Proof.
  unfold Adler32.adler32, Adler32.sums.
  pose proof (adler_sums_range data (1, 0)) as Hs.
  destruct (fold_left Adler32.update data (1, 0)) as [a b].
  cbn [fst snd] in Hs. unfold Adler32.BASE in Hs.
  destruct Hs as [Ha Hb]; [lia | lia |].
  assert (H0 : 0 <= Z.shiftl b 16) by (apply Z.shiftl_nonneg; lia).
  split.
  - apply Z.lor_nonneg. lia.
  - destruct (Z.eq_dec (Z.lor (Z.shiftl b 16) a) 0) as [->|Hnz]; [lia|].
    apply Z.log2_lt_pow2; [pose proof (Z.lor_nonneg (Z.shiftl b 16) a); lia|].
    rewrite Z.log2_lor by lia.
    apply Z.max_lub_lt.
    + destruct (Z.eq_dec b 0) as [->|Hb0]; [rewrite Z.shiftl_0_l; simpl; lia|].
      rewrite Z.log2_shiftl by lia.
      assert (Z.log2 b < 16) by (apply Z.log2_lt_pow2; lia). lia.
    + destruct (Z.eq_dec a 0) as [->|Ha0]; [simpl; lia|].
      assert (Z.log2 a < 16) by (apply Z.log2_lt_pow2; lia). lia.
Qed.

(** ** C1: the identity hasher *)

(** C1. [g5_convert_social_id] is a function of its two arguments equal,
    for every identifier and provider, to the composition the
    specification describes: the provider, ["_"], and the bare lowercase
    hexadecimal numeral of the Adler-32 checksum of the MD5 hex digest of
    the identifier.  For identifier ["12345"] and provider ["naver"] it is
    the literal ["naver_968d08f6"]. *)
Theorem C1_g5_convert_social_id_composition :
  (forall identifier provider,
     g5_convert_social_id identifier provider
     = derive_local_id_spec identifier provider)
  /\ Md5.hexdigest (Py.encode "12345") = "827ccb0eea8a706c4c34a16891f84e7b"
  /\ Adler32.adler32 (Py.encode "827ccb0eea8a706c4c34a16891f84e7b")
     = 0x968d08f6
  /\ g5_convert_social_id "12345" "naver" = "naver_968d08f6".
Proof.
  split; [|split; [|split]].
  - intros identifier provider.
    unfold g5_convert_social_id, derive_local_id_spec.
    rewrite hex_slice_nonneg; [reflexivity|].
    apply adler32_range.
  - vm_compute. reflexivity.
  - vm_compute. reflexivity.
  - vm_compute. reflexivity.
Qed.

(** ** The handler monad *)

Lemma bind_ok {A B} (m : M A) (k : A -> M B) (w w' : world) (a : A) :
  m w = (Ok a, w') -> bind m k w = k a w'.
Proof. intros Hm. unfold bind. rewrite Hm. reflexivity. Qed.

Lemma bind_raise {A B} (m : M A) (k : A -> M B) (w w' : world) (e : exn) :
  m w = (Raise e, w') -> bind m k w = (Raise e, w').
Proof. intros Hm. unfold bind. rewrite Hm. reflexivity. Qed.

Lemma bind_raise_if_false {B} (e : exn) (k : unit -> M B) (w : world) :
  bind (raise_if false e) k w = k tt w.
Proof. reflexivity. Qed.

Lemma bind_raise_if_true {B} (e : exn) (k : unit -> M B) (w : world) :
  bind (raise_if true e) k w = (Raise e, w).
Proof. reflexivity. Qed.

Lemma bind_gets {A B} (f : world -> A) (k : A -> M B) (w : world) :
  bind (gets f) k w = k (f w) w.
Proof. reflexivity. Qed.

(** [first()] finds a row exactly when some row satisfies the filter. *)
Lemma list_find_is_Some {A} (P : A -> Prop) `{!forall x, Decision (P x)}
    (l : list A) :
  is_Some (list_find P l) <-> Exists P l.
Proof.
  split.
  - intros [[i x] Hf]. apply list_find_Some in Hf as (Hi & HP & _).
    apply Exists_exists. exists x. split; [|exact HP].
    eapply list_elem_of_lookup_2. exact Hi.
  - intros HE. apply Exists_exists in HE as (x & Hx & HP).
    eapply list_find_elem_of; eassumption.
Qed.

Lemma list_find_decide {A} (P : A -> Prop) `{!forall x, Decision (P x)}
    (l : list A) :
  bool_decide (is_Some (list_find P l)) = bool_decide (Exists P l).
Proof. apply bool_decide_ext, list_find_is_Some. Qed.

(** ** Splitting a derived local id *)

Lemma split_nonempty (sep : ascii) (s : string) : Py.split sep s <> [].
Proof.
  destruct s as [|c s]; cbn [Py.split]; [discriminate|].
  destruct (Ascii.eqb c sep); [discriminate|].
  destruct (Py.split sep s); discriminate.
Qed.

Lemma split_no_sep (sep : ascii) (s : string) :
  no_sep sep s = true -> Py.split sep s = [s].
Proof.
  induction s as [|c s IH]; cbn [no_sep Py.split]; [reflexivity|].
  intros [Hc Hs]%andb_prop. apply negb_true_iff in Hc. rewrite Hc.
  rewrite (IH Hs). reflexivity.
Qed.

Lemma split_prefix (sep : ascii) (a b : string) :
  no_sep sep a = true ->
  Py.split sep (a +:+ String sep b) = a :: Py.split sep b.
Proof.
  induction a as [|c a IH]; simpl.
  - intros _. rewrite Ascii.eqb_refl. reflexivity.
  - intros [Hc Ha]%andb_prop. apply negb_true_iff in Hc. rewrite Hc.
    rewrite (IH Ha). reflexivity.
Qed.

(** A string with a separator in it has a second piece. *)
Lemma split_second (sep : ascii) (a b : string) :
  is_Some (Py.split sep (a +:+ String sep b) !! 1%nat).
Proof.
  induction a as [|c a IH]; simpl.
  - rewrite Ascii.eqb_refl. pose proof (split_nonempty sep b).
    destruct (Py.split sep b); [congruence | eexists; reflexivity].
  - destruct (Ascii.eqb c sep).
    + pose proof (split_nonempty sep (a +:+ String sep b)).
      destruct (Py.split sep (a +:+ String sep b));
        [congruence | eexists; reflexivity].
    + destruct (Py.split sep (a +:+ String sep b)) as [|p ps];
        [destruct IH; discriminate | exact IH].
Qed.

(** ** Social registration *)

Section SocialProperties.
Context `{Collaborators}.

Lemma post_social_register_run (config : Config) (member_form : MemberForm.t)
    (social_email : option string) (profile : Profile.t)
    (request_time : datetime) (w : world) (provider_name : string) :
  registration_ready config w profile provider_name ->
  post_social_register config member_form social_email profile request_time w
  = match registration_check config member_form
            (g5_convert_social_id (Profile.identifier profile) provider_name)
            (db w) with
    | Some e => (Raise e, w)
    | None =>
        (Ok (RedirectResponse "/" 302),
         registered_world config member_form
           (g5_convert_social_id (Profile.identifier profile) provider_name)
           provider_name profile request_time w)
    end.
Proof.
  intros (Huse & Hprov & Htok & Hknown & Hid).
  unfold post_social_register, registration_check.
  rewrite Huse. rewrite bind_raise_if_false.
  unfold session_get. rewrite !bind_gets. rewrite Hprov, Htok.
  cbn [is_none orb]. rewrite bind_raise_if_false.
  unfold provider_class. rewrite Hknown. cbn [negb]. rewrite bind_raise_if_false.
  rewrite Hid. cbn [negb]. rewrite bind_raise_if_false.
  set (gid := g5_convert_social_id (Profile.identifier profile) provider_name).
  cbv zeta.
  unfold member_first. rewrite bind_gets. rewrite list_find_decide.
  destruct (decide (Exists (fun m => mb_id m = gid) (members (db w))))
    as [He|He].
  { rewrite bool_decide_eq_true_2 by exact He. reflexivity. }
  rewrite bool_decide_eq_false_2 by exact He. rewrite bind_raise_if_false.
  destruct (Py.truthy (validate_userid gid (cf_prohibit_id config)));
    [reflexivity | rewrite bind_raise_if_false].
  destruct (valid_email (MemberForm.mb_email member_form));
    [rewrite bind_raise_if_false | reflexivity].
  cbn [negb]. rewrite bind_gets. rewrite list_find_decide.
  destruct (decide (Exists (fun m => mb_email m
                                     = MemberForm.mb_email member_form)
                           (members (db w)))) as [Hm|Hm].
  { rewrite bool_decide_eq_true_2 by exact Hm. reflexivity. }
  rewrite bool_decide_eq_false_2 by exact Hm. rewrite bind_raise_if_false.
  destruct (Py.truthy (validate_nickname (MemberForm.mb_nick member_form)
                                         (cf_prohibit_id config)));
    [reflexivity | rewrite bind_raise_if_false].
  unfold registered_world, registered_member, registered_profile,
    registered_nick.
  destruct (Py.truthy_opt (MemberForm.mb_nick member_form)).
  - reflexivity.
  - destruct (split_second "_" provider_name
                (Py.slice_from 2 (Py.hex (Adler32.adler32
                   (Py.encode (Md5.hexdigest
                      (Py.encode (Profile.identifier profile))))))))
      as [piece Hpiece].
    change (Py.split "_" gid !! 1%nat = Some piece) in Hpiece.
    rewrite Hpiece. reflexivity.
Qed.

Lemma derived_id_shape (identifier provider : string) :
  g5_convert_social_id identifier provider
  = provider +:+ String "_" (checksum_hex identifier).
Proof.
  unfold g5_convert_social_id, checksum_hex.
  rewrite hex_slice_nonneg by apply adler32_range. reflexivity.
Qed.

Lemma hex_digit_not_sep (d : Z) :
  0 <= d < 16 -> Ascii.eqb (Py.hex_digit d) "_" = false.
Proof.
  intros Hd.
  apply (digit_cases (fun d => Ascii.eqb (Py.hex_digit d) "_" = false) d Hd).
  intros k Hk. do 16 (destruct k as [|k]; [reflexivity|]). lia.
Qed.

Lemma digits_aux_no_sep (fuel : nat) :
  forall n acc, 0 <= n -> no_sep "_" acc = true ->
    no_sep "_" (Py.digits_aux 16 fuel n acc) = true.
Proof.
  induction fuel as [|fuel IH]; intros n acc Hn Hacc; cbn [Py.digits_aux].
  - exact Hacc.
  - assert (Hstep : no_sep "_" (String (Py.hex_digit (n mod 16)) acc) = true).
    { cbn [no_sep]. rewrite hex_digit_not_sep, Hacc; [reflexivity|].
      apply Z.mod_pos_bound. lia. }
    destruct (n <? 16); [exact Hstep|].
    apply IH; [apply Z.div_pos; lia | exact Hstep].
Qed.

Lemma checksum_hex_no_sep (identifier : string) :
  no_sep "_" (checksum_hex identifier) = true.
Proof.
  unfold checksum_hex, Py.hex_digits, Py.digits.
  apply digits_aux_no_sep; [apply adler32_range | reflexivity].
Qed.

Lemma split_derived_id (identifier provider : string) :
  no_sep "_" provider = true ->
  Py.split "_" (g5_convert_social_id identifier provider)
  = [provider; checksum_hex identifier].
Proof.
  intros Hp. rewrite derived_id_shape, split_prefix by exact Hp.
  rewrite split_no_sep by apply checksum_hex_no_sep. reflexivity.
Qed.

Lemma registered_world_members config member_form local_id provider_name
    profile request_time (w : world) :
  pending w = [] ->
  members (db (registered_world config member_form local_id provider_name
                                profile request_time w))
  = members (db w)
      ++ [registered_member config member_form local_id request_time].
Proof. intros Hp. unfold registered_world. rewrite Hp. reflexivity. Qed.

Lemma registered_world_profiles config member_form local_id provider_name
    profile request_time (w : world) :
  pending w = [] ->
  social_profiles (db (registered_world config member_form local_id
                         provider_name profile request_time w))
  = social_profiles (db w)
      ++ [registered_profile member_form local_id provider_name profile
                             request_time].
Proof. intros Hp. unfold registered_world. rewrite Hp. reflexivity. Qed.

(** C2. Once a registration request reaches the validation, the handler
    raises the alert of the first failing check in the order (i) local id
    already a member, (ii) username policy, (iii) email syntax, (iv) email
    in use, (v) nickname policy, and succeeds when none fails; whenever it
    raises, the world is the one it started from: no member row and no
    profile row is written. *)
Theorem C2_registration_validation_order (config : Config)
    (member_form : MemberForm.t) (social_email : option string)
    (profile : Profile.t) (request_time : datetime) (w : world)
    (provider_name : string) :
  registration_ready config w profile provider_name ->
  let local_id :=
    g5_convert_social_id (Profile.identifier profile) provider_name in
  let handler :=
    post_social_register config member_form social_email profile
                         request_time in
  (forall e, registration_check config member_form local_id (db w) = Some e ->
     handler w = (Raise e, w))
  /\ (registration_check config member_form local_id (db w) = None ->
        exists w', handler w = (Ok (RedirectResponse "/" 302), w'))
  /\ (forall e w', handler w = (Raise e, w') -> w' = w).
Proof.
  intros Hready local_id handler. subst handler.
  rewrite (post_social_register_run _ _ _ _ _ _ _ Hready).
  fold local_id.
  destruct (registration_check config member_form local_id (db w)) as [e0|].
  - split; [|split].
    + intros e [= ->]. reflexivity.
    + discriminate.
    + intros e w' [= _ Hw]. symmetry. exact Hw.
  - split; [|split].
    + discriminate.
    + intros _. eexists. reflexivity.
    + discriminate.
Qed.

(** C4, amended. A registration attempt is rejected with the
    already-registered alert, writing nothing, whenever a member row with
    the derived local id exists; a successful registration writes that
    member row with its single profile row, so every later attempt for
    the same provider and identifier is rejected and writes nothing. *)
Theorem C4_registered_id_blocks_registration (config : Config)
    (member_form : MemberForm.t) (social_email : option string)
    (profile : Profile.t) (request_time : datetime) (w : world)
    (provider_name : string) :
  registration_ready config w profile provider_name ->
  let local_id :=
    g5_convert_social_id (Profile.identifier profile) provider_name in
  let handler :=
    post_social_register config member_form social_email profile
                         request_time in
  (Exists (fun m => mb_id m = local_id) (members (db w)) ->
     handler w = (Raise alert_registered, w))
  /\ (pending w = [] ->
      registration_check config member_form local_id (db w) = None ->
      exists w1,
        handler w = (Ok (RedirectResponse "/" 302), w1)
        /\ social_profiles (db w1)
           = social_profiles (db w)
               ++ [registered_profile member_form local_id provider_name
                                      profile request_time]
        /\ forall config' member_form' social_email' profile' request_time',
             cf_social_login_use config' = true ->
             Profile.identifier profile' = Profile.identifier profile ->
             post_social_register config' member_form' social_email'
                                  profile' request_time' w1
             = (Raise alert_registered, w1)).
Proof.
  intros Hready local_id handler. subst handler. split.
  - intros Hex. rewrite (post_social_register_run _ _ _ _ _ _ _ Hready).
    fold local_id. unfold registration_check.
    rewrite decide_True by exact Hex. reflexivity.
  - intros Hpend Hcheck.
    rewrite (post_social_register_run _ _ _ _ _ _ _ Hready).
    fold local_id. rewrite Hcheck. eexists. split; [reflexivity|].
    split; [apply registered_world_profiles; exact Hpend|].
    intros config' member_form' social_email' profile' request_time'
      Huse Hsame.
    destruct Hready as (_ & Hprov & Htok & Hknown & Hid).
    assert (Hready' : registration_ready config'
              (registered_world config member_form local_id provider_name
                                profile request_time w)
              profile' provider_name).
    { unfold registration_ready. rewrite Hsame. cbn [session registered_world].
      auto. }
    rewrite (post_social_register_run _ _ _ _ _ _ _ Hready').
    rewrite Hsame. fold local_id. unfold registration_check.
    rewrite decide_True; [reflexivity|].
    rewrite registered_world_members by exact Hpend.
    apply Exists_app. right. apply Exists_cons_hd. reflexivity.
Qed.

(** C8. When the submitted nickname is blank and the validation passes,
    the member row and the profile row both store the second piece of the
    derived local id split on ["_"]; for a provider name without ["_"]
    that piece is all that follows the provider prefix, the checksum
    text. *)
Theorem C8_blank_nickname_fallback (config : Config)
    (member_form : MemberForm.t) (social_email : option string)
    (profile : Profile.t) (request_time : datetime) (w : world)
    (provider_name : string) :
  registration_ready config w profile provider_name ->
  pending w = [] ->
  let local_id :=
    g5_convert_social_id (Profile.identifier profile) provider_name in
  registration_check config member_form local_id (db w) = None ->
  Py.truthy_opt (MemberForm.mb_nick member_form) = false ->
  exists w' member row piece,
    post_social_register config member_form social_email profile
                         request_time w
    = (Ok (RedirectResponse "/" 302), w')
    /\ members (db w') = members (db w) ++ [member]
    /\ social_profiles (db w') = social_profiles (db w) ++ [row]
    /\ Py.split "_" local_id !! 1%nat = Some piece
    /\ mb_nick member = Some piece
    /\ Profile.nickname row = Some piece
    /\ (no_sep "_" provider_name = true ->
        piece = checksum_hex (Profile.identifier profile)
        /\ local_id = provider_name +:+ "_" +:+ piece).
Proof.
  intros Hready Hpend local_id Hcheck Hblank.
  rewrite (post_social_register_run _ _ _ _ _ _ _ Hready).
  fold local_id. rewrite Hcheck.
  destruct (split_second "_" provider_name
              (checksum_hex (Profile.identifier profile))) as [piece Hpiece].
  rewrite <- derived_id_shape in Hpiece. fold local_id in Hpiece.
  exists (registered_world config member_form local_id provider_name profile
                           request_time w),
    (registered_member config member_form local_id request_time),
    (registered_profile member_form local_id provider_name profile
                        request_time), piece.
  split; [reflexivity|].
  split; [apply registered_world_members; exact Hpend|].
  split; [apply registered_world_profiles; exact Hpend|].
  split; [exact Hpiece|].
  assert (Hnick : registered_nick member_form local_id = Some piece).
  { unfold registered_nick. rewrite Hblank. exact Hpiece. }
  split; [exact Hnick|]. split; [exact Hnick|].
  intros Hsep. unfold local_id in Hpiece.
  rewrite split_derived_id in Hpiece by exact Hsep.
  change (Some (checksum_hex (Profile.identifier profile)) = Some piece)
    in Hpiece.
  assert (Heq : piece = checksum_hex (Profile.identifier profile))
    by congruence.
  split; [exact Heq|].
  rewrite Heq. unfold local_id. apply derived_id_shape.
Qed.

End SocialProperties.

(** ** The administrator's form *)

Section AdminProperties.
Context `{Collaborators}.

Lemma insert_branch_run (f : AdminForm.t) (w : world) :
  insert_branch f w
  = if decide (Exists (fun m => mb_id m = AdminForm.mb_id f) (members (db w)))
    then (Raise (duplicate_id f), w)
    else match list_find (fun m => mb_nick m = AdminForm.mb_nick f)
                         (members (db w)) with
         | Some (_, c) =>
             (Raise (collision (Py.str_opt (AdminForm.mb_nick f))
                               " : 닉네임이 이미 존재합니다." (mb_id c)), w)
         | None =>
           match list_find (fun m => mb_email m = AdminForm.mb_email f)
                           (members (db w)) with
           | Some (_, c) =>
               (Raise (collision (Py.str_opt (AdminForm.mb_email f))
                                 " : 이메일이 이미 존재합니다." (mb_id c)), w)
           | None =>
               (Ok (AdminForm.mb_id f),
                mkWorld (fold_left apply_write
                           (pending w ++ [AddMember (inserted_member f)])
                           (db w))
                        [] (session w) (ledger w))
           end
         end.
Proof.
  unfold insert_branch, member_first. rewrite bind_gets, list_find_decide.
  destruct (decide (Exists (fun m => mb_id m = AdminForm.mb_id f)
                           (members (db w)))) as [He|He].
  { rewrite bool_decide_eq_true_2 by exact He. reflexivity. }
  rewrite bool_decide_eq_false_2 by exact He.
  rewrite bind_raise_if_false, bind_gets.
  destruct (list_find (fun m => mb_nick m = AdminForm.mb_nick f)
                      (members (db w))) as [[i c]|]; [reflexivity|].
  rewrite bind_gets.
  destruct (list_find (fun m => mb_email m = AdminForm.mb_email f)
                      (members (db w))) as [[i c]|]; reflexivity.
Qed.

Lemma update_branch_run (config : Config) (ss : sval) (f : AdminForm.t)
    (w : world) :
  verify_password (AdminForm.mb_id f) (AdminForm.token f) = true ->
  update_branch config ss f w
  = match list_find (fun m => mb_id m <> AdminForm.mb_id f
                              /\ mb_nick m = AdminForm.mb_nick f)
                    (members (db w)) with
    | Some (_, c) =>
        (Raise (collision (Py.str_opt (AdminForm.mb_nick f))
                          " : 닉네임이 이미 존재합니다." (mb_id c)), w)
    | None =>
      match list_find (fun m => mb_id m <> AdminForm.mb_id f
                                /\ mb_email m = AdminForm.mb_email f)
                      (members (db w)) with
      | Some (_, c) =>
          (Raise (collision (Py.str_opt (AdminForm.mb_email f))
                            " : 이메일이 이미 존재합니다." (mb_id c)), w)
      | None =>
        match list_find (fun m => SStr (mb_id m) = ss) (members (db w)) with
        | None =>
            (Raise (HTTPException 404
                      (AdminForm.mb_id f
                         +:+ " : 회원아이디가 존재하지 않습니다.")), w)
        | Some (pos, old) =>
            (Ok (sval_str ss),
             mkWorld (fold_left apply_write
                        (pending w
                           ++ [UpdateMember pos (updated_member config f old)])
                        (db w))
                     [] (session w) (ledger w))
        end
      end
    end.
Proof.
  intros Hv. unfold update_branch, member_first. rewrite Hv. cbn [negb].
  rewrite bind_raise_if_false, bind_gets.
  destruct (list_find _ (members (db w))) as [[i c]|]; [reflexivity|].
  rewrite bind_gets.
  destruct (list_find _ (members (db w))) as [[i c]|]; [reflexivity|].
  rewrite bind_gets.
  destruct (list_find _ (members (db w))) as [[i c]|]; reflexivity.
Qed.

Lemma member_form_update_insert (config : Config) (f : AdminForm.t)
    (w : world) :
  verify_password (AdminForm.mb_id f) (AdminForm.token f) = false ->
  member_form_update config f w = insert_path f w.
Proof.
  intros Hv. unfold member_form_update, insert_path, session_get.
  rewrite bind_gets, Hv. reflexivity.
Qed.

Lemma member_form_update_update (config : Config) (f : AdminForm.t)
    (w : world) :
  verify_password (AdminForm.mb_id f) (AdminForm.token f) = true ->
  member_form_update config f w = update_path config f w.
Proof.
  intros Hv. unfold member_form_update, update_path, session_get.
  rewrite !bind_gets, Hv. reflexivity.
Qed.

Lemma insert_path_run (f : AdminForm.t) (w : world) :
  insert_path f w
  = match insert_branch f w with
    | (Ok id, w') => (Ok (redirect_to_form id), w')
    | (Raise e, w') => (Raise e, w')
    end.
Proof. unfold insert_path, bind. destruct (insert_branch f w) as [[id|e] w']; reflexivity. Qed.

Lemma update_path_run (config : Config) (f : AdminForm.t) (w : world) :
  update_path config f w
  = match update_branch config (edit_target w) f w with
    | (Ok id, w') => (Ok (redirect_to_form id), w')
    | (Raise e, w') => (Raise e, w')
    end.
Proof.
  unfold update_path, session_get. rewrite bind_gets. unfold bind, edit_target.
  destruct (update_branch _ _ f w) as [[id|e] w']; reflexivity.
Qed.

(** C6. When the token does not verify against the submitted id, the
    insert branch runs whatever the session holds, and if a member with
    that id exists the request fails with the duplicate-id error and
    leaves the world as it was. *)
Theorem C6_forged_token_duplicate_id (config : Config) (f : AdminForm.t)
    (w : world) :
  verify_password (AdminForm.mb_id f) (AdminForm.token f) = false ->
  Exists (fun m => mb_id m = AdminForm.mb_id f) (members (db w)) ->
  member_form_update config f w = insert_path f w
  /\ member_form_update config f w = (Raise (duplicate_id f), w).
Proof.
  intros Hv Hex. rewrite member_form_update_insert by exact Hv.
  split; [reflexivity|].
  rewrite insert_path_run, insert_branch_run.
  rewrite decide_True by exact Hex. reflexivity.
Qed.

Lemma update_commit_members (w : world) (pos : nat) (m : Member) :
  pending w = [] ->
  members (fold_left apply_write (pending w ++ [UpdateMember pos m]) (db w))
  = <[pos := m]> (members (db w)).
Proof. intros Hp. rewrite Hp. reflexivity. Qed.

Lemma insert_commit_members (w : world) (m : Member) :
  pending w = [] ->
  members (fold_left apply_write (pending w ++ [AddMember m]) (db w))
  = members (db w) ++ [m].
Proof. intros Hp. rewrite Hp. reflexivity. Qed.

Lemma edit_target_found (w : world) (pos : nat) (old : Member) :
  list_find (fun m => SStr (mb_id m) = edit_target w) (members (db w))
  = Some (pos, old) ->
  members (db w) !! pos = Some old
  /\ edit_target w = SStr (mb_id old)
  /\ (pos < length (members (db w)))%nat.
Proof.
  intros (Hl & Hm & _)%list_find_Some. split; [exact Hl|].
  split; [symmetry; exact Hm|]. eapply lookup_lt_Some. exact Hl.
Qed.

Lemma member_form_update_effect (config : Config) (f : AdminForm.t)
    (w : world) :
  pending w = [] ->
  (forall e w', member_form_update config f w = (Raise e, w') -> w' = w)
  /\ (verify_password (AdminForm.mb_id f) (AdminForm.token f) = false ->
      member_form_update config f w = insert_path f w
      /\ forall r w', member_form_update config f w = (Ok r, w') ->
           r = redirect_to_form (AdminForm.mb_id f)
           /\ members (db w') = members (db w) ++ [inserted_member f])
  /\ (verify_password (AdminForm.mb_id f) (AdminForm.token f) = true ->
      member_form_update config f w = update_path config f w
      /\ forall r w', member_form_update config f w = (Ok r, w') ->
           exists pos old,
             members (db w) !! pos = Some old
             /\ edit_target w = SStr (mb_id old)
             /\ r = redirect_to_form (mb_id old)
             /\ members (db w')
                = <[pos := updated_member config f old]> (members (db w))).
Proof.
  intros Hpend.
  destruct (verify_password (AdminForm.mb_id f) (AdminForm.token f)) eqn:Hv.
  - rewrite (member_form_update_update _ _ _ Hv), update_path_run,
      (update_branch_run _ _ _ _ Hv).
    destruct (list_find _ (members (db w))) as [[i c]|].
    { split; [intros e w' [= _ <-]; reflexivity|].
      split; [discriminate|]. intros _. split; [reflexivity|]. discriminate. }
    destruct (list_find _ (members (db w))) as [[i c]|].
    { split; [intros e w' [= _ <-]; reflexivity|].
      split; [discriminate|]. intros _. split; [reflexivity|]. discriminate. }
    destruct (list_find _ (members (db w))) as [[pos old]|] eqn:Hfind.
    + split; [discriminate|]. split; [discriminate|]. intros _.
      split; [reflexivity|]. intros r w' [= <- <-].
      destruct (edit_target_found _ _ _ Hfind) as (Hl & Ht & _).
      exists pos, old. split; [exact Hl|]. split; [exact Ht|].
      split; [rewrite Ht; reflexivity|].
      cbn [db]. apply update_commit_members. exact Hpend.
    + split; [intros e w' [= _ <-]; reflexivity|].
      split; [discriminate|]. intros _. split; [reflexivity|]. discriminate.
  - rewrite (member_form_update_insert _ _ _ Hv), insert_path_run,
      insert_branch_run.
    destruct (decide _) as [He|He].
    { split; [intros e w' [= _ <-]; reflexivity|].
      split; [|discriminate]. intros _. split; [reflexivity|]. discriminate. }
    destruct (list_find _ (members (db w))) as [[i c]|].
    { split; [intros e w' [= _ <-]; reflexivity|].
      split; [|discriminate]. intros _. split; [reflexivity|]. discriminate. }
    destruct (list_find _ (members (db w))) as [[i c]|].
    { split; [intros e w' [= _ <-]; reflexivity|].
      split; [|discriminate]. intros _. split; [reflexivity|]. discriminate. }
    split; [discriminate|]. split; [|discriminate]. intros _.
    split; [reflexivity|]. intros r w' [= <- <-]. split; [reflexivity|].
    cbn [db]. apply insert_commit_members. exact Hpend.
Qed.

(** C7. After a successful update the stored row is the loaded row with
    the form written over it: an omitted level stores the configured
    registration level, an omitted nickname stores the empty string. *)
Theorem C7_update_level_default_nick_empty (config : Config)
    (f : AdminForm.t) (w w' : world) (r : response) :
  verify_password (AdminForm.mb_id f) (AdminForm.token f) = true ->
  pending w = [] ->
  member_form_update config f w = (Ok r, w') ->
  exists pos old stored,
    members (db w) !! pos = Some old
    /\ edit_target w = SStr (mb_id old)
    /\ members (db w') !! pos = Some stored
    /\ stored = updated_member config f old
    /\ (AdminForm.mb_level f = None ->
        mb_level stored = Some (cf_register_level config))
    /\ (AdminForm.mb_nick f = None -> mb_nick stored = Some "").
Proof.
  intros Hv Hpend Hrun.
  destruct (member_form_update_effect config f w Hpend) as (_ & _ & Hupd).
  destruct (Hupd Hv) as [_ Hok].
  destruct (Hok r w' Hrun) as (pos & old & Hl & Ht & _ & Hm).
  exists pos, old, (updated_member config f old).
  split; [exact Hl|]. split; [exact Ht|].
  split.
  { rewrite Hm. apply list_lookup_insert_eq. eapply lookup_lt_Some. exact Hl. }
  split; [reflexivity|]. split.
  - intros Hlevel. cbn [updated_member mb_level]. rewrite Hlevel. reflexivity.
  - intros Hnick. cbn [updated_member mb_nick]. rewrite Hnick. reflexivity.
Qed.

(** C5, amended. The branch of [member_form_update] is chosen by the
    token alone: a token that does not verify against the submitted id
    runs the insert branch, whose success appends one row; a token that
    verifies runs the update branch, whose success overwrites the row the
    session names. A request that fails leaves the world as it was. *)
Theorem C5_token_selects_branch (config : Config) (f : AdminForm.t)
    (w : world) :
  pending w = [] ->
  (forall e w', member_form_update config f w = (Raise e, w') -> w' = w)
  /\ (verify_password (AdminForm.mb_id f) (AdminForm.token f) = false ->
      member_form_update config f w = insert_path f w
      /\ forall r w', member_form_update config f w = (Ok r, w') ->
           r = redirect_to_form (AdminForm.mb_id f)
           /\ members (db w') = members (db w) ++ [inserted_member f])
  /\ (verify_password (AdminForm.mb_id f) (AdminForm.token f) = true ->
      member_form_update config f w = update_path config f w
      /\ forall r w', member_form_update config f w = (Ok r, w') ->
           exists pos old,
             members (db w) !! pos = Some old
             /\ edit_target w = SStr (mb_id old)
             /\ r = redirect_to_form (mb_id old)
             /\ members (db w')
                = <[pos := updated_member config f old]> (members (db w))).
Proof. exact (member_form_update_effect config f w). Qed.

Ltac column_cases :=
  repeat match goal with
         | |- context [match ?x with _ => _ end] => is_var x; destruct x
         | |- context [if ?x =? 0 then _ else _] => destruct (x =? 0)
         end;
  try reflexivity; try discriminate.

(** The row the update branch writes, column by column. *)
Lemma updated_member_columns (config : Config) (f : AdminForm.t)
    (old : Member) :
  overwritten_by config f old (updated_member config f old).
Proof.
  destruct f. unfold overwritten_by, updated_member, or_empty, or_zero,
    zip1_of, zip2_of, Py.truthy_opt, Py.truthy_int, Py.truthy, Py.str_opt.
  cbn -[Py.chars_to Py.chars_from Z.eqb].
  repeat split; column_cases.
Qed.

(** The row the insert branch adds, column by column. *)
Lemma inserted_member_columns (f : AdminForm.t) :
  built_from f (inserted_member f).
Proof.
  destruct f. unfold built_from, inserted_member, zip1_of, zip2_of,
    Py.truthy_opt, Py.truthy_int, Py.truthy, Py.str_opt.
  cbn -[Py.chars_to Py.chars_from Z.eqb].
  repeat split; column_cases.
Qed.

(** C10. On the update path the collision checks look only at rows whose
    id differs from the submitted id: the first such row with the
    submitted nickname raises the nickname collision, else the first
    such row with the submitted email raises the email collision; rows
    under the submitted id raise none, so that, the row of the session
    id being there, a request whose nickname and email are those of no
    row under another id raises no [HTTPException].  The row that is
    read, overwritten and named in the redirect is the first one under
    the id kept in the session, also when the submitted id differs: a
    request that is answered has written the submitted values over that
    row, column by column, left every other row and the links as they
    were, and redirects to the session id. *)
Theorem C10_update_targets_session_id (config : Config) (f : AdminForm.t)
    (w : world) (target : string) :
  verify_password (AdminForm.mb_id f) (AdminForm.token f) = true ->
  pending w = [] ->
  session w !! "ss_member_form_mb_id" = Some (SStr target) ->
  (forall i c,
     list_find (fun m => mb_id m <> AdminForm.mb_id f
                         /\ mb_nick m = AdminForm.mb_nick f)
               (members (db w)) = Some (i, c) ->
     member_form_update config f w
     = (Raise (collision (Py.str_opt (AdminForm.mb_nick f))
                         " : 닉네임이 이미 존재합니다." (mb_id c)), w))
  /\ (list_find (fun m => mb_id m <> AdminForm.mb_id f
                          /\ mb_nick m = AdminForm.mb_nick f)
                (members (db w)) = None ->
      forall i c,
        list_find (fun m => mb_id m <> AdminForm.mb_id f
                            /\ mb_email m = AdminForm.mb_email f)
                  (members (db w)) = Some (i, c) ->
        member_form_update config f w
        = (Raise (collision (Py.str_opt (AdminForm.mb_email f))
                            " : 이메일이 이미 존재합니다." (mb_id c)), w))
  /\ (forall pos old,
        list_find (fun m => mb_id m = target) (members (db w))
        = Some (pos, old) ->
        (Forall (fun m => mb_id m <> AdminForm.mb_id f ->
                          mb_nick m <> AdminForm.mb_nick f
                          /\ mb_email m <> AdminForm.mb_email f)
                (members (db w)) ->
         forall status_code detail w',
           member_form_update config f w
           <> (Raise (HTTPException status_code detail), w'))
        /\ (forall r w',
              member_form_update config f w = (Ok r, w') ->
              r = redirect_to_form target
              /\ social_profiles (db w') = social_profiles (db w)
              /\ exists stored,
                   members (db w') = <[pos := stored]> (members (db w))
                   /\ mb_id stored = target
                   /\ overwritten_by config f old stored)).
Proof.
  intros Hv Hpend Hmarker.
  rewrite (member_form_update_update _ _ _ Hv), update_path_run,
    (update_branch_run _ _ _ _ Hv).
  assert (Htarget : edit_target w = SStr target).
  { unfold edit_target. rewrite Hmarker. reflexivity. }
  rewrite Htarget.
  rewrite (list_find_ext (fun m => SStr (mb_id m) = SStr target)
                         (fun m => mb_id m = target))
    by (intros m; split; [intros [= ->]; reflexivity | intros ->; reflexivity]).
  split; [|split].
  - intros i c Hfind. rewrite Hfind. reflexivity.
  - intros Hnick i c Hfind. rewrite Hnick, Hfind. reflexivity.
  - intros pos old Hfind. rewrite Hfind. split.
    + intros Hall status_code detail w'.
      assert (Hnick : list_find (fun m => mb_id m <> AdminForm.mb_id f
                                          /\ mb_nick m = AdminForm.mb_nick f)
                                (members (db w)) = None).
      { apply list_find_None. eapply Forall_impl; [exact Hall|].
        intros m Hm [Hne Heq]. destruct (Hm Hne) as [Hn _]. exact (Hn Heq). }
      assert (Hemail : list_find
                         (fun m => mb_id m <> AdminForm.mb_id f
                                   /\ mb_email m = AdminForm.mb_email f)
                         (members (db w)) = None).
      { apply list_find_None. eapply Forall_impl; [exact Hall|].
        intros m Hm [Hne Heq]. destruct (Hm Hne) as [_ He]. exact (He Heq). }
      rewrite Hnick, Hemail. discriminate.
    + intros r w' Hrun.
      destruct (list_find (fun m => mb_id m <> AdminForm.mb_id f
                                    /\ mb_nick m = AdminForm.mb_nick f)
                          (members (db w))) as [[i c]|]; [discriminate|].
      destruct (list_find (fun m => mb_id m <> AdminForm.mb_id f
                                    /\ mb_email m = AdminForm.mb_email f)
                          (members (db w))) as [[i c]|]; [discriminate|].
      injection Hrun as <- <-. split; [reflexivity|].
      cbn [db]. rewrite Hpend. cbn [app fold_left apply_write
                                     social_profiles members].
      split; [reflexivity|].
      exists (updated_member config f old). split; [reflexivity|].
      split; [|apply updated_member_columns].
      apply list_find_Some in Hfind as (_ & Hid & _). exact Hid.
Qed.

End AdminProperties.

(** ** The login callback *)

Section CallbackProperties.
Context `{Collaborators}.

Lemma authorize_fallthrough (provider_name token : string)
    (social_email : option string) (profile : Profile.t)
    (login_member_mb_id : option string) (w w1 : world)
    (r : outcome response) (w' : world) :
  pending w = [] ->
  w1 = mkWorld (db w) (pending w)
         (<["ss_social_access" := SToken token]> (session w)) (ledger w) ->
  (has_link <~ session_contains "ss_social_link" ;;
   if has_link && Py.truthy_opt login_member_mb_id then
     stage (AddProfile
              (Profile.set_mb_id (Py.str_opt login_member_mb_id) profile)) ;;;
     db_commit ;;;
     ret (RedirectResponse (url_for "index") 302)
   else
     session_set "ss_social_provider" (SStr provider_name) ;;;
     session_set "ss_social_email"
       (match social_email with Some e => SStr e | None => SNone end) ;;;
     ret (RedirectResponse (url_for "get_social_register_form") 302)) w1
  = (r, w') ->
  callback_outcome
    (if bool_decide (is_Some (session w !! "ss_social_link"))
        && Py.truthy_opt login_member_mb_id
     then CaseLink else CaseRegister)
    provider_name token social_email profile login_member_mb_id w r w'.
Proof.
  intros Hpend -> Hrun. unfold session_contains in Hrun.
  rewrite bind_gets in Hrun. cbn [session] in Hrun.
  rewrite lookup_insert_ne in Hrun by done.
  destruct (bool_decide (is_Some (session w !! "ss_social_link"))
            && Py.truthy_opt login_member_mb_id) eqn:Hcond.
  - apply andb_prop in Hcond as [_ Hlogin].
    destruct login_member_mb_id as [id|]; [|discriminate].
    injection Hrun as <- <-.
    unfold callback_outcome, linked_to_member. cbn [db pending].
    rewrite Hpend. cbn [app fold_left apply_write members social_profiles].
    split; [reflexivity|]. split; [reflexivity|].
    exists id. split; reflexivity.
  - injection Hrun as <- <-.
    unfold callback_outcome, sent_to_registration. cbn [db session].
    split; [reflexivity|]. split; [reflexivity|].
    split; [|apply lookup_insert_eq].
    rewrite lookup_insert_ne by done. apply lookup_insert_eq.
Qed.

(** C3, amended. For a callback with a token, a known provider and a
    non-empty identifier the outcome is fixed by priority, the link being
    the first profile row, in storage order, for the provider and the
    derived local id: if that row has a non-empty member id and a member
    row under it exists, the session gets that member id and the key of
    the first such member row, and the answer redirects home; if it has
    a non-empty member id and no member row under it exists, the
    invalid-request alert is raised and nothing is written; otherwise
    (no such row, or an empty member id) a link intent with a logged-in
    member attaches the profile row to that member; otherwise provider
    and email go to the session and the answer redirects to the
    registration form. *)
Theorem C3_callback_four_outcomes (provider_name : string)
    (rest : list string) (token : string) (social_email : option string)
    (profile : Profile.t) (login_member_mb_id : option string) (w : world)
    (r : outcome response) (w' : world) :
  provider_exists provider_name = true ->
  Py.truthy (Profile.identifier profile) = true ->
  pending w = [] ->
  authorize_social_login (provider_name :: rest) (Some token) social_email
                         profile login_member_mb_id w = (r, w') ->
  callback_outcome
    (callback_case_of w provider_name profile login_member_mb_id)
    provider_name token social_email profile login_member_mb_id w r w'.
Proof.
  intros Hknown Hid Hpend Hrun.
  unfold authorize_social_login, provider_class in Hrun.
  rewrite Hknown in Hrun. cbn [negb] in Hrun.
  rewrite bind_raise_if_false in Hrun.
  unfold bind at 1 in Hrun. cbn [session_set] in Hrun.
  rewrite Hid in Hrun. cbn [negb] in Hrun.
  rewrite bind_raise_if_false in Hrun.
  unfold get_member_by_social_id, profile_first in Hrun.
  unfold bind at 1 in Hrun. rewrite bind_gets in Hrun.
  cbn [db ret] in Hrun.
  unfold callback_case_of.
  set (local_id := g5_convert_social_id (Profile.identifier profile)
                                        provider_name) in *.
  destruct (list_find _ (social_profiles (db w))) as [[i row]|] eqn:Hlink.
  - cbn [Py.truthy_opt] in Hrun.
    destruct (Py.truthy (Profile.mb_id row)).
    + unfold member_first in Hrun. rewrite bind_gets in Hrun.
      cbn [db] in Hrun.
      rewrite (list_find_ext (fun m => Some (mb_id m) = Some (Profile.mb_id row))
                             (fun m => mb_id m = Profile.mb_id row)) in Hrun
        by (intros m; split; [intros [= ->]; reflexivity
                             | intros ->; reflexivity]).
      destruct (list_find (fun m => mb_id m = Profile.mb_id row)
                          (members (db w))) as [[j member]|] eqn:Hfind.
      * rewrite decide_True
          by (apply (proj1 (list_find_is_Some _ _)); eexists; exact Hfind).
        injection Hrun as <- <-.
        unfold callback_outcome, logged_in. cbn [db session].
        split; [reflexivity|]. split; [reflexivity|].
        exists i, row, j, member.
        split; [exact Hlink|]. split; [exact Hfind|].
        apply list_find_Some in Hfind as (_ & Hsame & _). rewrite Hsame.
        split; [|apply lookup_insert_eq].
        rewrite lookup_insert_ne by done. apply lookup_insert_eq.
      * rewrite decide_False.
        2:{ intros Hex. apply (proj2 (list_find_is_Some _ _)) in Hex.
            destruct Hex as [x Hx]. rewrite Hfind in Hx. discriminate. }
        injection Hrun as <- <-.
        unfold callback_outcome, dangling_link. cbn [db session].
        repeat split.
    + eapply authorize_fallthrough; [exact Hpend | reflexivity | exact Hrun].
  - cbn [Py.truthy_opt] in Hrun.
    eapply authorize_fallthrough; [exact Hpend | reflexivity | exact Hrun].
Qed.

End CallbackProperties.

(** ** The sample deployment *)

Section Concrete.
Import Sample Scenario.
#[local] Existing Instance Sample.collaborators.

Lemma w_fresh_ready :
  registration_ready config w_fresh (answer "naver" "12345") "naver".
Proof. repeat split. Qed.

(** C2 at a request whose email belongs to an existing member. *)
Lemma C2_witness_email_in_use :
  post_social_register config (MemberForm.mk (Some "newbie") (Some "al@example.org"))
    None (answer "naver" "12345") now w_fresh
  = (Raise alert_email_in_use, w_fresh).
Proof.
  apply (proj1 (C2_registration_validation_order (H := collaborators)
                  config
                  (MemberForm.mk (Some "newbie") (Some "al@example.org")) None
                  (answer "naver" "12345") now w_fresh "naver" w_fresh_ready)).
  vm_compute. reflexivity.
Defined.

(** C4 at a first registration followed by a second attempt. *)
Lemma C4_witness_second_attempt :
  exists w1,
    post_social_register config (MemberForm.mk None (Some "new@example.org"))
      None (answer "naver" "12345") now w_fresh
    = (Ok (RedirectResponse "/" 302), w1)
    /\ post_social_register config
         (MemberForm.mk (Some "other") (Some "other@example.org")) None
         (answer "naver" "12345") now w1
       = (Raise alert_registered, w1).
Proof.
  destruct (proj2 (C4_registered_id_blocks_registration (H := collaborators)
                  config
                     (MemberForm.mk None (Some "new@example.org")) None
                     (answer "naver" "12345") now w_fresh "naver"
                     ltac:(repeat split))
                  eq_refl ltac:(vm_compute; reflexivity))
    as (w1 & Hfirst & _ & Hsecond).
  exists w1. split; [exact Hfirst|].
  apply Hsecond; reflexivity.
Defined.

(** C4 as stated fails: a link row for the pair exists, no member row
    carries the derived id, and the registration goes through, leaving
    two link rows for the pair. *)
Lemma C4_counterexample_link_without_member :
  link_exists "naver" "12345" w_linked_elsewhere
  /\ fst (post_social_register config
            (MemberForm.mk None (Some "new@example.org")) None
            (answer "naver" "12345") now w_linked_elsewhere)
     = Ok (RedirectResponse "/" 302)
  /\ length (links_of "naver" "12345"
               (db (snd (post_social_register config
                           (MemberForm.mk None (Some "new@example.org")) None
                           (answer "naver" "12345") now w_linked_elsewhere))))
     = 2%nat.
Proof. vm_compute. repeat split. Qed.

(** C8 at an empty nickname for provider [naver]. *)
Lemma C8_witness_naver :
  exists w' member row,
    post_social_register config (MemberForm.mk (Some "") (Some "new@example.org"))
      None (answer "naver" "12345") now w_fresh
    = (Ok (RedirectResponse "/" 302), w')
    /\ members (db w') = members (db w_fresh) ++ [member]
    /\ social_profiles (db w') = social_profiles (db w_fresh) ++ [row]
    /\ mb_nick member = Some "968d08f6"
    /\ Profile.nickname row = Some "968d08f6".
Proof.
  destruct (C8_blank_nickname_fallback (H := collaborators)
                  config
              (MemberForm.mk (Some "") (Some "new@example.org")) None
              (answer "naver" "12345") now w_fresh "naver"
              ltac:(repeat split) eq_refl ltac:(vm_compute; reflexivity)
              eq_refl)
    as (w' & member & row & piece & Hrun & Hm & Hp & Hsplit & Hnick & Hrow & _).
  assert (Hpiece : piece = "968d08f6").
  { vm_compute in Hsplit. congruence. }
  exists w', member, row. rewrite <- Hpiece. auto.
Defined.

(** C9. The code departs from the claim at a registration for provider
    [naver] with the external identifier ["12345"]: the profile row the
    registration stores has the derived local id in its identifier
    field, the same text as in its member id field, and not ["12345"];
    the link branch of the callback, given the same answer of the
    provider, stores ["12345"] there. *)
Theorem C9_registration_identifier_is_local_id :
  (fst (post_social_register config
          (MemberForm.mk None (Some "new@example.org")) None
          (answer "naver" "12345") now w_fresh)
   = Ok (RedirectResponse "/" 302)
   /\ exists row,
        social_profiles
          (db (snd (post_social_register config
                      (MemberForm.mk None (Some "new@example.org")) None
                      (answer "naver" "12345") now w_fresh)))
        = [row]
        /\ Profile.provider row = "naver"
        /\ Profile.identifier row = "naver_968d08f6"
        /\ Profile.mb_id row = "naver_968d08f6"
        /\ ~ stores_external_identifier "12345" row)
  /\ (fst (authorize_social_login ["naver"] (Some "tok") None
             (answer "naver" "12345") (Some "alice") Flows.w_linking)
      = Ok (RedirectResponse "/index" 302)
      /\ exists row,
           social_profiles
             (db (snd (authorize_social_login ["naver"] (Some "tok") None
                         (answer "naver" "12345") (Some "alice") Flows.w_linking)))
           = [row]
           /\ Profile.provider row = "naver"
           /\ Profile.mb_id row = "alice"
           /\ stores_external_identifier "12345" row).
Proof.
  split.
  - vm_compute. split; [reflexivity|]. eexists. split; [reflexivity|].
    do 3 (split; [reflexivity|]). intros [Hext _]. discriminate Hext.
  - vm_compute. split; [reflexivity|]. eexists. split; [reflexivity|].
    do 2 (split; [reflexivity|]). split; [reflexivity | discriminate].
Qed.

(** C3 where two links answer the provider's identifier and the first
    names the second member: the session gets the id and the key of
    that member. *)
Lemma C3_witness_first_link_decides :
  exists w',
    authorize_social_login ["naver"] (Some "tok") (Some "e@example.org")
      (answer "naver" "12345") None w_two_links
    = (Ok (RedirectResponse "/" 302), w')
    /\ db w' = db w_two_links
    /\ session w' !! "ss_mb_id" = Some (SStr "bob")
    /\ session w' !! "ss_mb_key" = Some (SStr "k:bob").
Proof.
  set (res := authorize_social_login ["naver"] (Some "tok")
                (Some "e@example.org") (answer "naver" "12345") None
                w_two_links).
  pose proof (C3_callback_four_outcomes (H := collaborators) "naver" []
                "tok" (Some "e@example.org") (answer "naver" "12345") None
                w_two_links (fst res) (snd res) eq_refl eq_refl eq_refl
                (surjective_pairing res)) as Hcase.
  assert (Hlogin : callback_case_of w_two_links "naver"
                     (answer "naver" "12345") None = CaseLogin)
    by (vm_compute; reflexivity).
  rewrite Hlogin in Hcase.
  destruct Hcase as (Hr & Hdb & i & row & j & member & Hlink & _ & Hid & Hkey).
  vm_compute in Hlink. injection Hlink as _ <-.
  exists (snd res). split.
  { rewrite (surjective_pairing res) at 1. rewrite Hr. reflexivity. }
  split; [exact Hdb|]. split; [exact Hid | exact Hkey].
Defined.

(** C3 as stated fails: with a link whose member row is missing, none
    of the three outcomes occurs. *)
Lemma C3_counterexample_dangling_link :
  fst (authorize_social_login ["naver"] (Some "tok") (Some "e@example.org")
         (answer "naver" "12345") None w_dangling)
  = Raise alert_invalid_request
  /\ ~ three_outcomes "naver" (Some "e@example.org") (answer "naver" "12345")
        None w_dangling
        (fst (authorize_social_login ["naver"] (Some "tok")
                (Some "e@example.org") (answer "naver" "12345") None
                w_dangling))
        (snd (authorize_social_login ["naver"] (Some "tok")
                (Some "e@example.org") (answer "naver" "12345") None
                w_dangling)).
Proof.
  assert (Hr : fst (authorize_social_login ["naver"] (Some "tok")
                      (Some "e@example.org") (answer "naver" "12345") None
                      w_dangling) = Raise alert_invalid_request)
    by (vm_compute; reflexivity).
  split; [exact Hr|]. rewrite Hr.
  intros [[Habs _]|[[Habs _]|[Habs _]]]; discriminate Habs.
Qed.

(** C5 at a forged token while the session names a member. *)
Lemma C5_witness_forged_token_inserts :
  exists w',
    member_form_update config
      (form "carol" "forged" (Some "ca") None (Some "ca@example.org"))
      w_editing_alice
    = (Ok (redirect_to_form "carol"), w')
    /\ members (db w')
       = [alice; bob;
          inserted_member
            (form "carol" "forged" (Some "ca") None (Some "ca@example.org"))].
Proof.
  destruct (C5_token_selects_branch (H := collaborators)
                  config
              (form "carol" "forged" (Some "ca") None (Some "ca@example.org"))
              w_editing_alice eq_refl) as (_ & Hins & _).
  destruct (Hins eq_refl) as [_ Hok].
  eexists. split; [vm_compute; reflexivity|].
  refine (proj2 (Hok _ _ _)). vm_compute. reflexivity.
Defined.

(** C5 as stated fails: the session names a member being edited and
    the insert branch runs all the same. *)
Lemma C5_counterexample_marker_present_insert_taken :
  marker_present w_editing_alice = true
  /\ member_form_update config
       (form "carol" "forged" (Some "ca") None (Some "ca@example.org"))
       w_editing_alice
     = insert_path
         (form "carol" "forged" (Some "ca") None (Some "ca@example.org"))
         w_editing_alice
  /\ member_form_update config
       (form "carol" "forged" (Some "ca") None (Some "ca@example.org"))
       w_editing_alice
     <> update_path config
          (form "carol" "forged" (Some "ca") None (Some "ca@example.org"))
          w_editing_alice.
Proof.
  split; [reflexivity|]. split; [vm_compute; reflexivity|].
  intros Heq. vm_compute in Heq. discriminate Heq.
Qed.

(** C6 at a forged token for an existing id. *)
Lemma C6_witness_forged_token_existing_id :
  member_form_update config
    (form "bob" "forged" (Some "bo2") None (Some "bo2@example.org"))
    w_editing_alice
  = (Raise (duplicate_id
              (form "bob" "forged" (Some "bo2") None (Some "bo2@example.org"))),
     w_editing_alice).
Proof.
  apply (proj2 (C6_forged_token_duplicate_id (H := collaborators)
                  config
                  (form "bob" "forged" (Some "bo2") None
                        (Some "bo2@example.org"))
                  w_editing_alice ltac:(vm_compute; reflexivity)
                  ltac:(apply Exists_cons_tl, Exists_cons_hd; reflexivity))).
Defined.

(** C7 at a form that omits level and nickname. *)
Lemma C7_witness_omitted_level_and_nick :
  exists pos stored,
    members
      (db (snd (member_form_update config
                  (form "alice" "h:alice" None None (Some "al@example.org"))
                  w_editing_alice))) !! pos
    = Some stored
    /\ mb_level stored = Some (cf_register_level config)
    /\ mb_nick stored = Some "".
Proof.
  destruct (C7_update_level_default_nick_empty (H := collaborators)
                  config
              (form "alice" "h:alice" None None (Some "al@example.org"))
              w_editing_alice _ _ eq_refl eq_refl
              ltac:(vm_compute; reflexivity))
    as (pos & old & stored & _ & _ & Hl & _ & Hlevel & Hnick).
  exists pos, stored. split; [|split].
  - exact Hl.
  - exact (Hlevel eq_refl).
  - exact (Hnick eq_refl).
Defined.

(** C10 at a session id that differs from the submitted id. *)
Lemma C10_witness_ids_differ :
  exists w' stored,
    member_form_update config
      (form "bob" "h:bob" (Some "bo") (Some 5) (Some "bo@example.org"))
      w_editing_alice
    = (Ok (redirect_to_form "alice"), w')
    /\ members (db w') = [stored; bob]
    /\ mb_id stored = "alice"
    /\ mb_nick stored = Some "bo"
    /\ mb_email stored = Some "bo@example.org"
    /\ mb_level stored = Some 5.
Proof.
  set (f := form "bob" "h:bob" (Some "bo") (Some 5) (Some "bo@example.org")).
  set (res := member_form_update config f w_editing_alice).
  assert (Hres : res = (Ok (redirect_to_form "alice"), snd res)).
  { apply injective_projections; [vm_compute; reflexivity | reflexivity]. }
  destruct (proj2 (proj2 (C10_update_targets_session_id (H := collaborators)
                            config f w_editing_alice "alice"
                            ltac:(vm_compute; reflexivity) eq_refl eq_refl))
                  0%nat alice eq_refl) as [_ Hok].
  destruct (Hok _ _ Hres) as (_ & _ & stored & Hm & Hid & Hcols).
  exists (snd res), stored. split; [exact Hres|]. split; [exact Hm|].
  split; [exact Hid|].
  destruct Hcols as (_ & _ & _ & _ & _ & Hnick & Hemail & Hrest).
  split; [exact Hnick|]. split; [exact Hemail|].
  apply Hrest.
Defined.

End Concrete.

(** ** The width of the checksum *)

Lemma le_bytes_range (k : nat) :
  forall n, Forall (fun b => 0 <= b < 256) (Md5.le_bytes k n).
Proof.
  induction k as [|k IH]; intros n; cbn [Md5.le_bytes]; constructor.
  - change 0xff with (Z.ones 8). rewrite Z.land_ones by lia.
    apply Z.mod_pos_bound. reflexivity.
  - apply IH.
Qed.

Lemma le_bytes_length (k : nat) (n : Z) : length (Md5.le_bytes k n) = k.
Proof. revert n. induction k as [|k IH]; intros n; cbn; [|rewrite IH]; reflexivity. Qed.

Lemma digest_range (msg : list Z) :
  Forall (fun b => 0 <= b < 256) (Md5.digest msg).
Proof.
  unfold Md5.digest. cbv zeta.
  repeat (apply Forall_app; split); apply le_bytes_range.
Qed.

Lemma digest_length (msg : list Z) : length (Md5.digest msg) = 16%nat.
Proof.
  unfold Md5.digest. cbv zeta. rewrite !length_app, !le_bytes_length.
  reflexivity.
Qed.

Lemma encode_cons (c : ascii) (s : string) :
  Py.encode (String c s)
  = Z.of_N (Byte.to_N (byte_of_ascii c)) :: Py.encode s.
Proof. reflexivity. Qed.

Lemma hex_digit_code (d : Z) :
  0 <= d < 16 ->
  48 <= Z.of_N (Byte.to_N (byte_of_ascii (Py.hex_digit d))) <= 102.
Proof.
  intros Hd.
  apply (digit_cases
           (fun d => 48 <= Z.of_N (Byte.to_N (byte_of_ascii (Py.hex_digit d)))
                     <= 102) d Hd).
  intros k Hk. do 16 (destruct k as [|k]; [vm_compute; split; discriminate|]).
  lia.
Qed.

Lemma hex_of_bytes_codes (bs : list Z) :
  Forall (fun b => 0 <= b < 256) bs ->
  Forall (fun c => 48 <= c <= 102) (Py.encode (Md5.hex_of_bytes bs))
  /\ length (Py.encode (Md5.hex_of_bytes bs)) = (2 * length bs)%nat.
Proof.
  induction 1 as [|b bs Hb _ [IHr IHl]]; cbn [Md5.hex_of_bytes].
  - split; [constructor | reflexivity].
  - rewrite !encode_cons. split.
    + constructor; [|constructor; [|exact IHr]]; apply hex_digit_code.
      * rewrite Z.shiftr_div_pow2 by lia. split.
        -- apply Z.div_pos; lia.
        -- apply Z.div_lt_upper_bound; lia.
      * change 0xf with (Z.ones 4). rewrite Z.land_ones by lia.
        apply Z.mod_pos_bound. reflexivity.
    + cbn [length]. rewrite IHl. lia.
Qed.

Lemma adler_sums_small (data : list Z) :
  forall a b,
    Forall (fun c => 48 <= c <= 102) data ->
    0 <= a -> 0 <= b ->
    a + 102 * Z.of_nat (length data) <= 65520 ->
    b + Z.of_nat (length data) * a
      + 51 * (Z.of_nat (length data) * (Z.of_nat (length data) + 1)) <= 65520 ->
    let s := fold_left Adler32.update data (a, b) in
    a <= fst s <= a + 102 * Z.of_nat (length data)
    /\ b + Z.of_nat (length data) * a
         + 24 * (Z.of_nat (length data) * (Z.of_nat (length data) + 1))
       <= snd s
       <= b + Z.of_nat (length data) * a
            + 51 * (Z.of_nat (length data) * (Z.of_nat (length data) + 1)).
Proof.
  induction data as [|x data IH]; intros a b Hall Ha Hb Hsa Hsb.
  - cbn. lia.
  - apply Forall_cons in Hall as [Hx Hall].
    cbn [fold_left length] in *. rewrite Nat2Z.inj_succ in *.
    set (L := Z.of_nat (length data)) in *.
    assert (HL : 0 <= L) by (unfold L; lia).
    clearbody L.
    change (Adler32.update (a, b) x)
      with ((a + x) mod 65521, (b + (a + x) mod 65521) mod 65521).
    assert (HLa : 0 <= L * a) by nia.
    assert (HLL : 0 <= L * (L + 1)) by nia.
    assert (HLx : L * 48 <= L * x <= L * 102) by nia.
    assert (Hexp1 : Z.succ L * a = L * a + a) by ring.
    assert (Hexp2 : Z.succ L * (Z.succ L + 1) = L * (L + 1) + 2 * L + 2)
      by ring.
    assert (Hexp3 : L * (a + x) = L * a + L * x) by ring.
    rewrite Hexp1, Hexp2 in *.
    assert (Hm1 : (a + x) mod 65521 = a + x).
    { apply Z.mod_small. clear -Hsa HL Hx Ha. lia. }
    assert (Hm2 : (b + (a + x)) mod 65521 = b + (a + x)).
    { apply Z.mod_small. clear -Hsb HL HLa HLL Hx Ha Hb. lia. }
    rewrite Hm1, Hm2.
    assert (Hpre1 : a + x + 102 * L <= 65520) by (clear -Hsa Hx; lia).
    assert (Hpre2 : b + (a + x) + (L * a + L * x) + 51 * (L * (L + 1))
                    <= 65520)
      by (clear -Hsb HLx HL Hx; lia).
    specialize (IH (a + x) (b + (a + x)) Hall ltac:(clear -Ha Hx; lia)
                   ltac:(clear -Ha Hb Hx; lia)).
    rewrite Hexp3 in IH. specialize (IH Hpre1 Hpre2).
    destruct IH as [IHa IHb]. cbv zeta.
    clear -IHa IHb Hx HLx HL. split; lia.
Qed.

Lemma checksum_of_hex_text (data : list Z) :
  Forall (fun c => 48 <= c <= 102) data ->
  length data = 32%nat ->
  2 ^ 28 <= Adler32.adler32 data < 2 ^ 32.
Proof.
  intros Hall Hlen. split; [|apply adler32_range].
  unfold Adler32.adler32, Adler32.sums.
  pose proof (adler_sums_small data 1 0 Hall) as Hs.
  rewrite Hlen in Hs. cbv zeta in Hs.
  destruct Hs as [Ha Hb]; [lia | lia | lia | lia |].
  destruct (fold_left Adler32.update data (1, 0)) as [a b].
  cbn [fst snd] in Ha, Hb.
  assert (H0 : 0 <= Z.shiftl b 16) by (apply Z.shiftl_nonneg; lia).
  assert (Hlog : 30 <= Z.log2 (Z.lor (Z.shiftl b 16) a)).
  { rewrite Z.log2_lor by lia. rewrite Z.log2_shiftl by lia.
    assert (14 <= Z.log2 b).
    { change 14 with (Z.log2 25376). apply Z.log2_le_mono. lia. }
    lia. }
  assert (Hpos : 0 < Z.lor (Z.shiftl b 16) a).
  { destruct (Z.le_gt_cases (Z.lor (Z.shiftl b 16) a) 0) as [Hle|Hgt];
      [rewrite (Z.log2_nonpos _ Hle) in Hlog; lia | lia]. }
  pose proof (Z.log2_spec _ Hpos) as [Hlo _].
  eapply Z.le_trans; [|exact Hlo].
  apply Z.pow_le_mono_r; lia.
Qed.

Lemma digits_aux_length (k : nat) :
  forall fuel n acc,
    (k < fuel)%nat -> 16 ^ Z.of_nat k <= n < 16 ^ Z.of_nat (S k) ->
    String.length (Py.digits_aux 16 fuel n acc)
    = (S k + String.length acc)%nat.
Proof.
  induction k as [|k IH]; intros fuel n acc Hfuel Hn;
    (destruct fuel as [|fuel]; [lia|]); cbn [Py.digits_aux].
  - change (16 ^ Z.of_nat 0) with 1 in Hn. change (16 ^ Z.of_nat 1) with 16 in Hn.
    destruct (Z.ltb_spec n 16); [reflexivity | lia].
  - rewrite !Nat2Z.inj_succ, !Z.pow_succ_r in Hn by lia.
    assert (Hp : 0 < 16 ^ Z.of_nat k) by (apply Z.pow_pos_nonneg; lia).
    destruct (Z.ltb_spec n 16); [nia|].
    rewrite IH.
    + cbn [String.length]. lia.
    + lia.
    + rewrite Nat2Z.inj_succ, Z.pow_succ_r by lia. split.
      * apply Z.div_le_lower_bound; lia.
      * apply Z.div_lt_upper_bound; lia.
Qed.

(** X1. The checksum text of every identifier has exactly eight lowercase
    hexadecimal digits and denotes the Adler-32 checksum, so a derived
    local id is the provider, ["_"] and eight digits. *)
Theorem X_checksum_eight_digits (identifier provider : string) :
  String.length (checksum_hex identifier) = 8%nat
  /\ g5_convert_social_id identifier provider
     = provider +:+ "_" +:+ checksum_hex identifier
  /\ no_sep "_" (checksum_hex identifier) = true
  /\ of_digits 16 (checksum_hex identifier) 0
     = Adler32.adler32 (Py.encode (Md5.hexdigest (Py.encode identifier))).
Proof.
  pose proof (hex_of_bytes_codes _ (digest_range (Py.encode identifier)))
    as [Hcodes Hlen].
  rewrite digest_length in Hlen.
  pose proof (checksum_of_hex_text _ Hcodes Hlen) as [Hlo Hhi].
  fold (Md5.hexdigest (Py.encode identifier)) in Hlo, Hhi.
  split; [|split; [|split]].
  - unfold checksum_hex, Py.hex_digits, Py.digits.
    rewrite (digits_aux_length 7).
    + reflexivity.
    + assert (28 <= Z.log2 (Adler32.adler32
                              (Py.encode (Md5.hexdigest (Py.encode identifier))))).
      { change 28 with (Z.log2 (2 ^ 28)). apply Z.log2_le_mono. exact Hlo. }
      lia.
    + split; [exact Hlo | exact Hhi].
  - apply derived_id_shape.
  - apply checksum_hex_no_sep.
  - unfold checksum_hex, Py.hex_digits. apply digits_value; lia.
Qed.

(** ** The callback, case by case *)

Section CallbackFlow.
Context `{Collaborators}.

(** The callback as a decision list. *)
Lemma authorize_social_login_run (provider_name : string)
    (rest : list string) (token : string) (social_email : option string)
    (profile : Profile.t) (login_member_mb_id : option string) (w : world) :
  provider_exists provider_name = true ->
  Py.truthy (Profile.identifier profile) = true ->
  authorize_social_login (provider_name :: rest) (Some token) social_email
                         profile login_member_mb_id w
  = match linked_id w provider_name
            (g5_convert_social_id (Profile.identifier profile) provider_name)
    with
    | Some id =>
        match list_find (fun m => mb_id m = id) (members (db w)) with
        | Some (_, member) =>
            (Ok (RedirectResponse "/" 302),
             mkWorld (db w) (pending w)
               (<["ss_mb_key" :=
                    SStr (session_member_key (mb_id member)
                                             (mb_datetime member))]>
                  (<["ss_mb_id" := SStr (mb_id member)]>
                     (<["ss_social_access" := SToken token]> (session w))))
               (ledger w))
        | None => (Raise alert_invalid_request, with_access_token token w)
        end
    | None =>
        if link_requested w login_member_mb_id
        then (Ok (RedirectResponse (url_for "index") 302),
              mkWorld
                (fold_left apply_write
                   (pending w
                      ++ [AddProfile
                            (Profile.set_mb_id (Py.str_opt login_member_mb_id)
                                               profile)])
                   (db w))
                [] (<["ss_social_access" := SToken token]> (session w))
                (ledger w))
        else (Ok (RedirectResponse (url_for "get_social_register_form") 302),
              mkWorld (db w) (pending w)
                (<["ss_social_email" :=
                     match social_email with
                     | Some e => SStr e
                     | None => SNone
                     end]>
                   (<["ss_social_provider" := SStr provider_name]>
                      (<["ss_social_access" := SToken token]> (session w))))
                (ledger w))
    end.
Proof.
  intros Hknown Hid.
  unfold authorize_social_login, provider_class.
  rewrite Hknown. cbn [negb]. rewrite bind_raise_if_false.
  unfold bind at 1. cbn [session_set].
  rewrite Hid. cbn [negb]. rewrite bind_raise_if_false.
  unfold get_member_by_social_id, profile_first.
  unfold bind at 1. rewrite bind_gets. cbn [db ret].
  unfold linked_id.
  set (local_id := g5_convert_social_id (Profile.identifier profile)
                                        provider_name).
  assert (Hfall :
    (has_link <~ session_contains "ss_social_link" ;;
     if has_link && Py.truthy_opt login_member_mb_id then
       stage (AddProfile
                (Profile.set_mb_id (Py.str_opt login_member_mb_id) profile)) ;;;
       db_commit ;;;
       ret (RedirectResponse (url_for "index") 302)
     else
       session_set "ss_social_provider" (SStr provider_name) ;;;
       session_set "ss_social_email"
         (match social_email with Some e => SStr e | None => SNone end) ;;;
       ret (RedirectResponse (url_for "get_social_register_form") 302))
      (mkWorld (db w) (pending w)
         (<["ss_social_access" := SToken token]> (session w)) (ledger w))
    = if link_requested w login_member_mb_id
      then (Ok (RedirectResponse (url_for "index") 302),
            mkWorld
              (fold_left apply_write
                 (pending w
                    ++ [AddProfile
                          (Profile.set_mb_id (Py.str_opt login_member_mb_id)
                                             profile)])
                 (db w))
              [] (<["ss_social_access" := SToken token]> (session w))
              (ledger w))
      else (Ok (RedirectResponse (url_for "get_social_register_form") 302),
            mkWorld (db w) (pending w)
              (<["ss_social_email" :=
                   match social_email with
                   | Some e => SStr e
                   | None => SNone
                   end]>
                 (<["ss_social_provider" := SStr provider_name]>
                    (<["ss_social_access" := SToken token]> (session w))))
              (ledger w))).
  { unfold session_contains, link_requested. rewrite bind_gets.
    cbn [session]. rewrite lookup_insert_ne by done.
    destruct (bool_decide (is_Some (session w !! "ss_social_link"))
              && Py.truthy_opt login_member_mb_id); reflexivity. }
  destruct (list_find _ (social_profiles (db w))) as [[i row]|].
  - cbn [Py.truthy_opt].
    destruct (Py.truthy (Profile.mb_id row)); [|exact Hfall].
    unfold member_first. rewrite bind_gets. cbn [db].
    rewrite (list_find_ext (fun m => Some (mb_id m) = Some (Profile.mb_id row))
                           (fun m => mb_id m = Profile.mb_id row))
      by (intros m; split; [intros [= ->]; reflexivity
                           | intros ->; reflexivity]).
    destruct (list_find (fun m => mb_id m = Profile.mb_id row)
                        (members (db w))) as [[j member]|]; reflexivity.
  - cbn [Py.truthy_opt]. exact Hfall.
Qed.

(** X6. The callback before it looks anything up: a missing provider
    parameter, a failed token exchange and an unknown provider leave the
    world alone; an answer without identifier is refused after the token
    has been put in the session. *)
Theorem X_callback_early_failures (provider : list string)
    (auth_token : option string) (social_email : option string)
    (profile : Profile.t) (login_member_mb_id : option string) (w : world) :
  let result :=
    authorize_social_login provider auth_token social_email profile
                           login_member_mb_id w in
  match provider, auth_token with
  | [], _ => result = (Raise alert_unknown_service, w)
  | _ :: _, None => result = (Raise alert_try_later, w)
  | provider_name :: _, Some token =>
      if provider_exists provider_name
      then if Py.truthy (Profile.identifier profile)
           then session (snd result) !! "ss_social_access"
                = Some (SToken token)
           else result = (Raise alert_broken_profile,
                          with_access_token token w)
      else result = (Raise (AttributeError provider_name), w)
  end.
Proof.
  intros result. subst result.
  destruct provider as [|provider_name rest]; [reflexivity|].
  destruct auth_token as [token|]; [|reflexivity].
  destruct (provider_exists provider_name) eqn:Hk.
  2:{ unfold authorize_social_login, provider_class. rewrite Hk.
      reflexivity. }
  destruct (Py.truthy (Profile.identifier profile)) eqn:Hid.
  2:{ unfold authorize_social_login, provider_class. rewrite Hk.
      cbn [negb]. rewrite bind_raise_if_false.
      unfold bind at 1. cbn [session_set]. rewrite Hid. reflexivity. }
  rewrite (authorize_social_login_run _ _ _ _ _ _ _ Hk Hid).
  destruct (linked_id _ _ _) as [id|].
  - destruct (list_find _ (members (db w))) as [[j member]|];
      cbn [snd session with_access_token].
    + rewrite !lookup_insert_ne by done. apply lookup_insert_eq.
    + apply lookup_insert_eq.
  - destruct (link_requested w login_member_mb_id); cbn [snd session].
    + apply lookup_insert_eq.
    + rewrite !lookup_insert_ne by done. apply lookup_insert_eq.
Qed.

(** X7. The callback never touches the member table or the ledger, and
    leaves both tables alone unless it links an account. *)
Theorem X_callback_preserves_members (provider : list string)
    (auth_token : option string) (social_email : option string)
    (profile : Profile.t) (login_member_mb_id : option string) (w : world) :
  pending w = [] ->
  let result :=
    authorize_social_login provider auth_token social_email profile
                           login_member_mb_id w in
  members (db (snd result)) = members (db w)
  /\ ledger (snd result) = ledger w
  /\ (fst result <> Ok (RedirectResponse (url_for "index") 302) ->
      db (snd result) = db w)
  /\ (forall e, fst result = Raise e -> db (snd result) = db w).
Proof.
  intros Hpend result. subst result.
  destruct provider as [|provider_name rest]; [cbn; auto|].
  destruct auth_token as [token|]; [|cbn; auto].
  destruct (provider_exists provider_name) eqn:Hk.
  2:{ unfold authorize_social_login, provider_class. rewrite Hk. cbn. auto. }
  destruct (Py.truthy (Profile.identifier profile)) eqn:Hid.
  2:{ unfold authorize_social_login, provider_class. rewrite Hk.
      cbn [negb]. rewrite bind_raise_if_false.
      unfold bind at 1. cbn [session_set]. rewrite Hid. cbn. auto. }
  rewrite (authorize_social_login_run _ _ _ _ _ _ _ Hk Hid).
  destruct (linked_id _ _ _) as [id|].
  - destruct (list_find _ (members (db w))) as [[j member]|]; cbn; auto.
  - destruct (link_requested w login_member_mb_id); cbn [fst snd db ledger].
    + rewrite Hpend. cbn. split; [reflexivity|]. split; [reflexivity|].
      split; [intros Hne; exfalso; apply Hne; reflexivity | discriminate].
    + auto.
Qed.

End CallbackFlow.

(** ** Registration, from refusal to login *)

Section RegistrationFlow.
Context `{Collaborators}.

Ltac registration_preamble Huse :=
  unfold post_social_register; rewrite Huse; cbn [negb];
  rewrite ?bind_raise_if_false; unfold session_get; rewrite !bind_gets.

(** What happens to a registration request that does not reach the
    validation. *)
Lemma post_social_register_refused (config : Config)
    (member_form : MemberForm.t) (social_email : option string)
    (profile : Profile.t) (request_time : datetime) (w : world) :
  (forall provider_name,
     ~ registration_ready config w profile provider_name) ->
  exists e,
    post_social_register config member_form social_email profile
                         request_time w = (Raise e, w).
Proof.
  intros Hnot.
  destruct (cf_social_login_use config) eqn:Huse.
  2:{ eexists. unfold post_social_register. rewrite Huse. reflexivity. }
  destruct (is_none (session w !! "ss_social_access")) eqn:Ht.
  { eexists. registration_preamble Huse. rewrite Ht. reflexivity. }
  destruct (session w !! "ss_social_provider") as [[|p|t]|] eqn:Hp;
    try (eexists; registration_preamble Huse; rewrite Hp, Ht; reflexivity).
  destruct (provider_exists p) eqn:Hk.
  2:{ eexists. registration_preamble Huse. rewrite Hp, Ht.
      cbn [is_none orb]. rewrite bind_raise_if_false.
      unfold provider_class. rewrite Hk. reflexivity. }
  destruct (Py.truthy (Profile.identifier profile)) eqn:Hid.
  2:{ eexists. registration_preamble Huse. rewrite Hp, Ht.
      cbn [is_none orb]. rewrite bind_raise_if_false.
      unfold provider_class. rewrite Hk. cbn [negb].
      rewrite bind_raise_if_false. rewrite Hid. reflexivity. }
  exfalso. apply (Hnot p). repeat split; assumption.
Qed.

Lemma registration_ready_dec (config : Config) (w : world)
    (profile : Profile.t) :
  (exists provider_name, registration_ready config w profile provider_name)
  \/ (forall provider_name,
        ~ registration_ready config w profile provider_name).
Proof.
  unfold registration_ready.
  destruct (session w !! "ss_social_provider") as [[|p|t]|] eqn:Hp;
    try (right; intros q (_ & Hq & _); discriminate Hq).
  destruct (cf_social_login_use config);
    [|right; intros q (Hq & _); discriminate Hq].
  destruct (is_none (session w !! "ss_social_access"));
    [right; intros q (_ & _ & Hq & _); discriminate Hq|].
  destruct (Py.truthy (Profile.identifier profile));
    [|right; intros q (_ & _ & _ & _ & Hq); discriminate Hq].
  destruct (provider_exists p) eqn:Hk.
  - left. exists p. auto.
  - right. intros q (_ & [= <-] & _ & Hq & _). congruence.
Qed.

(** X3. Registration is all or nothing, and never touches the session. *)
Theorem X_registration_all_or_nothing (config : Config)
    (member_form : MemberForm.t) (social_email : option string)
    (profile : Profile.t) (request_time : datetime) (w : world) :
  match post_social_register config member_form social_email profile
                             request_time w with
  | (Raise _, w') => w' = w
  | (Ok r, w') =>
      r = RedirectResponse "/" 302
      /\ session w' = session w
      /\ exists provider_name,
           session w !! "ss_social_provider" = Some (SStr provider_name)
           /\ w' = registered_world config member_form
                     (g5_convert_social_id (Profile.identifier profile)
                                           provider_name)
                     provider_name profile request_time w
  end.
Proof.
  destruct (registration_ready_dec config w profile) as [[p Hready]|Hnot].
  - rewrite (post_social_register_run _ _ _ _ _ _ _ Hready).
    destruct (registration_check _ _ _ _); [reflexivity|].
    split; [reflexivity|]. split; [reflexivity|].
    exists p. split; [apply Hready | reflexivity].
  - destruct (post_social_register_refused config member_form social_email
                profile request_time w Hnot) as [e ->]. reflexivity.
Qed.

(** X2. A registration request is refused, with the world untouched, when
    social login is off, and otherwise when the session lacks the access
    token or the provider name (key absent or value [None]). *)
Theorem X_registration_needs_session (config : Config)
    (member_form : MemberForm.t) (social_email : option string)
    (profile : Profile.t) (request_time : datetime) (w : world) :
  let result :=
    post_social_register config member_form social_email profile
                         request_time w in
  if negb (cf_social_login_use config)
  then result = (Raise alert_social_login_off, w)
  else if is_none (session w !! "ss_social_access")
          || is_none (session w !! "ss_social_provider")
       then result = (Raise alert_broken_profile, w)
       else exists value, session w !! "ss_social_provider" = Some value
                          /\ value <> SNone.
Proof.
  intros result. subst result. unfold post_social_register.
  destruct (cf_social_login_use config); cbn [negb]; [|reflexivity].
  rewrite bind_raise_if_false. unfold session_get. rewrite !bind_gets.
  destruct (is_none (session w !! "ss_social_access")) eqn:Ht;
    cbn [orb]; [reflexivity|].
  destruct (session w !! "ss_social_provider") as [[|p|t]|];
    cbn [is_none]; try reflexivity; eexists; split; try reflexivity;
    discriminate.
Qed.

Lemma list_find_snoc_fresh {A} (P : A -> Prop) `{!forall x, Decision (P x)}
    (l : list A) (x : A) :
  list_find P l = None -> P x ->
  list_find P (l ++ [x]) = Some (length l, x).
Proof.
  intros Hnone HP. rewrite list_find_app_r by exact Hnone.
  cbn. rewrite decide_True by exact HP. reflexivity.
Qed.

Lemma list_find_snoc_miss {A} (P : A -> Prop) `{!forall x, Decision (P x)}
    (l : list A) (x : A) :
  list_find P l = None -> ~ P x -> list_find P (l ++ [x]) = None.
Proof.
  intros Hnone HP. rewrite list_find_app_r by exact Hnone.
  cbn. rewrite decide_False by exact HP. reflexivity.
Qed.

Lemma truthy_derived_id (identifier provider : string) :
  Py.truthy (g5_convert_social_id identifier provider) = true.
Proof. rewrite derived_id_shape. destruct provider; reflexivity. Qed.

Lemma registration_check_passed (config : Config)
    (member_form : MemberForm.t) (local_id : string) (t : tables) :
  registration_check config member_form local_id t = None ->
  list_find (fun m => mb_id m = local_id) (members t) = None
  /\ list_find (fun m => mb_email m = MemberForm.mb_email member_form)
               (members t) = None.
Proof.
  unfold registration_check. intros Hc.
  destruct (decide (Exists (fun m => mb_id m = local_id) (members t)))
    as [|Hid]; [discriminate|].
  destruct (Py.truthy _); [discriminate|].
  destruct (negb _); [discriminate|].
  destruct (decide (Exists _ (members t))) as [|Hem]; [discriminate|].
  split; apply list_find_None, Forall_Exists_neg; assumption.
Qed.

(** What a successful registration leaves behind. *)
Lemma post_social_register_success (config : Config)
    (member_form : MemberForm.t) (social_email : option string)
    (profile : Profile.t) (request_time : datetime) (w w' : world)
    (r : response) :
  post_social_register config member_form social_email profile
                       request_time w = (Ok r, w') ->
  exists provider_name,
    registration_ready config w profile provider_name
    /\ registration_check config member_form
         (g5_convert_social_id (Profile.identifier profile) provider_name)
         (db w) = None
    /\ w' = registered_world config member_form
              (g5_convert_social_id (Profile.identifier profile)
                                    provider_name)
              provider_name profile request_time w.
Proof.
  intros Hrun.
  destruct (registration_ready_dec config w profile) as [[p Hready]|Hnot].
  - exists p. split; [exact Hready|].
    rewrite (post_social_register_run _ _ _ _ _ _ _ Hready) in Hrun.
    destruct (registration_check _ _ _ _); [discriminate|].
    injection Hrun as _ <-. split; reflexivity.
  - destruct (post_social_register_refused config member_form social_email
                profile request_time w Hnot) as [e He].
    rewrite He in Hrun. discriminate.
Qed.

(** X4. A successful registration adds one member, one profile row and one
    ledger entry, all under the same id, and does not log the member in. *)
Theorem X_registration_success_effects (config : Config)
    (member_form : MemberForm.t) (social_email : option string)
    (profile : Profile.t) (request_time : datetime) (w w' : world)
    (r : response) :
  pending w = [] ->
  post_social_register config member_form social_email profile
                       request_time w = (Ok r, w') ->
  exists member row entry,
    members (db w') = members (db w) ++ [member]
    /\ social_profiles (db w') = social_profiles (db w) ++ [row]
    /\ ledger w' = ledger w ++ [entry]
    /\ session w' = session w
    /\ Profile.mb_id row = mb_id member
    /\ pt_mb_id entry = mb_id member
    /\ pt_rel_id entry = mb_id member
    /\ pt_point entry = cf_register_point config
    /\ mb_level member = Some (cf_register_level config)
    /\ mb_email member = MemberForm.mb_email member_form
    /\ mb_name member = mb_nick member
    /\ Profile.nickname row = mb_nick member
    /\ mb_password member
       = Some (hash_password
                 (hash_password (Py.str_int (microsecond request_time))))
    /\ Forall (fun m => mb_id m <> mb_id member
                        /\ mb_email m <> mb_email member)
              (members (db w)).
Proof.
  intros Hpend Hrun.
  destruct (post_social_register_success _ _ _ _ _ _ _ _ Hrun)
    as (p & Hready & Hcheck & ->).
  eexists _, _, _.
  split; [apply registered_world_members; exact Hpend|].
  split; [apply registered_world_profiles; exact Hpend|].
  split; [reflexivity|].
  do 10 (split; [reflexivity|]).
  destruct (registration_check_passed _ _ _ _ Hcheck) as [Hid Hem].
  apply list_find_None in Hid, Hem.
  apply Forall_forall. intros m Hm.
  rewrite Forall_forall in Hid, Hem. split; [apply Hid | apply Hem]; exact Hm.
Qed.

(** X5. After a successful registration a callback with the same provider
    and identifier logs the new member in. *)
Theorem X_registration_then_login (config : Config)
    (member_form : MemberForm.t) (social_email : option string)
    (profile : Profile.t) (request_time : datetime) (w : world)
    (provider_name : string) :
  registration_ready config w profile provider_name ->
  pending w = [] ->
  registration_check config member_form
    (g5_convert_social_id (Profile.identifier profile) provider_name)
    (db w) = None ->
  list_find (fun p => Profile.provider p = provider_name
                      /\ Profile.identifier p
                         = g5_convert_social_id (Profile.identifier profile)
                                                provider_name)
            (social_profiles (db w)) = None ->
  let local_id :=
    g5_convert_social_id (Profile.identifier profile) provider_name in
  let w1 :=
    registered_world config member_form local_id provider_name profile
                     request_time w in
  post_social_register config member_form social_email profile
                       request_time w = (Ok (RedirectResponse "/" 302), w1)
  /\ check_exists_social_id local_id provider_name w1 = (Ok true, w1)
  /\ get_member_by_social_id local_id provider_name w1
     = (Ok (Some local_id), w1)
  /\ forall rest token social_email' profile' login_member_mb_id,
       Profile.identifier profile' = Profile.identifier profile ->
       exists w2,
         authorize_social_login (provider_name :: rest) (Some token)
           social_email' profile' login_member_mb_id w1
         = (Ok (RedirectResponse "/" 302), w2)
         /\ db w2 = db w1
         /\ session w2 !! "ss_mb_id" = Some (SStr local_id)
         /\ session w2 !! "ss_mb_key"
            = Some (SStr (session_member_key local_id
                                             (TDatetime request_time))).
Proof.
  intros Hready Hpend Hcheck Hnolink local_id w1.
  assert (Hrows : list_find
            (fun p => Profile.provider p = provider_name
                      /\ Profile.identifier p = local_id)
            (social_profiles (db w1))
          = Some (length (social_profiles (db w)),
                  registered_profile member_form local_id provider_name
                                     profile request_time)).
  { unfold w1. rewrite registered_world_profiles by exact Hpend.
    apply list_find_snoc_fresh; [exact Hnolink | split; reflexivity]. }
  assert (Hmember : list_find (fun m => mb_id m = local_id)
                              (members (db w1))
          = Some (length (members (db w)),
                  registered_member config member_form local_id
                                    request_time)).
  { unfold w1. rewrite registered_world_members by exact Hpend.
    apply list_find_snoc_fresh; [|reflexivity].
    apply (registration_check_passed _ _ _ _ Hcheck). }
  split.
  { rewrite (post_social_register_run _ _ _ _ _ _ _ Hready).
    rewrite Hcheck. reflexivity. }
  split.
  { unfold check_exists_social_id, profile_first. rewrite bind_gets.
    rewrite Hrows. reflexivity. }
  split.
  { unfold get_member_by_social_id, profile_first. rewrite bind_gets.
    rewrite Hrows. reflexivity. }
  intros rest token social_email' profile' login_member_mb_id Hsame.
  destruct Hready as (_ & _ & _ & Hknown & Hid).
  rewrite authorize_social_login_run
    by (rewrite ?Hsame; assumption).
  rewrite Hsame. fold local_id. unfold linked_id. rewrite Hrows.
  change (Profile.mb_id (registered_profile member_form local_id
                           provider_name profile request_time))
    with local_id.
  unfold local_id at 1. rewrite truthy_derived_id. fold local_id.
  rewrite Hmember. eexists. split; [reflexivity|].
  cbn [db session]. split; [reflexivity|]. split.
  - rewrite lookup_insert_ne by done. apply lookup_insert_eq.
  - apply lookup_insert_eq.
Qed.

(** X9. The registration form reads the session and changes nothing; it is
    shown exactly when social login is on and the session carries an
    access token and a provider name. *)
Theorem X_register_form_read_only (config : Config) (w : world) :
  let shown :=
    cf_social_login_use config
    && negb (is_none (session w !! "ss_social_access"))
    && negb (is_none (session w !! "ss_social_provider")) in
  match get_social_register_form config w with
  | (Ok page, w') =>
      w' = w /\ shown = true
      /\ page_provider_name page = session w !! "ss_social_provider"
      /\ social_member_email (page_form page)
         = session w !! "ss_social_email"
      /\ is_exists_email (page_form page)
         = negb (is_none (session w !! "ss_social_email"))
      /\ social_member_id (page_form page) = ""
  | (Raise e, w') =>
      w' = w /\ shown = false
      /\ exists detail url, e = AlertException 400 detail url
  end.
Proof.
  intros shown. subst shown. unfold get_social_register_form.
  destruct (cf_social_login_use config); cbn [negb andb].
  2:{ split; [reflexivity|]. split; [reflexivity|]. eauto. }
  rewrite bind_raise_if_false. unfold session_get. rewrite !bind_gets.
  destruct (is_none (session w !! "ss_social_access")); cbn [orb negb andb].
  { split; [reflexivity|]. split; [reflexivity|]. eauto. }
  destruct (is_none (session w !! "ss_social_provider")); cbn [negb].
  { split; [reflexivity|]. split; [reflexivity|]. eauto. }
  rewrite bind_raise_if_false, bind_gets. cbn [ret page_provider_name
    page_form social_member_email is_exists_email social_member_id].
  repeat split.
Qed.

(** X8. When the callback sends a newcomer to registration, the session it
    leaves lets the form be shown with the candidate email and lets the
    registration handler reach its validation. *)
Theorem X_callback_then_registration (config : Config)
    (provider_name : string) (rest : list string) (token : string)
    (social_email : option string) (profile : Profile.t)
    (login_member_mb_id : option string) (w : world) :
  provider_exists provider_name = true ->
  Py.truthy (Profile.identifier profile) = true ->
  linked_id w provider_name
    (g5_convert_social_id (Profile.identifier profile) provider_name)
  = None ->
  link_requested w login_member_mb_id = false ->
  cf_social_login_use config = true ->
  exists w1,
    authorize_social_login (provider_name :: rest) (Some token) social_email
                           profile login_member_mb_id w
    = (Ok (RedirectResponse (url_for "get_social_register_form") 302), w1)
    /\ db w1 = db w
    /\ registration_ready config w1 profile provider_name
    /\ exists page,
         get_social_register_form config w1 = (Ok page, w1)
         /\ page_provider_name page = Some (SStr provider_name)
         /\ social_member_email (page_form page)
            = Some (match social_email with
                    | Some e => SStr e
                    | None => SNone
                    end)
         /\ is_exists_email (page_form page)
            = bool_decide (is_Some social_email).
Proof.
  intros Hknown Hid Hlink Hreq Huse.
  rewrite (authorize_social_login_run _ _ _ _ _ _ _ Hknown Hid).
  rewrite Hlink, Hreq. eexists. split; [reflexivity|].
  split; [reflexivity|].
  assert (Hp : forall s : gmap string sval,
             <["ss_social_email" :=
                 match social_email with Some e => SStr e | None => SNone end]>
               (<["ss_social_provider" := SStr provider_name]>
                  (<["ss_social_access" := SToken token]> s))
             !! "ss_social_provider" = Some (SStr provider_name)).
  { intros s. rewrite lookup_insert_ne by done. apply lookup_insert_eq. }
  assert (Ha : forall s : gmap string sval,
             <["ss_social_email" :=
                 match social_email with Some e => SStr e | None => SNone end]>
               (<["ss_social_provider" := SStr provider_name]>
                  (<["ss_social_access" := SToken token]> s))
             !! "ss_social_access" = Some (SToken token)).
  { intros s. rewrite !lookup_insert_ne by done. apply lookup_insert_eq. }
  split.
  { unfold registration_ready. cbn [session]. rewrite Hp, Ha. auto. }
  unfold get_social_register_form. rewrite Huse. cbn [negb].
  rewrite bind_raise_if_false. unfold session_get. rewrite !bind_gets.
  cbn [session]. rewrite Hp, Ha. cbn [is_none orb].
  rewrite bind_raise_if_false, bind_gets. cbn [session].
  rewrite lookup_insert_eq.
  eexists. split; [reflexivity|].
  cbn [page_provider_name page_form social_member_email is_exists_email].
  split; [reflexivity|]. split; [reflexivity|].
  destruct social_email; reflexivity.
Qed.

(** X10. Linking an account does not make the next callback find a link:
    when the provider's answer does not carry its own derived id, a
    second callback attaches a second, identical row. *)
Theorem X_link_is_repeated (provider_name : string) (rest : list string)
    (token : string) (social_email : option string) (profile : Profile.t)
    (login_member_mb_id : option string) (w : world) :
  provider_exists provider_name = true ->
  Py.truthy (Profile.identifier profile) = true ->
  pending w = [] ->
  linked_id w provider_name
    (g5_convert_social_id (Profile.identifier profile) provider_name)
  = None ->
  link_requested w login_member_mb_id = true ->
  Profile.identifier profile
  <> g5_convert_social_id (Profile.identifier profile) provider_name ->
  let row := Profile.set_mb_id (Py.str_opt login_member_mb_id) profile in
  exists w1 w2,
    authorize_social_login (provider_name :: rest) (Some token) social_email
                           profile login_member_mb_id w
    = (Ok (RedirectResponse (url_for "index") 302), w1)
    /\ social_profiles (db w1) = social_profiles (db w) ++ [row]
    /\ authorize_social_login (provider_name :: rest) (Some token)
         social_email profile login_member_mb_id w1
       = (Ok (RedirectResponse (url_for "index") 302), w2)
    /\ social_profiles (db w2) = social_profiles (db w) ++ [row; row].
Proof.
  intros Hknown Hid Hpend Hlink Hreq Hraw row.
  set (w1 := mkWorld (mkTables (members (db w))
                               (social_profiles (db w) ++ [row]))
                     [] (<["ss_social_access" := SToken token]> (session w))
                     (ledger w)).
  assert (Hfirst :
    authorize_social_login (provider_name :: rest) (Some token) social_email
                           profile login_member_mb_id w
    = (Ok (RedirectResponse (url_for "index") 302), w1)).
  { rewrite (authorize_social_login_run _ _ _ _ _ _ _ Hknown Hid).
    rewrite Hlink, Hreq, Hpend. reflexivity. }
  assert (Hlink1 : linked_id w1 provider_name
            (g5_convert_social_id (Profile.identifier profile) provider_name)
          = None).
  { unfold linked_id in *. cbn [w1 db social_profiles].
    destruct (list_find _ (social_profiles (db w))) as [[i found]|] eqn:Hf.
    - rewrite (list_find_app_l _ _ _ _ _ Hf). exact Hlink.
    - rewrite list_find_snoc_miss; [reflexivity | exact Hf |].
      intros [_ Hident]. apply Hraw. exact Hident. }
  assert (Hreq1 : link_requested w1 login_member_mb_id = true).
  { unfold link_requested in *. cbn [w1 session].
    rewrite lookup_insert_ne by done. exact Hreq. }
  exists w1. eexists. split; [exact Hfirst|]. split; [reflexivity|].
  rewrite (authorize_social_login_run _ _ _ _ _ _ _ Hknown Hid).
  rewrite Hlink1, Hreq1. split; [reflexivity|].
  cbn [w1 pending app fold_left apply_write db social_profiles members].
  rewrite <- app_assoc. reflexivity.
Qed.

End RegistrationFlow.

(** ** The member table under the administrator's form *)

Section MemberTable.
Context `{Collaborators}.

Lemma fresh_for_finds (f : AdminForm.t) (t : tables) :
  fresh_for f t <->
  ~ Exists (fun m => mb_id m = AdminForm.mb_id f) (members t)
  /\ list_find (fun m => mb_nick m = AdminForm.mb_nick f) (members t) = None
  /\ list_find (fun m => mb_email m = AdminForm.mb_email f) (members t)
     = None.
Proof.
  unfold fresh_for. rewrite !list_find_None, <- Forall_Exists_neg.
  rewrite !Forall_forall. split.
  - intros Hall. repeat split; intros m Hm; apply (Hall m Hm).
  - intros (H1 & H2 & H3) m Hm. auto.
Qed.

(** The insert branch as its three checks see the table. *)
Lemma insert_path_fresh (f : AdminForm.t) (w : world) :
  fresh_for f (db w) ->
  insert_path f w
  = (Ok (redirect_to_form (AdminForm.mb_id f)),
     mkWorld (fold_left apply_write
                (pending w ++ [AddMember (inserted_member f)]) (db w))
             [] (session w) (ledger w)).
Proof.
  intros (Hid & Hnick & Hemail)%fresh_for_finds.
  rewrite insert_path_run, insert_branch_run.
  rewrite decide_False by exact Hid. rewrite Hnick, Hemail. reflexivity.
Qed.

Lemma insert_path_taken (f : AdminForm.t) (w : world) :
  ~ fresh_for f (db w) -> exists e, insert_path f w = (Raise e, w).
Proof.
  intros Hnot. rewrite insert_path_run, insert_branch_run.
  destruct (decide _) as [|Hid]; [eauto|].
  destruct (list_find (fun m => mb_nick m = AdminForm.mb_nick f) _)
    as [[i c]|] eqn:Hnick; [eauto|].
  destruct (list_find (fun m => mb_email m = AdminForm.mb_email f) _)
    as [[i c]|] eqn:Hemail; [eauto|].
  exfalso. apply Hnot, fresh_for_finds. auto.
Qed.

(** X11. With a token that does not verify: when some member has the
    submitted id, nickname or email the request raises and nothing is
    written; when none has, the request raises no [HTTPException]; and a
    request that is answered found none, redirects to the submitted id
    and has added one row at the end of the member table, built from the
    form column by column, the links and the session being as before. *)
Theorem X_insert_iff_fresh (config : Config) (f : AdminForm.t) (w : world) :
  verify_password (AdminForm.mb_id f) (AdminForm.token f) = false ->
  pending w = [] ->
  (~ fresh_for f (db w) ->
   exists e, member_form_update config f w = (Raise e, w))
  /\ (fresh_for f (db w) ->
      forall status_code detail w',
        member_form_update config f w
        <> (Raise (HTTPException status_code detail), w'))
  /\ (forall r w',
        member_form_update config f w = (Ok r, w') ->
        fresh_for f (db w)
        /\ r = redirect_to_form (AdminForm.mb_id f)
        /\ social_profiles (db w') = social_profiles (db w)
        /\ session w' = session w
        /\ exists row,
             members (db w') = members (db w) ++ [row]
             /\ built_from f row).
Proof.
  intros Hv Hpend. rewrite (member_form_update_insert _ _ _ Hv).
  split; [apply insert_path_taken|]. split.
  - intros Hfresh status_code detail w'.
    rewrite (insert_path_fresh _ _ Hfresh). discriminate.
  - intros r w' Hrun.
    destruct (decide (fresh_for f (db w))) as [Hfresh|Hnot].
    + rewrite (insert_path_fresh _ _ Hfresh) in Hrun.
      injection Hrun as <- <-. split; [exact Hfresh|].
      split; [reflexivity|]. cbn [db session]. rewrite Hpend.
      cbn [app fold_left apply_write social_profiles members].
      split; [reflexivity|]. split; [reflexivity|].
      exists (inserted_member f). split; [reflexivity|].
      apply inserted_member_columns.
    + destruct (insert_path_taken _ _ Hnot) as [e He].
      rewrite He in Hrun. discriminate.
Qed.

Lemma NoDup_snoc_fresh {A} (l : list A) (x : A) :
  NoDup l -> x ∉ l -> NoDup (l ++ [x]).
Proof.
  intros Hl Hx. apply NoDup_app. split; [exact Hl|]. split.
  - intros y Hy [->|[]]%list_elem_of_In. exact (Hx Hy).
  - apply NoDup_singleton.
Qed.

(** X12. Adding a member keeps ids, nicknames and emails pairwise distinct. *)
Theorem X_insert_keeps_members_unique (config : Config) (f : AdminForm.t)
    (w : world) :
  verify_password (AdminForm.mb_id f) (AdminForm.token f) = false ->
  pending w = [] ->
  unique_members (db w) ->
  unique_members (db (snd (member_form_update config f w))).
Proof.
  intros Hv Hpend (Hids & Hnicks & Hemails).
  rewrite (member_form_update_insert _ _ _ Hv).
  destruct (decide (fresh_for f (db w))) as [Hfresh|Hnot].
  - rewrite (insert_path_fresh _ _ Hfresh). cbn [snd db]. rewrite Hpend.
    cbn [app fold_left apply_write]. unfold unique_members.
    cbn [members]. rewrite !map_app. cbn [map].
    unfold fresh_for in Hfresh. rewrite Forall_forall in Hfresh.
    repeat split; apply NoDup_snoc_fresh; try assumption;
      intros (m & Heq & Hm)%list_elem_of_fmap;
      destruct (Hfresh m Hm) as (H1 & H2 & H3).
    + apply H1. symmetry. exact Heq.
    + apply H2. symmetry. exact Heq.
    + apply H3. symmetry. exact Heq.
  - destruct (insert_path_taken _ _ Hnot) as [e ->].
    repeat split; assumption.
Qed.

Lemma map_insert_same {A B} (g : A -> B) (l : list A) (pos : nat)
    (old new : A) :
  l !! pos = Some old -> g new = g old ->
  map g (<[pos := new]> l) = map g l.
Proof.
  intros Hl Hg. change (g <$> <[pos := new]> l = g <$> l).
  rewrite list_fmap_insert, Hg. apply list_insert_id.
  rewrite list_lookup_fmap, Hl. reflexivity.
Qed.

(** The update branch with a verifying token: failure, or one row
    overwritten in place. *)
Lemma update_path_effect (config : Config) (f : AdminForm.t) (w : world) :
  verify_password (AdminForm.mb_id f) (AdminForm.token f) = true ->
  (exists e, update_path config f w = (Raise e, w))
  \/ (exists pos old,
        list_find (fun m => SStr (mb_id m) = edit_target w) (members (db w))
        = Some (pos, old)
        /\ list_find (fun m => mb_id m <> AdminForm.mb_id f
                               /\ mb_nick m = AdminForm.mb_nick f)
                     (members (db w)) = None
        /\ list_find (fun m => mb_id m <> AdminForm.mb_id f
                               /\ mb_email m = AdminForm.mb_email f)
                     (members (db w)) = None
        /\ update_path config f w
           = (Ok (redirect_to_form (sval_str (edit_target w))),
              mkWorld (fold_left apply_write
                         (pending w
                            ++ [UpdateMember pos
                                  (updated_member config f old)])
                         (db w))
                      [] (session w) (ledger w))).
Proof.
  intros Hv. rewrite update_path_run, (update_branch_run _ _ _ _ Hv).
  destruct (list_find (fun m => mb_id m <> AdminForm.mb_id f
                                /\ mb_nick m = AdminForm.mb_nick f) _)
    as [[i c]|]; [left; eauto|].
  destruct (list_find (fun m => mb_id m <> AdminForm.mb_id f
                                /\ mb_email m = AdminForm.mb_email f) _)
    as [[i c]|]; [left; eauto|].
  destruct (list_find (fun m => SStr (mb_id m) = edit_target w) _)
    as [[pos old]|]; [|left; eauto].
  right. exists pos, old. repeat split.
Qed.

(** X13. No request deletes a member, changes a member's id or touches the
    two registration timestamps: the rows that were there keep them, and
    at most one row is appended, under the submitted id. *)
Theorem X_member_ids_persist (config : Config) (f : AdminForm.t)
    (w : world) :
  pending w = [] ->
  let key := fun m => (mb_id m, mb_today_login m, mb_datetime m) in
  let after := members (db (snd (member_form_update config f w))) in
  map key after = map key (members (db w))
  \/ after = members (db w) ++ [inserted_member f].
Proof.
  intros Hpend key after. subst after.
  destruct (verify_password (AdminForm.mb_id f) (AdminForm.token f)) eqn:Hv.
  - left. rewrite (member_form_update_update _ _ _ Hv).
    destruct (update_path_effect config f w Hv)
      as [[e ->]|(pos & old & Hfind & _ & _ & ->)]; [reflexivity|].
    cbn [snd db]. rewrite update_commit_members by exact Hpend.
    apply list_find_Some in Hfind as (Hl & _ & _).
    apply (map_insert_same key _ _ old); [exact Hl | reflexivity].
  - rewrite (member_form_update_insert _ _ _ Hv).
    destruct (decide (fresh_for f (db w))) as [Hfresh|Hnot].
    + right. rewrite (insert_path_fresh _ _ Hfresh). cbn [snd db].
      apply insert_commit_members. exact Hpend.
    + left. destruct (insert_path_taken _ _ Hnot) as [e ->]. reflexivity.
Qed.

(** X14. A verifying token with a session that names no member fails with a
    404 that names the submitted id, and changes nothing. *)
Theorem X_update_without_target (config : Config) (f : AdminForm.t)
    (w : world) :
  verify_password (AdminForm.mb_id f) (AdminForm.token f) = true ->
  Forall (fun m => SStr (mb_id m) <> edit_target w) (members (db w)) ->
  exists e,
    member_form_update config f w = (Raise e, w)
    /\ (Forall (fun m => mb_id m <> AdminForm.mb_id f ->
                         mb_nick m <> AdminForm.mb_nick f
                         /\ mb_email m <> AdminForm.mb_email f)
               (members (db w)) ->
        e = HTTPException 404
              (AdminForm.mb_id f +:+ " : 회원아이디가 존재하지 않습니다.")).
Proof.
  intros Hv Hnone.
  assert (Hfind : list_find (fun m => SStr (mb_id m) = edit_target w)
                            (members (db w)) = None)
    by (apply list_find_None; exact Hnone).
  rewrite (member_form_update_update _ _ _ Hv), update_path_run,
    (update_branch_run _ _ _ _ Hv).
  destruct (list_find (fun m => mb_id m <> AdminForm.mb_id f
                                /\ mb_nick m = AdminForm.mb_nick f) _)
    as [[i c]|] eqn:Hnick.
  { eexists. split; [reflexivity|]. intros Hall. exfalso.
    apply list_find_Some in Hnick as (Hl & [Hne Heq] & _).
    rewrite Forall_forall in Hall.
    destruct (Hall c (list_elem_of_lookup_2 _ _ _ Hl) Hne) as [Hn _].
    exact (Hn Heq). }
  destruct (list_find (fun m => mb_id m <> AdminForm.mb_id f
                                /\ mb_email m = AdminForm.mb_email f) _)
    as [[i c]|] eqn:Hemail.
  { eexists. split; [reflexivity|]. intros Hall. exfalso.
    apply list_find_Some in Hemail as (Hl & [Hne Heq] & _).
    rewrite Forall_forall in Hall.
    destruct (Hall c (list_elem_of_lookup_2 _ _ _ Hl) Hne) as [_ He].
    exact (He Heq). }
  rewrite Hfind. eexists. split; [reflexivity|]. reflexivity.
Qed.

Lemma append_assoc (a b c : string) : (a +:+ b) +:+ c = a +:+ (b +:+ c).
Proof.
  induction a as [|x a IH]; [reflexivity|].
  change (String x ((a +:+ b) +:+ c) = String x (a +:+ (b +:+ c))).
  rewrite IH. reflexivity.
Qed.

Lemma conts_char_tail (s : string) : Py.conts s +:+ Py.char_tail s = s.
Proof.
  induction s as [|c s IH]; [reflexivity|].
  cbn [Py.conts Py.char_tail]. destruct (Py.is_cont c); [|reflexivity].
  change (String c (Py.conts s +:+ Py.char_tail s) = String c s).
  rewrite IH. reflexivity.
Qed.

Lemma char_count_app (a b : string) :
  char_count (a +:+ b) = (char_count a + char_count b)%nat.
Proof.
  induction a as [|x a IH]; [reflexivity|].
  change (char_count (String x (a +:+ b))
          = (char_count (String x a) + char_count b)%nat).
  cbn [char_count]. rewrite IH. lia.
Qed.

Lemma char_count_conts (s : string) : char_count (Py.conts s) = O.
Proof.
  induction s as [|c s IH]; [reflexivity|].
  cbn [Py.conts]. destruct (Py.is_cont c) eqn:Hc; [|reflexivity].
  cbn [char_count]. rewrite Hc, IH. reflexivity.
Qed.

Lemma starts_char_tail (s : string) : starts_char (Py.char_tail s) = true.
Proof.
  induction s as [|c s IH]; [reflexivity|].
  cbn [Py.char_tail]. destruct (Py.is_cont c) eqn:Hc; [exact IH|].
  cbn [starts_char]. rewrite Hc. reflexivity.
Qed.

Lemma char_count_tail (s : string) :
  char_count (Py.char_tail s) = char_count s.
Proof.
  rewrite <- (conts_char_tail s) at 2.
  rewrite char_count_app, char_count_conts. reflexivity.
Qed.

(** The two slices of a text give the text back. *)
Lemma chars_to_from (k : nat) (s : string) :
  Py.chars_to k s +:+ Py.chars_from k s = s.
Proof.
  revert s. induction k as [|k IH]; intros [|c s]; try reflexivity.
  cbn [Py.chars_to Py.chars_from].
  change (String c ((Py.conts s +:+ Py.chars_to k (Py.char_tail s))
                    +:+ Py.chars_from k (Py.char_tail s)) = String c s).
  rewrite append_assoc, IH, conts_char_tail. reflexivity.
Qed.

(** The first slice has [k] characters, or all there are. *)
Lemma chars_to_count (k : nat) :
  forall s, starts_char s = true ->
    char_count (Py.chars_to k s) = Nat.min k (char_count s).
Proof.
  induction k as [|k IH]; intros [|c s] Hs; try reflexivity.
  cbn [starts_char] in Hs. apply negb_true_iff in Hs.
  cbn [Py.chars_to char_count]. rewrite Hs.
  rewrite char_count_app, char_count_conts.
  rewrite (IH _ (starts_char_tail s)), char_count_tail. reflexivity.
Qed.

(** The second slice begins at the start of a character. *)
Lemma chars_from_starts (k : nat) :
  forall s, starts_char s = true -> starts_char (Py.chars_from k s) = true.
Proof.
  induction k as [|k IH]; intros [|c s] Hs; try reflexivity; try exact Hs.
  cbn [Py.chars_from]. apply IH, starts_char_tail.
Qed.

(** X15. Both branches store the postal code in two parts that together are
    the submitted code: the first part is its first three characters
    (all of it when it has fewer) and the second part begins with its
    fourth character; an omitted or empty code stores two empty parts. *)
Theorem X_zip_parts (config : Config) (f : AdminForm.t) (old : Member) :
  let zip := default "" (AdminForm.mb_zip f) in
  exists part1 part2,
    mb_zip1 (inserted_member f) = Some part1
    /\ mb_zip2 (inserted_member f) = Some part2
    /\ mb_zip1 (updated_member config f old) = Some part1
    /\ mb_zip2 (updated_member config f old) = Some part2
    /\ part1 +:+ part2 = zip
    /\ (starts_char zip = true ->
        char_count part1 = Nat.min 3 (char_count zip)
        /\ starts_char part2 = true).
Proof.
  cbn [inserted_member updated_member mb_zip1 mb_zip2].
  unfold zip1_of, zip2_of.
  destruct (AdminForm.mb_zip f) as [z|]; cbn [default].
  - destruct z as [|c z]; cbn [Py.truthy].
    + exists "", "". repeat split.
    + eexists _, _. do 4 (split; [reflexivity|]).
      split; [apply chars_to_from|]. intros Hs.
      split; [apply chars_to_count | apply chars_from_starts]; exact Hs.
  - exists "", "". repeat split.
Qed.

Lemma list_find_same_id (target : string) (l : list Member) :
  list_find (fun m => SStr (mb_id m) = SStr target) l
  = list_find (fun m => mb_id m = target) l.
Proof.
  apply list_find_ext. intros m. split; [intros [= ->] | intros ->];
    reflexivity.
Qed.

(** X16. The edit form followed by its submission.  The form of a member
    is answered with a token that verifies against the member's id and
    leaves that id in the session, the tables being as before.  A
    submission of that id and token then takes the update branch: when
    no other member has the submitted nickname or email it raises no
    [HTTPException], and when it is answered it redirects to the member
    and has written the submitted values over the member's row, column
    by column, every other row and the links being as before. *)
Theorem X_edit_then_update (config : Config) (f : AdminForm.t) (w : world)
    (pos : nat) (old : Member) :
  verify_password (AdminForm.mb_id f) (hash_password (AdminForm.mb_id f))
  = true ->
  AdminForm.token f = hash_password (AdminForm.mb_id f) ->
  pending w = [] ->
  list_find (fun m => mb_id m = AdminForm.mb_id f) (members (db w))
  = Some (pos, old) ->
  exists w1,
    member_form_edit (AdminForm.mb_id f) w
    = (Ok (TemplateResponse "admin/member_form.html" (AdminForm.token f)),
       w1)
    /\ db w1 = db w
    /\ session w1 !! "ss_member_form_mb_id"
       = Some (SStr (AdminForm.mb_id f))
    /\ (Forall (fun m => mb_id m <> AdminForm.mb_id f ->
                         mb_nick m <> AdminForm.mb_nick f
                         /\ mb_email m <> AdminForm.mb_email f)
               (members (db w)) ->
        forall status_code detail w2,
          member_form_update config f w1
          <> (Raise (HTTPException status_code detail), w2))
    /\ (forall r w2,
          member_form_update config f w1 = (Ok r, w2) ->
          r = redirect_to_form (AdminForm.mb_id f)
          /\ social_profiles (db w2) = social_profiles (db w)
          /\ exists stored,
               members (db w2) = <[pos := stored]> (members (db w))
               /\ mb_id stored = AdminForm.mb_id f
               /\ overwritten_by config f old stored).
Proof.
  intros Hhash Htoken Hpend Hfind.
  set (w1 := mkWorld (db w) (pending w)
               (<["ss_member_form_mb_id" := SStr (AdminForm.mb_id f)]>
                  (session w))
               (ledger w)).
  exists w1. split.
  { unfold member_form_edit, member_first. rewrite bind_gets, Hfind.
    rewrite bool_decide_eq_true_2 by (eexists; reflexivity).
    cbn [negb]. rewrite bind_raise_if_false. rewrite Htoken. reflexivity. }
  split; [reflexivity|]. split; [apply lookup_insert_eq|].
  assert (Hv : verify_password (AdminForm.mb_id f) (AdminForm.token f) = true)
    by (rewrite Htoken; exact Hhash).
  rewrite (member_form_update_update _ _ _ Hv), update_path_run,
    (update_branch_run _ _ _ _ Hv).
  assert (Htarget : edit_target w1 = SStr (AdminForm.mb_id f)).
  { unfold edit_target. cbn [w1 session]. rewrite lookup_insert_eq.
    reflexivity. }
  rewrite Htarget, list_find_same_id.
  change (members (db w1)) with (members (db w)). rewrite Hfind.
  split.
  - intros Hall status_code detail w2.
    assert (Hnick : list_find (fun m => mb_id m <> AdminForm.mb_id f
                                        /\ mb_nick m = AdminForm.mb_nick f)
                              (members (db w)) = None).
    { apply list_find_None. eapply Forall_impl; [exact Hall|].
      intros m Hm [Hne Heq]. destruct (Hm Hne) as [Hn _]. exact (Hn Heq). }
    assert (Hemail : list_find (fun m => mb_id m <> AdminForm.mb_id f
                                         /\ mb_email m = AdminForm.mb_email f)
                               (members (db w)) = None).
    { apply list_find_None. eapply Forall_impl; [exact Hall|].
      intros m Hm [Hne Heq]. destruct (Hm Hne) as [_ He]. exact (He Heq). }
    rewrite Hnick, Hemail. discriminate.
  - intros r w2 Hrun.
    destruct (list_find (fun m => mb_id m <> AdminForm.mb_id f
                                  /\ mb_nick m = AdminForm.mb_nick f)
                        (members (db w))) as [[i c]|]; [discriminate|].
    destruct (list_find (fun m => mb_id m <> AdminForm.mb_id f
                                  /\ mb_email m = AdminForm.mb_email f)
                        (members (db w))) as [[i c]|]; [discriminate|].
    injection Hrun as <- <-. split; [reflexivity|].
    cbn [db w1 pending]. rewrite Hpend.
    cbn [app fold_left apply_write social_profiles members].
    split; [reflexivity|].
    exists (updated_member config f old). split; [reflexivity|].
    split; [|apply updated_member_columns].
    apply list_find_Some in Hfind as (_ & Hid & _). exact Hid.
Qed.

(** X17. The form for a new member followed by its submission.  The
    empty form is answered with the token of the empty id, leaves the
    empty id in the session and the tables as before.  When that token
    does not verify against the submitted id, the submission takes the
    insert branch: with no member under the submitted id, nickname or
    email it raises no [HTTPException], and when it is answered it
    redirects to the submitted id and has added one row at the end of
    the member table, built from the form column by column. *)
Theorem X_add_then_insert (config : Config) (f : AdminForm.t) (w : world) :
  verify_password (AdminForm.mb_id f) (hash_password "") = false ->
  AdminForm.token f = hash_password "" ->
  pending w = [] ->
  exists w1,
    member_form_add w
    = (Ok (TemplateResponse "admin/member_form.html" (AdminForm.token f)),
       w1)
    /\ session w1 !! "ss_member_form_mb_id" = Some (SStr "")
    /\ db w1 = db w
    /\ (fresh_for f (db w) ->
        forall status_code detail w2,
          member_form_update config f w1
          <> (Raise (HTTPException status_code detail), w2))
    /\ (forall r w2,
          member_form_update config f w1 = (Ok r, w2) ->
          fresh_for f (db w)
          /\ r = redirect_to_form (AdminForm.mb_id f)
          /\ social_profiles (db w2) = social_profiles (db w)
          /\ exists row,
               members (db w2) = members (db w) ++ [row]
               /\ built_from f row).
Proof.
  intros Hhash Htoken Hpend.
  set (w1 := mkWorld (db w) (pending w)
               (<["ss_member_form_mb_id" := SStr ""]> (session w))
               (ledger w)).
  exists w1. split.
  { unfold member_form_add. rewrite Htoken. reflexivity. }
  split; [apply lookup_insert_eq|]. split; [reflexivity|].
  assert (Hv : verify_password (AdminForm.mb_id f) (AdminForm.token f)
               = false) by (rewrite Htoken; exact Hhash).
  rewrite (member_form_update_insert _ _ _ Hv). split.
  - intros Hfresh status_code detail w2.
    rewrite (insert_path_fresh f w1 Hfresh). discriminate.
  - intros r w2 Hrun.
    destruct (decide (fresh_for f (db w))) as [Hfresh|Hnot].
    + rewrite (insert_path_fresh f w1 Hfresh) in Hrun.
      injection Hrun as <- <-. split; [exact Hfresh|].
      split; [reflexivity|]. cbn [db w1 pending]. rewrite Hpend.
      cbn [app fold_left apply_write social_profiles members].
      split; [reflexivity|].
      exists (inserted_member f). split; [reflexivity|].
      apply inserted_member_columns.
    + destruct (insert_path_taken f w1 Hnot) as [e He].
      rewrite He in Hrun. discriminate.
Qed.

Lemma NoDup_insert_fresh {A} (l : list A) (pos : nat) (x : A) :
  NoDup l ->
  (forall j y, j <> pos -> l !! j = Some y -> y <> x) ->
  NoDup (<[pos := x]> l).
Proof.
  revert pos. induction l as [|a l IH]; intros pos Hnd Hfresh;
    [constructor|].
  apply NoDup_cons in Hnd as [Ha Hnd].
  destruct pos as [|pos];
    [change (<[0%nat := x]> (a :: l)) with (x :: l)
    |change (<[S pos := x]> (a :: l)) with (a :: <[pos := x]> l)].
  - apply NoDup_cons. split; [|exact Hnd].
    intros (j & Hj)%list_elem_of_lookup_1.
    exact (Hfresh (S j) x ltac:(lia) Hj eq_refl).
  - apply NoDup_cons. split.
    + intros (j & Hj)%list_elem_of_lookup_1.
      destruct (decide (j = pos)) as [->|Hne].
      * destruct (decide (pos < length l)%nat) as [Hlt|Hge].
        -- rewrite list_lookup_insert_eq in Hj by exact Hlt.
           injection Hj as Hj.
           exact (Hfresh 0%nat a ltac:(lia) eq_refl (eq_sym Hj)).
        -- rewrite list_insert_ge in Hj by lia.
           apply Ha. eapply list_elem_of_lookup_2. exact Hj.
      * rewrite list_lookup_insert_ne in Hj by congruence.
        apply Ha. eapply list_elem_of_lookup_2. exact Hj.
    + apply IH; [exact Hnd|].
      intros j y Hj Hy. apply (Hfresh (S j) y); [lia | exact Hy].
Qed.

(** X18. Submitting the edit form for the member it was opened for, with a
    nickname and an email, keeps ids, nicknames and emails pairwise
    distinct. *)
Theorem X_edit_keeps_members_unique (config : Config) (f : AdminForm.t)
    (w : world) :
  verify_password (AdminForm.mb_id f) (AdminForm.token f) = true ->
  pending w = [] ->
  edit_target w = SStr (AdminForm.mb_id f) ->
  Py.truthy_opt (AdminForm.mb_nick f) = true ->
  Py.truthy_opt (AdminForm.mb_email f) = true ->
  unique_members (db w) ->
  unique_members (db (snd (member_form_update config f w))).
Proof.
  intros Hv Hpend Htarget Hnick Hemail (Hids & Hnicks & Hemails).
  rewrite (member_form_update_update _ _ _ Hv).
  destruct (update_path_effect config f w Hv)
    as [[e ->]|(pos & old & Hfind & Hn & He & ->)];
    [repeat split; assumption|].
  unfold unique_members. cbn [snd db].
  rewrite update_commit_members by exact Hpend.
  rewrite Htarget, list_find_same_id in Hfind.
  apply list_find_Some in Hfind as (Hl & Hid & _).
  assert (Hothers : forall j y, j <> pos -> members (db w) !! j = Some y ->
                                mb_id y <> AdminForm.mb_id f).
  { intros j y Hj Hy Heq. apply Hj.
    eapply (NoDup_lookup _ j pos (mb_id y) Hids).
    - rewrite list_lookup_fmap, Hy. reflexivity.
    - rewrite list_lookup_fmap, Hl. cbn. rewrite Hid, Heq. reflexivity. }
  rewrite list_find_None, Forall_forall in Hn, He.
  change (map ?g (<[pos := ?x]> ?l)) with (g <$> <[pos := x]> l).
  rewrite !list_fmap_insert. split; [|split].
  - rewrite list_insert_id; [exact Hids|].
    rewrite list_lookup_fmap, Hl. reflexivity.
  - apply NoDup_insert_fresh; [exact Hnicks|].
    intros j y Hj Hy Heq.
    apply list_lookup_fmap_Some_1 in Hy as (m & -> & Hm).
    apply (Hn m (list_elem_of_lookup_2 _ _ _ Hm)).
    split; [apply (Hothers j m Hj Hm)|].
    rewrite Heq. cbn [updated_member mb_nick]. unfold or_empty.
    rewrite Hnick. reflexivity.
  - apply NoDup_insert_fresh; [exact Hemails|].
    intros j y Hj Hy Heq.
    apply list_lookup_fmap_Some_1 in Hy as (m & -> & Hm).
    apply (He m (list_elem_of_lookup_2 _ _ _ Hm)).
    split; [apply (Hothers j m Hj Hm)|].
    rewrite Heq. cbn [updated_member mb_email]. unfold or_empty.
    rewrite Hemail. reflexivity.
Qed.

End MemberTable.

(** ** The flows on the sample deployment *)

Section FlowWitnesses.
Import Sample Scenario Flows.
#[local] Existing Instance Sample.collaborators.

(** X7 on the sample deployment. *)
Lemma X_callback_preserves_members_witness :
  members (db (snd (authorize_social_login ["naver"] (Some "tok") None
                      (answer "naver" "12345") (Some "alice") w_linking)))
  = [alice].
Proof.
  apply (proj1 (X_callback_preserves_members (H := collaborators) ["naver"]
                  (Some "tok") None (answer "naver" "12345") (Some "alice")
                  w_linking eq_refl)).
Defined.

(** X4 on the sample deployment. *)
Lemma X_registration_success_effects_witness :
  exists w' member entry,
    post_social_register config (MemberForm.mk None (Some "new@example.org"))
      None (answer "naver" "12345") now w_fresh
    = (Ok (RedirectResponse "/" 302), w')
    /\ members (db w') = [alice; member]
    /\ ledger w' = [entry]
    /\ pt_mb_id entry = mb_id member
    /\ session w' = session w_fresh.
Proof.
  set (res := post_social_register config
                (MemberForm.mk None (Some "new@example.org")) None
                (answer "naver" "12345") now w_fresh).
  assert (Hres : res = (Ok (RedirectResponse "/" 302), snd res)).
  { apply injective_projections; [vm_compute; reflexivity | reflexivity]. }
  destruct (X_registration_success_effects (H := collaborators) config
              (MemberForm.mk None (Some "new@example.org")) None
              (answer "naver" "12345") now w_fresh (snd res) _ eq_refl Hres)
    as (member & row & entry & Hm & _ & Hl & Hs & _ & Hp & _).
  exists (snd res), member, entry. split; [exact Hres|]. auto.
Defined.

(** X5 on the sample deployment. *)
Lemma X_registration_then_login_witness :
  exists w1 w2,
    post_social_register config (MemberForm.mk None (Some "new@example.org"))
      None (answer "naver" "12345") now w_fresh
    = (Ok (RedirectResponse "/" 302), w1)
    /\ authorize_social_login ["naver"] (Some "tok2") None
         (answer "naver" "12345") None w1
       = (Ok (RedirectResponse "/" 302), w2)
    /\ session w2 !! "ss_mb_id" = Some (SStr "naver_968d08f6").
Proof.
  destruct (X_registration_then_login (H := collaborators) config
              (MemberForm.mk None (Some "new@example.org")) None
              (answer "naver" "12345") now w_fresh "naver"
              ltac:(repeat split) eq_refl ltac:(vm_compute; reflexivity)
              eq_refl)
    as (Hreg & _ & _ & Hlogin).
  destruct (Hlogin [] "tok2" None (answer "naver" "12345") None eq_refl)
    as (w2 & Hrun & _ & Hid & _).
  eexists _, w2. split; [exact Hreg|]. split; [exact Hrun|].
  rewrite Hid. vm_compute. reflexivity.
Defined.

(** X8 on the sample deployment. *)
Lemma X_callback_then_registration_witness :
  exists w1,
    authorize_social_login ["naver"] (Some "tok") (Some "e@example.org")
      (answer "naver" "12345") None w_anonymous
    = (Ok (RedirectResponse (url_for "get_social_register_form") 302), w1)
    /\ registration_ready config w1 (answer "naver" "12345") "naver".
Proof.
  destruct (X_callback_then_registration (H := collaborators) config "naver"
              [] "tok" (Some "e@example.org") (answer "naver" "12345") None
              w_anonymous eq_refl eq_refl eq_refl eq_refl eq_refl)
    as (w1 & Hrun & _ & Hready & _).
  exists w1. split; [exact Hrun | exact Hready].
Defined.

(** X10 on the sample deployment. *)
Lemma X_link_is_repeated_witness :
  exists w1 w2,
    authorize_social_login ["naver"] (Some "tok") None
      (answer "naver" "12345") (Some "alice") w_linking
    = (Ok (RedirectResponse (url_for "index") 302), w1)
    /\ authorize_social_login ["naver"] (Some "tok") None
         (answer "naver" "12345") (Some "alice") w1
       = (Ok (RedirectResponse (url_for "index") 302), w2)
    /\ length (social_profiles (db w2)) = 2%nat.
Proof.
  destruct (X_link_is_repeated (H := collaborators) "naver" [] "tok" None
              (answer "naver" "12345") (Some "alice") w_linking
              eq_refl eq_refl eq_refl eq_refl eq_refl
              ltac:(vm_compute; discriminate))
    as (w1 & w2 & H1 & _ & H2 & Hrows).
  exists w1, w2. split; [exact H1|]. split; [exact H2|].
  rewrite Hrows. reflexivity.
Defined.

(** X11 on the sample deployment. *)
Lemma X_insert_iff_fresh_witness :
  exists w' row,
    member_form_update config (carol_form "forged") w_members
    = (Ok (redirect_to_form "carol"), w')
    /\ members (db w') = [alice; bob; row]
    /\ mb_id row = "carol"
    /\ mb_nick row = Some "ca"
    /\ mb_email row = Some "ca@example.org".
Proof.
  set (res := member_form_update config (carol_form "forged") w_members).
  assert (Hres : res = (Ok (redirect_to_form "carol"), snd res)).
  { apply injective_projections; [vm_compute; reflexivity | reflexivity]. }
  destruct (proj2 (proj2 (X_insert_iff_fresh (H := collaborators) config
                            (carol_form "forged") w_members
                            ltac:(vm_compute; reflexivity) eq_refl))
                  _ _ Hres)
    as (_ & _ & _ & _ & row & Hm & Hid & _ & _ & Hnick & Hemail & _).
  exists (snd res), row. split; [exact Hres|]. split; [exact Hm|].
  split; [exact Hid|]. split; [exact Hnick | exact Hemail].
Defined.

Lemma w_members_unique : unique_members (db w_members).
Proof.
  repeat split; apply (bool_decide_unpack _); vm_compute; exact I.
Qed.

(** X12 on the sample deployment. *)
Lemma X_insert_keeps_members_unique_witness :
  unique_members
    (db (snd (member_form_update config (carol_form "forged") w_members))).
Proof.
  apply (X_insert_keeps_members_unique (H := collaborators) config
           (carol_form "forged") w_members
           ltac:(vm_compute; reflexivity) eq_refl w_members_unique).
Defined.

(** X13 on the sample deployment. *)
Lemma X_member_ids_persist_witness :
  map mb_id (members (db (snd (member_form_update config alice_form
                                                  w_editing_alice))))
  = ["alice"; "bob"].
Proof.
  destruct (X_member_ids_persist (H := collaborators) config alice_form
              w_editing_alice eq_refl) as [Hkeep|Hadd].
  - apply (f_equal (map (fun k => fst (fst k)))) in Hkeep.
    rewrite !map_map in Hkeep. exact Hkeep.
  - exfalso. apply (f_equal length) in Hadd. vm_compute in Hadd.
    discriminate Hadd.
Defined.

(** X14 on the sample deployment. *)
Lemma X_update_without_target_witness :
  member_form_update config alice_form w_members
  = (Raise (HTTPException 404 "alice : 회원아이디가 존재하지 않습니다."),
     w_members).
Proof.
  destruct (X_update_without_target (H := collaborators) config alice_form
              w_members ltac:(vm_compute; reflexivity)
              ltac:(repeat constructor; vm_compute; discriminate))
    as (e & Hrun & He).
  rewrite Hrun, He; [reflexivity|].
  constructor; [intros Hne; exfalso; apply Hne; reflexivity|].
  constructor; [intros _; split; vm_compute; discriminate|].
  constructor.
Defined.

(** X15 at a postal code of two three-byte characters and two digits. *)
Lemma X_zip_parts_witness :
  mb_zip1 (inserted_member zip_form) = Some "한국1"
  /\ mb_zip2 (inserted_member zip_form) = Some "2"
  /\ mb_zip1 (updated_member config zip_form alice) = Some "한국1"
  /\ mb_zip2 (updated_member config zip_form alice) = Some "2".
Proof.
  destruct (X_zip_parts (H := collaborators) config zip_form alice)
    as (part1 & part2 & H1 & H2 & H3 & H4 & _ & _).
  assert (E1 : part1 = "한국1") by (vm_compute in H1; congruence).
  assert (E2 : part2 = "2") by (vm_compute in H2; congruence).
  rewrite <- E1, <- E2. auto.
Defined.

(** X16 on the sample deployment. *)
Lemma X_edit_then_update_witness :
  exists w1 w2 stored,
    member_form_edit "alice" w_members
    = (Ok (TemplateResponse "admin/member_form.html" "h:alice"), w1)
    /\ member_form_update config alice_form w1
       = (Ok (redirect_to_form "alice"), w2)
    /\ members (db w2) = [stored; bob]
    /\ mb_id stored = "alice"
    /\ mb_nick stored = Some "ally"
    /\ mb_email stored = Some "ally@example.org"
    /\ mb_level stored = Some 2.
Proof.
  destruct (X_edit_then_update (H := collaborators) config alice_form
              w_members 0%nat alice
              ltac:(vm_compute; reflexivity) eq_refl eq_refl eq_refl)
    as (w1 & Hedit & _ & _ & _ & Hok).
  set (res := member_form_update config alice_form w1).
  assert (Hres : res = (Ok (redirect_to_form "alice"), snd res)).
  { apply injective_projections; [|reflexivity].
    injection Hedit as <-. vm_compute. reflexivity. }
  destruct (Hok _ _ Hres) as (_ & _ & stored & Hm & Hid & Hcols).
  exists w1, (snd res), stored. split; [exact Hedit|].
  split; [exact Hres|]. split; [exact Hm|]. split; [exact Hid|].
  destruct Hcols as (_ & _ & _ & _ & _ & Hnick & Hemail & Hrest).
  split; [exact Hnick|]. split; [exact Hemail|]. apply Hrest.
Defined.

(** X17 on the sample deployment. *)
Lemma X_add_then_insert_witness :
  exists w1 w2 row,
    member_form_add w_members
    = (Ok (TemplateResponse "admin/member_form.html" "h:"), w1)
    /\ member_form_update config (carol_form "h:") w1
       = (Ok (redirect_to_form "carol"), w2)
    /\ members (db w2) = [alice; bob; row]
    /\ mb_id row = "carol"
    /\ mb_nick row = Some "ca"
    /\ mb_level row = Some 3.
Proof.
  destruct (X_add_then_insert (H := collaborators) config (carol_form "h:")
              w_members ltac:(vm_compute; reflexivity) eq_refl eq_refl)
    as (w1 & Hadd & _ & _ & _ & Hok).
  set (res := member_form_update config (carol_form "h:") w1).
  assert (Hres : res = (Ok (redirect_to_form "carol"), snd res)).
  { apply injective_projections; [|reflexivity].
    injection Hadd as <-. vm_compute. reflexivity. }
  destruct (Hok _ _ Hres) as (_ & _ & _ & row & Hm & Hcols).
  exists w1, (snd res), row. split; [exact Hadd|].
  split; [exact Hres|]. split; [exact Hm|].
  destruct Hcols as (Hid & _ & _ & Hnick & Hrest).
  split; [exact Hid|]. split; [exact Hnick|]. apply Hrest.
Defined.

(** X18 on the sample deployment. *)
Lemma X_edit_keeps_members_unique_witness :
  unique_members
    (db (snd (member_form_update config alice_form w_editing_alice))).
Proof.
  apply (X_edit_keeps_members_unique (H := collaborators) config alice_form
           w_editing_alice ltac:(vm_compute; reflexivity) eq_refl eq_refl
           eq_refl eq_refl).
  repeat split; apply (bool_decide_unpack _); vm_compute; exact I.
Defined.

End FlowWitnesses.
